(** * A shallow embedding of the library management system (lms.py)

    The development follows the source file top down: the Python values the
    program relies on (insertion-ordered dictionaries, strings, calendar
    dates, parsed JSON documents), then the classes [Book], [Member] and
    [Library] with every method of [Library] that touches the state, and
    finally the properties of the lending state machine.

    Conventions.
    - A Python [dict] is an association list in insertion order; Python
      keeps its keys unique, which is the predicate [dict_wf].
    - Text is a [string]: each of its characters stands for the character
      with its number as code point, so the texts of the store are those
      of the first 256 code points.  What [search_books] does depends on
      the characters beyond them as well; its test and its loop are
      embedded for text of any characters, a list of code points.
    - A [datetime] is a proleptic Gregorian day number together with the
      microseconds elapsed in that day, the normal form CPython uses for
      date arithmetic.
    - Amounts of money are Python floats in the source; they are written
      here as the rationals they denote.  With the rate 1.0 set by the
      constructor every product of a day count and the rate is exact.
    - [json.load] and [json.dump] are inverse on the documents the program
      writes; a file is therefore kept as the document it parses to. *)

From Stdlib Require Import ZArith NArith QArith List String Ascii Bool Lia.
Import ListNotations.

#[local] Set Warnings "-register-all".

Local Open Scope string_scope.
Local Open Scope list_scope.
Local Open Scope Z_scope.

(** ** Exceptions and results *)

Inductive exn : Type :=
| FileNotFoundError
| JSONDecodeError
| AttributeError
| TypeError
| KeyError (key : option string)
| ValueError
| OverflowError.

(** The result of a computation that touches no state. *)
Inductive result (A : Type) : Type :=
| Ok (a : A)
| Raise (e : exn).

Arguments Ok {A} a.
Arguments Raise {A} e.

Definition bind {A B : Type} (r : result A) (k : A -> result B) : result B :=
  match r with
  | Ok a => k a
  | Raise e => Raise e
  end.

Notation "x <- r ;; k" := (bind r (fun x => k))
  (at level 61, r at next level, right associativity).

(** The result of decoding persisted content.  [Untyped] marks a value the
    source would store as it is although it lies outside the types of the
    data model (a number as a title, say): the typed records below cannot
    hold it, and nothing is claimed about such content. *)
Inductive loaded (A : Type) : Type :=
| Loaded (a : A)
| Failed (e : exn)
| Untyped.

Arguments Loaded {A} a.
Arguments Failed {A} e.
Arguments Untyped {A}.

Definition lbind {A B : Type} (r : loaded A) (k : A -> loaded B) : loaded B :=
  match r with
  | Loaded a => k a
  | Failed e => Failed e
  | Untyped => Untyped
  end.

Notation "x <~ r ;; k" := (lbind r (fun x => k))
  (at level 61, r at next level, right associativity).

(** ** Insertion-ordered dictionaries *)

Section PyDict.
Context {V : Type}.

Definition pydict : Type := list (string * V).

(** [d.get(k)] *)
Fixpoint dict_get (k : string) (d : pydict) : option V :=
  match d with
  | [] => None
  | (k', v) :: d' => if String.eqb k k' then Some v else dict_get k d'
  end.

(** [k in d] *)
Definition dict_mem (k : string) (d : pydict) : bool :=
  match dict_get k d with
  | Some _ => true
  | None => false
  end.

(** [d[k] = v]: an existing key keeps its place, a new key goes last. *)
Fixpoint dict_set (k : string) (v : V) (d : pydict) : pydict :=
  match d with
  | [] => [(k, v)]
  | (k', v') :: d' =>
      if String.eqb k k' then (k, v) :: d' else (k', v') :: dict_set k v d'
  end.

Definition dict_keys (d : pydict) : list string := map fst d.
Definition dict_values (d : pydict) : list V := map snd d.

(** The keys of a Python dictionary are pairwise different. *)
Definition dict_wf (d : pydict) : Prop := NoDup (dict_keys d).

(** [{k: v for (k, v) in items}] *)
Definition dict_of_items (items : list (string * V)) : pydict :=
  fold_left (fun d kv => dict_set (fst kv) (snd kv) d) items [].
End PyDict.

Arguments pydict V : clear implicits.

(** ** Unicode text

    The search compares lower-case forms, and [str.lower()] is not a
    function of single characters: it lengthens some texts and reads a
    capital sigma by the letters around it.  The functions of CPython that
    [str.lower()] and the operator [in] run on two texts are therefore
    embedded for text of any characters: a character is its code point, a
    text the list of its characters.  The three tables are those of the
    Unicode character database in version 14.0, which CPython 3.11 is built
    with, written as ranges of code points. *)

Definition text : Type := list N.

(** The lower-case letter of a capital letter: the code points from the
    first to the second of an entry, in steps of the third, are mapped to
    the code points that begin with the fourth. *)
Definition lowercase_table : list (N * N * N * N) :=
  [(0x41, 0x5A, 1, 0x61); (0xC0, 0xD6, 1, 0xE0); (0xD8, 0xDE, 1, 0xF8);
   (0x100, 0x12E, 2, 0x101); (0x130, 0x130, 1, 0x69);
   (0x132, 0x136, 2, 0x133); (0x139, 0x147, 2, 0x13A);
   (0x14A, 0x176, 2, 0x14B); (0x178, 0x178, 1, 0xFF);
   (0x179, 0x17D, 2, 0x17A); (0x181, 0x181, 1, 0x253);
   (0x182, 0x184, 2, 0x183); (0x186, 0x186, 1, 0x254);
   (0x187, 0x187, 1, 0x188); (0x189, 0x18A, 1, 0x256);
   (0x18B, 0x18B, 1, 0x18C); (0x18E, 0x18E, 1, 0x1DD);
   (0x18F, 0x18F, 1, 0x259); (0x190, 0x190, 1, 0x25B);
   (0x191, 0x191, 1, 0x192); (0x193, 0x193, 1, 0x260);
   (0x194, 0x194, 1, 0x263); (0x196, 0x196, 1, 0x269);
   (0x197, 0x197, 1, 0x268); (0x198, 0x198, 1, 0x199);
   (0x19C, 0x19C, 1, 0x26F); (0x19D, 0x19D, 1, 0x272);
   (0x19F, 0x19F, 1, 0x275); (0x1A0, 0x1A4, 2, 0x1A1);
   (0x1A6, 0x1A6, 1, 0x280); (0x1A7, 0x1A7, 1, 0x1A8);
   (0x1A9, 0x1A9, 1, 0x283); (0x1AC, 0x1AC, 1, 0x1AD);
   (0x1AE, 0x1AE, 1, 0x288); (0x1AF, 0x1AF, 1, 0x1B0);
   (0x1B1, 0x1B2, 1, 0x28A); (0x1B3, 0x1B5, 2, 0x1B4);
   (0x1B7, 0x1B7, 1, 0x292); (0x1B8, 0x1B8, 1, 0x1B9);
   (0x1BC, 0x1BC, 1, 0x1BD); (0x1C4, 0x1C4, 1, 0x1C6);
   (0x1C5, 0x1C5, 1, 0x1C6); (0x1C7, 0x1C7, 1, 0x1C9);
   (0x1C8, 0x1C8, 1, 0x1C9); (0x1CA, 0x1CA, 1, 0x1CC);
   (0x1CB, 0x1DB, 2, 0x1CC); (0x1DE, 0x1EE, 2, 0x1DF);
   (0x1F1, 0x1F1, 1, 0x1F3); (0x1F2, 0x1F4, 2, 0x1F3);
   (0x1F6, 0x1F6, 1, 0x195); (0x1F7, 0x1F7, 1, 0x1BF);
   (0x1F8, 0x21E, 2, 0x1F9); (0x220, 0x220, 1, 0x19E);
   (0x222, 0x232, 2, 0x223); (0x23A, 0x23A, 1, 0x2C65);
   (0x23B, 0x23B, 1, 0x23C); (0x23D, 0x23D, 1, 0x19A);
   (0x23E, 0x23E, 1, 0x2C66); (0x241, 0x241, 1, 0x242);
   (0x243, 0x243, 1, 0x180); (0x244, 0x244, 1, 0x289);
   (0x245, 0x245, 1, 0x28C); (0x246, 0x24E, 2, 0x247);
   (0x370, 0x372, 2, 0x371); (0x376, 0x376, 1, 0x377);
   (0x37F, 0x37F, 1, 0x3F3); (0x386, 0x386, 1, 0x3AC);
   (0x388, 0x38A, 1, 0x3AD); (0x38C, 0x38C, 1, 0x3CC);
   (0x38E, 0x38F, 1, 0x3CD); (0x391, 0x3A1, 1, 0x3B1);
   (0x3A3, 0x3AB, 1, 0x3C3); (0x3CF, 0x3CF, 1, 0x3D7);
   (0x3D8, 0x3EE, 2, 0x3D9); (0x3F4, 0x3F4, 1, 0x3B8);
   (0x3F7, 0x3F7, 1, 0x3F8); (0x3F9, 0x3F9, 1, 0x3F2);
   (0x3FA, 0x3FA, 1, 0x3FB); (0x3FD, 0x3FF, 1, 0x37B);
   (0x400, 0x40F, 1, 0x450); (0x410, 0x42F, 1, 0x430);
   (0x460, 0x480, 2, 0x461); (0x48A, 0x4BE, 2, 0x48B);
   (0x4C0, 0x4C0, 1, 0x4CF); (0x4C1, 0x4CD, 2, 0x4C2);
   (0x4D0, 0x52E, 2, 0x4D1); (0x531, 0x556, 1, 0x561);
   (0x10A0, 0x10C5, 1, 0x2D00); (0x10C7, 0x10C7, 1, 0x2D27);
   (0x10CD, 0x10CD, 1, 0x2D2D); (0x13A0, 0x13EF, 1, 0xAB70);
   (0x13F0, 0x13F5, 1, 0x13F8); (0x1C90, 0x1CBA, 1, 0x10D0);
   (0x1CBD, 0x1CBF, 1, 0x10FD); (0x1E00, 0x1E94, 2, 0x1E01);
   (0x1E9E, 0x1E9E, 1, 0xDF); (0x1EA0, 0x1EFE, 2, 0x1EA1);
   (0x1F08, 0x1F0F, 1, 0x1F00); (0x1F18, 0x1F1D, 1, 0x1F10);
   (0x1F28, 0x1F2F, 1, 0x1F20); (0x1F38, 0x1F3F, 1, 0x1F30);
   (0x1F48, 0x1F4D, 1, 0x1F40); (0x1F59, 0x1F5F, 2, 0x1F51);
   (0x1F68, 0x1F6F, 1, 0x1F60); (0x1F88, 0x1F8F, 1, 0x1F80);
   (0x1F98, 0x1F9F, 1, 0x1F90); (0x1FA8, 0x1FAF, 1, 0x1FA0);
   (0x1FB8, 0x1FB9, 1, 0x1FB0); (0x1FBA, 0x1FBB, 1, 0x1F70);
   (0x1FBC, 0x1FBC, 1, 0x1FB3); (0x1FC8, 0x1FCB, 1, 0x1F72);
   (0x1FCC, 0x1FCC, 1, 0x1FC3); (0x1FD8, 0x1FD9, 1, 0x1FD0);
   (0x1FDA, 0x1FDB, 1, 0x1F76); (0x1FE8, 0x1FE9, 1, 0x1FE0);
   (0x1FEA, 0x1FEB, 1, 0x1F7A); (0x1FEC, 0x1FEC, 1, 0x1FE5);
   (0x1FF8, 0x1FF9, 1, 0x1F78); (0x1FFA, 0x1FFB, 1, 0x1F7C);
   (0x1FFC, 0x1FFC, 1, 0x1FF3); (0x2126, 0x2126, 1, 0x3C9);
   (0x212A, 0x212A, 1, 0x6B); (0x212B, 0x212B, 1, 0xE5);
   (0x2132, 0x2132, 1, 0x214E); (0x2160, 0x216F, 1, 0x2170);
   (0x2183, 0x2183, 1, 0x2184); (0x24B6, 0x24CF, 1, 0x24D0);
   (0x2C00, 0x2C2F, 1, 0x2C30); (0x2C60, 0x2C60, 1, 0x2C61);
   (0x2C62, 0x2C62, 1, 0x26B); (0x2C63, 0x2C63, 1, 0x1D7D);
   (0x2C64, 0x2C64, 1, 0x27D); (0x2C67, 0x2C6B, 2, 0x2C68);
   (0x2C6D, 0x2C6D, 1, 0x251); (0x2C6E, 0x2C6E, 1, 0x271);
   (0x2C6F, 0x2C6F, 1, 0x250); (0x2C70, 0x2C70, 1, 0x252);
   (0x2C72, 0x2C72, 1, 0x2C73); (0x2C75, 0x2C75, 1, 0x2C76);
   (0x2C7E, 0x2C7F, 1, 0x23F); (0x2C80, 0x2CE2, 2, 0x2C81);
   (0x2CEB, 0x2CED, 2, 0x2CEC); (0x2CF2, 0x2CF2, 1, 0x2CF3);
   (0xA640, 0xA66C, 2, 0xA641); (0xA680, 0xA69A, 2, 0xA681);
   (0xA722, 0xA72E, 2, 0xA723); (0xA732, 0xA76E, 2, 0xA733);
   (0xA779, 0xA77B, 2, 0xA77A); (0xA77D, 0xA77D, 1, 0x1D79);
   (0xA77E, 0xA786, 2, 0xA77F); (0xA78B, 0xA78B, 1, 0xA78C);
   (0xA78D, 0xA78D, 1, 0x265); (0xA790, 0xA792, 2, 0xA791);
   (0xA796, 0xA7A8, 2, 0xA797); (0xA7AA, 0xA7AA, 1, 0x266);
   (0xA7AB, 0xA7AB, 1, 0x25C); (0xA7AC, 0xA7AC, 1, 0x261);
   (0xA7AD, 0xA7AD, 1, 0x26C); (0xA7AE, 0xA7AE, 1, 0x26A);
   (0xA7B0, 0xA7B0, 1, 0x29E); (0xA7B1, 0xA7B1, 1, 0x287);
   (0xA7B2, 0xA7B2, 1, 0x29D); (0xA7B3, 0xA7B3, 1, 0xAB53);
   (0xA7B4, 0xA7C2, 2, 0xA7B5); (0xA7C4, 0xA7C4, 1, 0xA794);
   (0xA7C5, 0xA7C5, 1, 0x282); (0xA7C6, 0xA7C6, 1, 0x1D8E);
   (0xA7C7, 0xA7C9, 2, 0xA7C8); (0xA7D0, 0xA7D0, 1, 0xA7D1);
   (0xA7D6, 0xA7D8, 2, 0xA7D7); (0xA7F5, 0xA7F5, 1, 0xA7F6);
   (0xFF21, 0xFF3A, 1, 0xFF41); (0x10400, 0x10427, 1, 0x10428);
   (0x104B0, 0x104D3, 1, 0x104D8); (0x10570, 0x1057A, 1, 0x10597);
   (0x1057C, 0x1058A, 1, 0x105A3); (0x1058C, 0x10592, 1, 0x105B3);
   (0x10594, 0x10595, 1, 0x105BB); (0x10C80, 0x10CB2, 1, 0x10CC0);
   (0x118A0, 0x118BF, 1, 0x118C0); (0x16E40, 0x16E5F, 1, 0x16E60);
   (0x1E900, 0x1E921, 1, 0x1E922)]%N.

(** The characters with the property [Cased]. *)
Definition cased_table : list (N * N) :=
  [(0x41, 0x5A); (0x61, 0x7A); (0xAA, 0xAA); (0xB5, 0xB5); (0xBA, 0xBA);
   (0xC0, 0xD6); (0xD8, 0xF6); (0xF8, 0x1BA); (0x1BC, 0x1BF); (0x1C4, 0x293);
   (0x295, 0x2B8); (0x2C0, 0x2C1); (0x2E0, 0x2E4); (0x345, 0x345);
   (0x370, 0x373); (0x376, 0x377); (0x37A, 0x37D); (0x37F, 0x37F);
   (0x386, 0x386); (0x388, 0x38A); (0x38C, 0x38C); (0x38E, 0x3A1);
   (0x3A3, 0x3F5); (0x3F7, 0x481); (0x48A, 0x52F); (0x531, 0x556);
   (0x560, 0x588); (0x10A0, 0x10C5); (0x10C7, 0x10C7); (0x10CD, 0x10CD);
   (0x10D0, 0x10FA); (0x10FD, 0x10FF); (0x13A0, 0x13F5); (0x13F8, 0x13FD);
   (0x1C80, 0x1C88); (0x1C90, 0x1CBA); (0x1CBD, 0x1CBF); (0x1D00, 0x1DBF);
   (0x1E00, 0x1F15); (0x1F18, 0x1F1D); (0x1F20, 0x1F45); (0x1F48, 0x1F4D);
   (0x1F50, 0x1F57); (0x1F59, 0x1F59); (0x1F5B, 0x1F5B); (0x1F5D, 0x1F5D);
   (0x1F5F, 0x1F7D); (0x1F80, 0x1FB4); (0x1FB6, 0x1FBC); (0x1FBE, 0x1FBE);
   (0x1FC2, 0x1FC4); (0x1FC6, 0x1FCC); (0x1FD0, 0x1FD3); (0x1FD6, 0x1FDB);
   (0x1FE0, 0x1FEC); (0x1FF2, 0x1FF4); (0x1FF6, 0x1FFC); (0x2071, 0x2071);
   (0x207F, 0x207F); (0x2090, 0x209C); (0x2102, 0x2102); (0x2107, 0x2107);
   (0x210A, 0x2113); (0x2115, 0x2115); (0x2119, 0x211D); (0x2124, 0x2124);
   (0x2126, 0x2126); (0x2128, 0x2128); (0x212A, 0x212D); (0x212F, 0x2134);
   (0x2139, 0x2139); (0x213C, 0x213F); (0x2145, 0x2149); (0x214E, 0x214E);
   (0x2160, 0x217F); (0x2183, 0x2184); (0x24B6, 0x24E9); (0x2C00, 0x2CE4);
   (0x2CEB, 0x2CEE); (0x2CF2, 0x2CF3); (0x2D00, 0x2D25); (0x2D27, 0x2D27);
   (0x2D2D, 0x2D2D); (0xA640, 0xA66D); (0xA680, 0xA69D); (0xA722, 0xA787);
   (0xA78B, 0xA78E); (0xA790, 0xA7CA); (0xA7D0, 0xA7D1); (0xA7D3, 0xA7D3);
   (0xA7D5, 0xA7D9); (0xA7F5, 0xA7F6); (0xA7F8, 0xA7FA); (0xAB30, 0xAB5A);
   (0xAB5C, 0xAB68); (0xAB70, 0xABBF); (0xFB00, 0xFB06); (0xFB13, 0xFB17);
   (0xFF21, 0xFF3A); (0xFF41, 0xFF5A); (0x10400, 0x1044F);
   (0x104B0, 0x104D3); (0x104D8, 0x104FB); (0x10570, 0x1057A);
   (0x1057C, 0x1058A); (0x1058C, 0x10592); (0x10594, 0x10595);
   (0x10597, 0x105A1); (0x105A3, 0x105B1); (0x105B3, 0x105B9);
   (0x105BB, 0x105BC); (0x10780, 0x10780); (0x10783, 0x10785);
   (0x10787, 0x107B0); (0x107B2, 0x107BA); (0x10C80, 0x10CB2);
   (0x10CC0, 0x10CF2); (0x118A0, 0x118DF); (0x16E40, 0x16E7F);
   (0x1D400, 0x1D454); (0x1D456, 0x1D49C); (0x1D49E, 0x1D49F);
   (0x1D4A2, 0x1D4A2); (0x1D4A5, 0x1D4A6); (0x1D4A9, 0x1D4AC);
   (0x1D4AE, 0x1D4B9); (0x1D4BB, 0x1D4BB); (0x1D4BD, 0x1D4C3);
   (0x1D4C5, 0x1D505); (0x1D507, 0x1D50A); (0x1D50D, 0x1D514);
   (0x1D516, 0x1D51C); (0x1D51E, 0x1D539); (0x1D53B, 0x1D53E);
   (0x1D540, 0x1D544); (0x1D546, 0x1D546); (0x1D54A, 0x1D550);
   (0x1D552, 0x1D6A5); (0x1D6A8, 0x1D6C0); (0x1D6C2, 0x1D6DA);
   (0x1D6DC, 0x1D6FA); (0x1D6FC, 0x1D714); (0x1D716, 0x1D734);
   (0x1D736, 0x1D74E); (0x1D750, 0x1D76E); (0x1D770, 0x1D788);
   (0x1D78A, 0x1D7A8); (0x1D7AA, 0x1D7C2); (0x1D7C4, 0x1D7CB);
   (0x1DF00, 0x1DF09); (0x1DF0B, 0x1DF1E); (0x1E900, 0x1E943);
   (0x1F130, 0x1F149); (0x1F150, 0x1F169); (0x1F170, 0x1F189)]%N.

(** The characters with the property [Case_Ignorable]. *)
Definition case_ignorable_table : list (N * N) :=
  [(0x27, 0x27); (0x2E, 0x2E); (0x3A, 0x3A); (0x5E, 0x5E); (0x60, 0x60);
   (0xA8, 0xA8); (0xAD, 0xAD); (0xAF, 0xAF); (0xB4, 0xB4); (0xB7, 0xB8);
   (0x2B0, 0x36F); (0x374, 0x375); (0x37A, 0x37A); (0x384, 0x385);
   (0x387, 0x387); (0x483, 0x489); (0x559, 0x559); (0x55F, 0x55F);
   (0x591, 0x5BD); (0x5BF, 0x5BF); (0x5C1, 0x5C2); (0x5C4, 0x5C5);
   (0x5C7, 0x5C7); (0x5F4, 0x5F4); (0x600, 0x605); (0x610, 0x61A);
   (0x61C, 0x61C); (0x640, 0x640); (0x64B, 0x65F); (0x670, 0x670);
   (0x6D6, 0x6DD); (0x6DF, 0x6E8); (0x6EA, 0x6ED); (0x70F, 0x70F);
   (0x711, 0x711); (0x730, 0x74A); (0x7A6, 0x7B0); (0x7EB, 0x7F5);
   (0x7FA, 0x7FA); (0x7FD, 0x7FD); (0x816, 0x82D); (0x859, 0x85B);
   (0x888, 0x888); (0x890, 0x891); (0x898, 0x89F); (0x8C9, 0x902);
   (0x93A, 0x93A); (0x93C, 0x93C); (0x941, 0x948); (0x94D, 0x94D);
   (0x951, 0x957); (0x962, 0x963); (0x971, 0x971); (0x981, 0x981);
   (0x9BC, 0x9BC); (0x9C1, 0x9C4); (0x9CD, 0x9CD); (0x9E2, 0x9E3);
   (0x9FE, 0x9FE); (0xA01, 0xA02); (0xA3C, 0xA3C); (0xA41, 0xA42);
   (0xA47, 0xA48); (0xA4B, 0xA4D); (0xA51, 0xA51); (0xA70, 0xA71);
   (0xA75, 0xA75); (0xA81, 0xA82); (0xABC, 0xABC); (0xAC1, 0xAC5);
   (0xAC7, 0xAC8); (0xACD, 0xACD); (0xAE2, 0xAE3); (0xAFA, 0xAFF);
   (0xB01, 0xB01); (0xB3C, 0xB3C); (0xB3F, 0xB3F); (0xB41, 0xB44);
   (0xB4D, 0xB4D); (0xB55, 0xB56); (0xB62, 0xB63); (0xB82, 0xB82);
   (0xBC0, 0xBC0); (0xBCD, 0xBCD); (0xC00, 0xC00); (0xC04, 0xC04);
   (0xC3C, 0xC3C); (0xC3E, 0xC40); (0xC46, 0xC48); (0xC4A, 0xC4D);
   (0xC55, 0xC56); (0xC62, 0xC63); (0xC81, 0xC81); (0xCBC, 0xCBC);
   (0xCBF, 0xCBF); (0xCC6, 0xCC6); (0xCCC, 0xCCD); (0xCE2, 0xCE3);
   (0xD00, 0xD01); (0xD3B, 0xD3C); (0xD41, 0xD44); (0xD4D, 0xD4D);
   (0xD62, 0xD63); (0xD81, 0xD81); (0xDCA, 0xDCA); (0xDD2, 0xDD4);
   (0xDD6, 0xDD6); (0xE31, 0xE31); (0xE34, 0xE3A); (0xE46, 0xE4E);
   (0xEB1, 0xEB1); (0xEB4, 0xEBC); (0xEC6, 0xEC6); (0xEC8, 0xECD);
   (0xF18, 0xF19); (0xF35, 0xF35); (0xF37, 0xF37); (0xF39, 0xF39);
   (0xF71, 0xF7E); (0xF80, 0xF84); (0xF86, 0xF87); (0xF8D, 0xF97);
   (0xF99, 0xFBC); (0xFC6, 0xFC6); (0x102D, 0x1030); (0x1032, 0x1037);
   (0x1039, 0x103A); (0x103D, 0x103E); (0x1058, 0x1059); (0x105E, 0x1060);
   (0x1071, 0x1074); (0x1082, 0x1082); (0x1085, 0x1086); (0x108D, 0x108D);
   (0x109D, 0x109D); (0x10FC, 0x10FC); (0x135D, 0x135F); (0x1712, 0x1714);
   (0x1732, 0x1733); (0x1752, 0x1753); (0x1772, 0x1773); (0x17B4, 0x17B5);
   (0x17B7, 0x17BD); (0x17C6, 0x17C6); (0x17C9, 0x17D3); (0x17D7, 0x17D7);
   (0x17DD, 0x17DD); (0x180B, 0x180F); (0x1843, 0x1843); (0x1885, 0x1886);
   (0x18A9, 0x18A9); (0x1920, 0x1922); (0x1927, 0x1928); (0x1932, 0x1932);
   (0x1939, 0x193B); (0x1A17, 0x1A18); (0x1A1B, 0x1A1B); (0x1A56, 0x1A56);
   (0x1A58, 0x1A5E); (0x1A60, 0x1A60); (0x1A62, 0x1A62); (0x1A65, 0x1A6C);
   (0x1A73, 0x1A7C); (0x1A7F, 0x1A7F); (0x1AA7, 0x1AA7); (0x1AB0, 0x1ACE);
   (0x1B00, 0x1B03); (0x1B34, 0x1B34); (0x1B36, 0x1B3A); (0x1B3C, 0x1B3C);
   (0x1B42, 0x1B42); (0x1B6B, 0x1B73); (0x1B80, 0x1B81); (0x1BA2, 0x1BA5);
   (0x1BA8, 0x1BA9); (0x1BAB, 0x1BAD); (0x1BE6, 0x1BE6); (0x1BE8, 0x1BE9);
   (0x1BED, 0x1BED); (0x1BEF, 0x1BF1); (0x1C2C, 0x1C33); (0x1C36, 0x1C37);
   (0x1C78, 0x1C7D); (0x1CD0, 0x1CD2); (0x1CD4, 0x1CE0); (0x1CE2, 0x1CE8);
   (0x1CED, 0x1CED); (0x1CF4, 0x1CF4); (0x1CF8, 0x1CF9); (0x1D2C, 0x1D6A);
   (0x1D78, 0x1D78); (0x1D9B, 0x1DFF); (0x1FBD, 0x1FBD); (0x1FBF, 0x1FC1);
   (0x1FCD, 0x1FCF); (0x1FDD, 0x1FDF); (0x1FED, 0x1FEF); (0x1FFD, 0x1FFE);
   (0x200B, 0x200F); (0x2018, 0x2019); (0x2024, 0x2024); (0x2027, 0x2027);
   (0x202A, 0x202E); (0x2060, 0x2064); (0x2066, 0x206F); (0x2071, 0x2071);
   (0x207F, 0x207F); (0x2090, 0x209C); (0x20D0, 0x20F0); (0x2C7C, 0x2C7D);
   (0x2CEF, 0x2CF1); (0x2D6F, 0x2D6F); (0x2D7F, 0x2D7F); (0x2DE0, 0x2DFF);
   (0x2E2F, 0x2E2F); (0x3005, 0x3005); (0x302A, 0x302D); (0x3031, 0x3035);
   (0x303B, 0x303B); (0x3099, 0x309E); (0x30FC, 0x30FE); (0xA015, 0xA015);
   (0xA4F8, 0xA4FD); (0xA60C, 0xA60C); (0xA66F, 0xA672); (0xA674, 0xA67D);
   (0xA67F, 0xA67F); (0xA69C, 0xA69F); (0xA6F0, 0xA6F1); (0xA700, 0xA721);
   (0xA770, 0xA770); (0xA788, 0xA78A); (0xA7F2, 0xA7F4); (0xA7F8, 0xA7F9);
   (0xA802, 0xA802); (0xA806, 0xA806); (0xA80B, 0xA80B); (0xA825, 0xA826);
   (0xA82C, 0xA82C); (0xA8C4, 0xA8C5); (0xA8E0, 0xA8F1); (0xA8FF, 0xA8FF);
   (0xA926, 0xA92D); (0xA947, 0xA951); (0xA980, 0xA982); (0xA9B3, 0xA9B3);
   (0xA9B6, 0xA9B9); (0xA9BC, 0xA9BD); (0xA9CF, 0xA9CF); (0xA9E5, 0xA9E6);
   (0xAA29, 0xAA2E); (0xAA31, 0xAA32); (0xAA35, 0xAA36); (0xAA43, 0xAA43);
   (0xAA4C, 0xAA4C); (0xAA70, 0xAA70); (0xAA7C, 0xAA7C); (0xAAB0, 0xAAB0);
   (0xAAB2, 0xAAB4); (0xAAB7, 0xAAB8); (0xAABE, 0xAABF); (0xAAC1, 0xAAC1);
   (0xAADD, 0xAADD); (0xAAEC, 0xAAED); (0xAAF3, 0xAAF4); (0xAAF6, 0xAAF6);
   (0xAB5B, 0xAB5F); (0xAB69, 0xAB6B); (0xABE5, 0xABE5); (0xABE8, 0xABE8);
   (0xABED, 0xABED); (0xFB1E, 0xFB1E); (0xFBB2, 0xFBC2); (0xFE00, 0xFE0F);
   (0xFE13, 0xFE13); (0xFE20, 0xFE2F); (0xFE52, 0xFE52); (0xFE55, 0xFE55);
   (0xFEFF, 0xFEFF); (0xFF07, 0xFF07); (0xFF0E, 0xFF0E); (0xFF1A, 0xFF1A);
   (0xFF3E, 0xFF3E); (0xFF40, 0xFF40); (0xFF70, 0xFF70); (0xFF9E, 0xFF9F);
   (0xFFE3, 0xFFE3); (0xFFF9, 0xFFFB); (0x101FD, 0x101FD);
   (0x102E0, 0x102E0); (0x10376, 0x1037A); (0x10780, 0x10785);
   (0x10787, 0x107B0); (0x107B2, 0x107BA); (0x10A01, 0x10A03);
   (0x10A05, 0x10A06); (0x10A0C, 0x10A0F); (0x10A38, 0x10A3A);
   (0x10A3F, 0x10A3F); (0x10AE5, 0x10AE6); (0x10D24, 0x10D27);
   (0x10EAB, 0x10EAC); (0x10F46, 0x10F50); (0x10F82, 0x10F85);
   (0x11001, 0x11001); (0x11038, 0x11046); (0x11070, 0x11070);
   (0x11073, 0x11074); (0x1107F, 0x11081); (0x110B3, 0x110B6);
   (0x110B9, 0x110BA); (0x110BD, 0x110BD); (0x110C2, 0x110C2);
   (0x110CD, 0x110CD); (0x11100, 0x11102); (0x11127, 0x1112B);
   (0x1112D, 0x11134); (0x11173, 0x11173); (0x11180, 0x11181);
   (0x111B6, 0x111BE); (0x111C9, 0x111CC); (0x111CF, 0x111CF);
   (0x1122F, 0x11231); (0x11234, 0x11234); (0x11236, 0x11237);
   (0x1123E, 0x1123E); (0x112DF, 0x112DF); (0x112E3, 0x112EA);
   (0x11300, 0x11301); (0x1133B, 0x1133C); (0x11340, 0x11340);
   (0x11366, 0x1136C); (0x11370, 0x11374); (0x11438, 0x1143F);
   (0x11442, 0x11444); (0x11446, 0x11446); (0x1145E, 0x1145E);
   (0x114B3, 0x114B8); (0x114BA, 0x114BA); (0x114BF, 0x114C0);
   (0x114C2, 0x114C3); (0x115B2, 0x115B5); (0x115BC, 0x115BD);
   (0x115BF, 0x115C0); (0x115DC, 0x115DD); (0x11633, 0x1163A);
   (0x1163D, 0x1163D); (0x1163F, 0x11640); (0x116AB, 0x116AB);
   (0x116AD, 0x116AD); (0x116B0, 0x116B5); (0x116B7, 0x116B7);
   (0x1171D, 0x1171F); (0x11722, 0x11725); (0x11727, 0x1172B);
   (0x1182F, 0x11837); (0x11839, 0x1183A); (0x1193B, 0x1193C);
   (0x1193E, 0x1193E); (0x11943, 0x11943); (0x119D4, 0x119D7);
   (0x119DA, 0x119DB); (0x119E0, 0x119E0); (0x11A01, 0x11A0A);
   (0x11A33, 0x11A38); (0x11A3B, 0x11A3E); (0x11A47, 0x11A47);
   (0x11A51, 0x11A56); (0x11A59, 0x11A5B); (0x11A8A, 0x11A96);
   (0x11A98, 0x11A99); (0x11C30, 0x11C36); (0x11C38, 0x11C3D);
   (0x11C3F, 0x11C3F); (0x11C92, 0x11CA7); (0x11CAA, 0x11CB0);
   (0x11CB2, 0x11CB3); (0x11CB5, 0x11CB6); (0x11D31, 0x11D36);
   (0x11D3A, 0x11D3A); (0x11D3C, 0x11D3D); (0x11D3F, 0x11D45);
   (0x11D47, 0x11D47); (0x11D90, 0x11D91); (0x11D95, 0x11D95);
   (0x11D97, 0x11D97); (0x11EF3, 0x11EF4); (0x13430, 0x13438);
   (0x16AF0, 0x16AF4); (0x16B30, 0x16B36); (0x16B40, 0x16B43);
   (0x16F4F, 0x16F4F); (0x16F8F, 0x16F9F); (0x16FE0, 0x16FE1);
   (0x16FE3, 0x16FE4); (0x1AFF0, 0x1AFF3); (0x1AFF5, 0x1AFFB);
   (0x1AFFD, 0x1AFFE); (0x1BC9D, 0x1BC9E); (0x1BCA0, 0x1BCA3);
   (0x1CF00, 0x1CF2D); (0x1CF30, 0x1CF46); (0x1D167, 0x1D169);
   (0x1D173, 0x1D182); (0x1D185, 0x1D18B); (0x1D1AA, 0x1D1AD);
   (0x1D242, 0x1D244); (0x1DA00, 0x1DA36); (0x1DA3B, 0x1DA6C);
   (0x1DA75, 0x1DA75); (0x1DA84, 0x1DA84); (0x1DA9B, 0x1DA9F);
   (0x1DAA1, 0x1DAAF); (0x1E000, 0x1E006); (0x1E008, 0x1E018);
   (0x1E01B, 0x1E021); (0x1E023, 0x1E024); (0x1E026, 0x1E02A);
   (0x1E130, 0x1E13D); (0x1E2AE, 0x1E2AE); (0x1E2EC, 0x1E2EF);
   (0x1E8D0, 0x1E8D6); (0x1E944, 0x1E94B); (0x1F3FB, 0x1F3FF);
   (0xE0001, 0xE0001); (0xE0020, 0xE007F); (0xE0100, 0xE01EF)]%N.

Fixpoint in_ranges (c : N) (table : list (N * N)) : bool :=
  match table with
  | [] => false
  | (first, last) :: table' =>
      ((first <=? c) && (c <=? last) || in_ranges c table')%N%bool
  end.

Fixpoint mapped (c : N) (table : list (N * N * N * N)) : N :=
  match table with
  | [] => c
  | (first, last, step, image) :: table' =>
      if ((first <=? c) && (c <=? last) && ((c - first) mod step =? 0))%N%bool
      then (image + (c - first))%N
      else mapped c table'
  end.

(** [_PyUnicode_ToLowercase], [_PyUnicode_IsCased] and
    [_PyUnicode_IsCaseIgnorable] *)
Definition to_lower (c : N) : N := mapped c lowercase_table.

Definition is_cased (c : N) : bool := in_ranges c cased_table.

Definition is_case_ignorable (c : N) : bool := in_ranges c case_ignorable_table.

(** [_PyUnicode_ToLowerFull]: the one character whose lower-case form is
    longer than itself is the capital I with a dot above, which becomes an
    i followed by a combining dot. *)
Definition to_lower_full (c : N) : text :=
  if (c =? 0x130)%N then [0x69; 0x307]%N else [to_lower c].

(** The scan of [handle_capital_sigma] over the characters that are
    ignored when the case of a neighbour is asked for. *)
Fixpoint skip_case_ignorable (s : text) : text :=
  match s with
  | [] => []
  | c :: s' => if is_case_ignorable c then skip_case_ignorable s' else s
  end.

(** [handle_capital_sigma]: a capital sigma becomes the final small sigma
    when a cased letter stands before it, and none after it, whatever
    characters to be ignored lie between.  [before] holds the characters
    before the sigma from the nearest to the farthest. *)
Definition handle_capital_sigma (before after : text) : N :=
  let final_sigma :=
    match skip_case_ignorable before with
    | c :: _ => is_cased c
    | [] => false
    end in
  let final_sigma :=
    if final_sigma then
      match skip_case_ignorable after with
      | c :: _ => negb (is_cased c)
      | [] => true
      end
    else false in
  (if final_sigma then 0x3C2 else 0x3C3)%N.

(** [lower_ucs4] *)
Definition lower_ucs4 (before : text) (c : N) (after : text) : text :=
  if (c =? 0x3A3)%N then [handle_capital_sigma before after] else to_lower_full c.

(** [do_lower]: the loop over the characters of the text. *)
Fixpoint do_lower (before s : text) : text :=
  match s with
  | [] => []
  | c :: after => lower_ucs4 before c after ++ do_lower (c :: before) after
  end.

(** [s.lower()] *)
Definition lower (s : text) : text := do_lower [] s.

Fixpoint starts_with (p s : text) : bool :=
  match p, s with
  | [], _ => true
  | _ :: _, [] => false
  | a :: p', b :: s' => ((a =? b)%N && starts_with p' s')%bool
  end.

(** [needle in hay] for two texts. *)
Fixpoint contains (needle hay : text) : bool :=
  (starts_with needle hay
   || match hay with
      | [] => false
      | _ :: hay' => contains needle hay'
      end)%bool.

(** The text a [string] stands for: every character of a [string] is the
    character with its number as code point. *)
Definition text_of (s : string) : text := map N_of_ascii (list_ascii_of_string s).

(** ** Lists of strings *)

(** [l.remove(x)]: drops the first occurrence, [ValueError] when there is
    none. *)
Fixpoint list_remove (x : string) (l : list string) : result (list string) :=
  match l with
  | [] => Raise ValueError
  | y :: l' =>
      if String.eqb x y then Ok l'
      else (r <- list_remove x l' ;; Ok (y :: r))
  end.

Definition count (x : string) (l : list string) : nat :=
  count_occ string_dec l x.

(** ** Calendar dates

    The functions below are the ones of CPython's [datetime] module that
    the program reaches through [datetime.now() + timedelta(days=14)],
    [strftime("%Y-%m-%d")], [strptime(_, "%Y-%m-%d")] and
    [(a - b).days]. *)

Definition MAXORDINAL : Z := 3652059.   (* 9999-12-31 *)
Definition US_PER_DAY : Z := 86400000000.

Definition is_leap (year : Z) : bool :=
  ((year mod 4 =? 0) && (negb (year mod 100 =? 0) || (year mod 400 =? 0)))%bool.

Definition days_before_year (year : Z) : Z :=
  let y := year - 1 in y * 365 + y / 4 - y / 100 + y / 400.

Definition DAYS_IN_MONTH (month : Z) : Z :=
  match month with
  | 1 => 31 | 2 => 28 | 3 => 31 | 4 => 30 | 5 => 31 | 6 => 30
  | 7 => 31 | 8 => 31 | 9 => 30 | 10 => 31 | 11 => 30 | 12 => 31
  | _ => -1
  end.

Definition DAYS_BEFORE_MONTH (month : Z) : Z :=
  match month with
  | 1 => 0 | 2 => 31 | 3 => 59 | 4 => 90 | 5 => 120 | 6 => 151
  | 7 => 181 | 8 => 212 | 9 => 243 | 10 => 273 | 11 => 304 | 12 => 334
  | _ => -1
  end.

Definition days_in_month (year month : Z) : Z :=
  if ((month =? 2) && is_leap year)%bool then 29 else DAYS_IN_MONTH month.

Definition days_before_month (year month : Z) : Z :=
  DAYS_BEFORE_MONTH month + (if ((2 <? month) && is_leap year)%bool then 1 else 0).

Definition ymd2ord (year month day : Z) : Z :=
  days_before_year year + days_before_month year month + day.

Definition DI400Y : Z := 146097.
Definition DI100Y : Z := 36524.
Definition DI4Y : Z := 1461.

(** The month and the day of the month of the day numbered [n] (from 0)
    within its year. *)
Definition month_day (n : Z) (leapyear : bool) : Z * Z :=
  let month := Z.shiftr (n + 50) 5 in
  let preceding :=
    DAYS_BEFORE_MONTH month + (if ((2 <? month) && leapyear)%bool then 1 else 0) in
  if n <? preceding then
    let month := month - 1 in
    let preceding :=
      preceding
      - (DAYS_IN_MONTH month + (if ((month =? 2) && leapyear)%bool then 1 else 0)) in
    (month, n - preceding + 1)
  else (month, n - preceding + 1).

Definition ord2ymd (n0 : Z) : Z * Z * Z :=
  let n := n0 - 1 in
  let n400 := n / DI400Y in
  let n := n mod DI400Y in
  let year := n400 * 400 + 1 in
  let n100 := n / DI100Y in
  let n := n mod DI100Y in
  let n4 := n / DI4Y in
  let n := n mod DI4Y in
  let n1 := n / 365 in
  let n := n mod 365 in
  let year := year + n100 * 100 + n4 * 4 + n1 in
  if ((n1 =? 4) || (n100 =? 4))%bool then (year - 1, 12, 31)
  else
    let leapyear := ((n1 =? 3) && (negb (n4 =? 24) || (n100 =? 3)))%bool in
    let '(month, day) := month_day n leapyear in
    (year, month, day).

(** A point in time: the day number of its date and the microseconds
    elapsed since midnight. *)
Record datetime : Type := { ordinal : Z; micros : Z }.

Definition total_us (t : datetime) : Z := ordinal t * US_PER_DAY + micros t.

(** [t + timedelta(days=n)] *)
Definition add_days (t : datetime) (n : Z) : result datetime :=
  let o := ordinal t + n in
  if ((1 <=? o) && (o <=? MAXORDINAL))%bool
  then Ok {| ordinal := o; micros := micros t |}
  else Raise OverflowError.

(** [(a - b).days]: a [timedelta] keeps its seconds and microseconds
    non-negative, so its [days] is the floor of the difference. *)
Definition sub_days (a b : datetime) : Z := (total_us a - total_us b) / US_PER_DAY.

Definition digit_char (n : Z) : ascii := ascii_of_nat (48 + Z.to_nat n).

Definition digit_val (c : ascii) : option Z :=
  let n := nat_of_ascii c in
  if (Nat.leb 48 n && Nat.leb n 57)%bool then Some (Z.of_nat n - 48) else None.

Definition pad2 (n : Z) : string :=
  String (digit_char (n / 10)) (String (digit_char (n mod 10)) "").

Definition pad4 (n : Z) : string :=
  String (digit_char (n / 1000))
    (String (digit_char (n / 100 mod 10)) (pad2 (n mod 100))).

(** [t.strftime("%Y-%m-%d")].  The year is written with four digits, as
    every C library writes the years from 1000 on. *)
Definition strftime (t : datetime) : string :=
  let '(y, m, d) := ord2ymd (ordinal t) in
  (pad4 y ++ "-" ++ pad2 m ++ "-" ++ pad2 d)%string.

(** The text up to the first ["-"] and the text after it. *)
Fixpoint split_dash (s : string) : option (string * string) :=
  match s with
  | EmptyString => None
  | String c s' =>
      if Ascii.eqb c "-" then Some (EmptyString, s')
      else match split_dash s' with
           | Some (a, b) => Some (String c a, b)
           | None => None
           end
  end.

Definition in_range (lo hi x : Z) : bool := ((lo <=? x) && (x <=? hi))%bool.

(** [%Y] is the pattern [\d\d\d\d]. *)
Definition parse_year (s : string) : option Z :=
  match s with
  | String a (String b (String c (String d EmptyString))) =>
      match digit_val a, digit_val b, digit_val c, digit_val d with
      | Some a, Some b, Some c, Some d => Some (a * 1000 + b * 100 + c * 10 + d)
      | _, _, _, _ => None
      end
  | _ => None
  end.

(** [%m] is the pattern [1[0-2]|0[1-9]|[1-9]]. *)
Definition parse_month (s : string) : option Z :=
  match s with
  | String a (String b EmptyString) =>
      match digit_val a, digit_val b with
      | Some 1, Some b => if in_range 0 2 b then Some (10 + b) else None
      | Some 0, Some b => if in_range 1 9 b then Some b else None
      | _, _ => None
      end
  | String a EmptyString =>
      match digit_val a with
      | Some a => if in_range 1 9 a then Some a else None
      | None => None
      end
  | _ => None
  end.

(** [%d] is the pattern [3[0-1]|[1-2]\d|0[1-9]|[1-9]| [1-9]]. *)
Definition parse_day (s : string) : option Z :=
  match s with
  | String a (String b EmptyString) =>
      match digit_val a, digit_val b with
      | Some 3, Some b => if in_range 0 1 b then Some (30 + b) else None
      | Some 1, Some b => Some (10 + b)
      | Some 2, Some b => Some (20 + b)
      | Some 0, Some b => if in_range 1 9 b then Some b else None
      | None, Some b =>
          if (Ascii.eqb a " " && in_range 1 9 b)%bool then Some b else None
      | _, _ => None
      end
  | String a EmptyString =>
      match digit_val a with
      | Some a => if in_range 1 9 a then Some a else None
      | None => None
      end
  | _ => None
  end.

(** [datetime.strptime(s, "%Y-%m-%d")]: the three fields separated by
    dashes, nothing before or after, and a date that exists; every failure
    is a [ValueError]. *)
Definition strptime (s : string) : result datetime :=
  match split_dash s with
  | Some (ytxt, rest) =>
      match split_dash rest with
      | Some (mtxt, dtxt) =>
          match parse_year ytxt, parse_month mtxt, parse_day dtxt with
          | Some y, Some m, Some d =>
              if ((1 <=? y) && (d <=? days_in_month y m))%bool
              then Ok {| ordinal := ymd2ord y m d; micros := 0 |}
              else Raise ValueError
          | _, _, _ => Raise ValueError
          end
      | None => Raise ValueError
      end
  | None => Raise ValueError
  end.

Definition datetime_of (year month day : Z) (us : Z) : datetime :=
  {| ordinal := ymd2ord year month day; micros := us |}.

(** ** Auxiliary definitions for the proofs about dates *)

(** A bounded search over the integers below [k], used to settle the
    finitely many cases of the month tables. *)
Fixpoint all_below (k : nat) (p : Z -> bool) : bool :=
  match k with
  | O => true
  | S k' => (p (Z.of_nat k') && all_below k' p)%bool
  end.

(** What [month_day] has to deliver for the day [n] of a year. *)
Definition month_day_ok (leap : bool) (n : Z) : bool :=
  let '(m, d) := month_day n leap in
  ((1 <=? m) && (m <=? 12) && (1 <=? d)
   && (d <=? (if ((m =? 2) && leap)%bool then 29 else DAYS_IN_MONTH m))
   && (DAYS_BEFORE_MONTH m + (if ((2 <? m) && leap)%bool then 1 else 0) + d =? n + 1))%bool.

(** A date of the calendar. *)
Definition valid_ymd (y m d : Z) : Prop :=
  1 <= y <= 9999 /\ 1 <= m <= 12 /\ 1 <= d <= days_in_month y m.

(** One decimal digit as text. *)
Definition digit (n : Z) : string := String (digit_char n) "".

(** The ways in which [strptime] lets the month and the day of a date be
    written for ["%m"] and ["%d"]: with two digits, or with one digit when
    the number is below ten; a day below ten may also have a space in
    front. *)
Definition writes_month (m : Z) (s : string) : Prop :=
  s = pad2 m \/ (m <= 9 /\ s = digit m).

Definition writes_day (d : Z) (s : string) : Prop :=
  s = pad2 d \/ (d <= 9 /\ (s = digit d \/ s = String " " (digit d))).

(** [s] is the date [y]-[m]-[d] of the calendar, written with a
    four-digit year and dashes as the format ["%Y-%m-%d"] asks: the form
    ["YYYY-MM-DD"] in which the program writes due dates, and the shorter
    ways of writing the month and the day. *)
Definition date_text (s : string) (y m d : Z) : Prop :=
  valid_ymd y m d
  /\ exists ms ds,
       writes_month m ms
       /\ writes_day d ds
       /\ s = (pad4 y ++ "-" ++ ms ++ "-" ++ ds)%string.


Definition option_is (o : option Z) (z : Z) : bool :=
  match o with
  | Some x => x =? z
  | None => false
  end.


(** ** Parsed JSON and the backing file *)

Inductive json : Type :=
| JNull
| JBool (b : bool)
| JNum (z : Z)
| JStr (s : string)
| JArr (items : list json)
| JObj (fields : list (string * json)).

(** The content of [library_data.json]: no file, text that [json.load]
    rejects, or the document [json.load] returns. *)
Inductive file : Type :=
| Absent
| Malformed
| Document (doc : json).

(** What the program does to the outside world. *)
Inductive event : Type :=
| Saved (doc : json)
| Printed (text : string).

(** Python truth value of a parsed JSON value. *)
Definition truthy (v : json) : bool :=
  match v with
  | JNull => false
  | JBool b => b
  | JNum z => negb (z =? 0)
  | JStr s => negb (String.eqb s "")
  | JArr l => match l with [] => false | _ => true end
  | JObj o => match o with [] => false | _ => true end
  end.

(** [v[key]] *)
Definition subscript (key : string) (v : json) : loaded json :=
  match v with
  | JObj o =>
      match dict_get key o with
      | Some x => Loaded x
      | None => Failed (KeyError (Some key))
      end
  | _ => Failed TypeError
  end.

(** [data.get(key, {})] *)
Definition get_or_empty (key : string) (data : json) : loaded json :=
  match data with
  | JObj o =>
      match dict_get key o with
      | Some x => Loaded x
      | None => Loaded (JObj [])
      end
  | _ => Failed AttributeError
  end.

Definition as_str (v : json) : loaded string :=
  match v with
  | JStr s => Loaded s
  | _ => Untyped
  end.

Definition as_bool (v : json) : loaded bool :=
  match v with
  | JBool b => Loaded b
  | _ => Untyped
  end.

Definition as_opt_str (v : json) : loaded (option string) :=
  match v with
  | JNull => Loaded None
  | JStr s => Loaded (Some s)
  | _ => Untyped
  end.

Fixpoint as_str_list (l : list json) : loaded (list string) :=
  match l with
  | [] => Loaded []
  | v :: l' => s <~ as_str v ;; r <~ as_str_list l' ;; Loaded (s :: r)
  end.

Definition of_opt_str (o : option string) : json :=
  match o with
  | Some s => JStr s
  | None => JNull
  end.

Definition or_default (d : json) (o : option json) : json :=
  match o with
  | Some v => v
  | None => d
  end.

(** Binding of keyword arguments: every key names a parameter and every
    parameter without a default is given, or else [TypeError]. *)
Definition binds (params required : list string) (kw : pydict json) : bool :=
  (forallb (fun k => existsb (String.eqb k) params) (dict_keys kw)
   && forallb (fun p => dict_mem p kw) required)%bool.

(** ** class Book *)

Record Book : Type := {
  book_id : string;
  title : string;
  author : string;
  is_available : bool;
  borrower : option string;
  due_date : option string
}.

(** [Book(book_id, title, author)] *)
Definition Book_init (bid t a : string) : Book :=
  {| book_id := bid; title := t; author := a;
     is_available := true; borrower := None; due_date := None |}.

(** [Book( **o)] *)
Definition Book_kwargs (o : json) : loaded Book :=
  match o with
  | JObj kw =>
      if binds ["book_id"; "title"; "author"; "is_available"; "borrower"; "due_date"]
               ["book_id"; "title"; "author"] kw
      then
        bid <~ as_str (or_default JNull (dict_get "book_id" kw)) ;;
        t <~ as_str (or_default JNull (dict_get "title" kw)) ;;
        a <~ as_str (or_default JNull (dict_get "author" kw)) ;;
        av <~ as_bool (or_default (JBool true) (dict_get "is_available" kw)) ;;
        bo <~ as_opt_str (or_default JNull (dict_get "borrower" kw)) ;;
        du <~ as_opt_str (or_default JNull (dict_get "due_date" kw)) ;;
        Loaded {| book_id := bid; title := t; author := a;
                  is_available := av; borrower := bo; due_date := du |}
      else Failed TypeError
  | _ => Failed TypeError
  end.

(** [book.__dict__] *)
Definition Book_dict (b : Book) : json :=
  JObj [("book_id", JStr (book_id b)); ("title", JStr (title b));
        ("author", JStr (author b)); ("is_available", JBool (is_available b));
        ("borrower", of_opt_str (borrower b)); ("due_date", of_opt_str (due_date b))].

(** ** class Member *)

Record Member : Type := {
  member_id : string;
  name : string;
  email : string;
  borrowed_books : list string
}.

(** [Member(member_id, name, email)] *)
Definition Member_init (mid n e : string) : Member :=
  {| member_id := mid; name := n; email := e; borrowed_books := [] |}.

(** [borrowed_books if borrowed_books else []] *)
Definition borrowed_or_empty (v : json) : loaded (list string) :=
  if truthy v then
    match v with
    | JArr l => as_str_list l
    | _ => Untyped
    end
  else Loaded [].

(** [Member( **o)] *)
Definition Member_kwargs (o : json) : loaded Member :=
  match o with
  | JObj kw =>
      if binds ["member_id"; "name"; "email"; "borrowed_books"]
               ["member_id"; "name"; "email"] kw
      then
        mid <~ as_str (or_default JNull (dict_get "member_id" kw)) ;;
        n <~ as_str (or_default JNull (dict_get "name" kw)) ;;
        e <~ as_str (or_default JNull (dict_get "email" kw)) ;;
        bb <~ borrowed_or_empty (or_default JNull (dict_get "borrowed_books" kw)) ;;
        Loaded {| member_id := mid; name := n; email := e; borrowed_books := bb |}
      else Failed TypeError
  | _ => Failed TypeError
  end.

(** [member.__dict__] *)
Definition Member_dict (m : Member) : json :=
  JObj [("member_id", JStr (member_id m)); ("name", JStr (name m));
        ("email", JStr (email m));
        ("borrowed_books", JArr (map JStr (borrowed_books m)))].

(** ** class Library *)

Record Library : Type := {
  books : pydict Book;
  members : pydict Member;
  fine_rate : Q
}.

(** The store object together with the file it is saved to and the record
    of what the program has written and printed so far. *)
Record World : Type := {
  lib : Library;
  disk : file;
  trace : list event
}.

(** The outcome of a method call: the value returned, or the exception
    raised, and the world the call leaves behind. *)
Inductive outcome (A : Type) : Type :=
| Return (a : A) (w : World)
| Raised (e : exn) (w : World).

Arguments Return {A} a w.
Arguments Raised {A} e w.

(** Assignments to attributes of objects held in the two dictionaries. *)
Definition with_is_available (v : bool) (b : Book) : Book :=
  {| book_id := book_id b; title := title b; author := author b;
     is_available := v; borrower := borrower b; due_date := due_date b |}.

Definition with_borrower (v : option string) (b : Book) : Book :=
  {| book_id := book_id b; title := title b; author := author b;
     is_available := is_available b; borrower := v; due_date := due_date b |}.

Definition with_due_date (v : option string) (b : Book) : Book :=
  {| book_id := book_id b; title := title b; author := author b;
     is_available := is_available b; borrower := borrower b; due_date := v |}.

Definition with_borrowed_books (v : list string) (m : Member) : Member :=
  {| member_id := member_id m; name := name m; email := email m;
     borrowed_books := v |}.

Definition with_books (v : pydict Book) (w : World) : World :=
  {| lib := {| books := v; members := members (lib w); fine_rate := fine_rate (lib w) |};
     disk := disk w; trace := trace w |}.

Definition with_members (v : pydict Member) (w : World) : World :=
  {| lib := {| books := books (lib w); members := v; fine_rate := fine_rate (lib w) |};
     disk := disk w; trace := trace w |}.

(** The object stored under [k] is replaced by its updated state. *)
Definition put_book (k : string) (b : Book) (w : World) : World :=
  with_books (dict_set k b (books (lib w))) w.

Definition put_member (k : string) (m : Member) (w : World) : World :=
  with_members (dict_set k m (members (lib w))) w.

(** The document [save_data] hands to [json.dump]. *)
Definition dump (L : Library) : json :=
  JObj [("books", JObj (map (fun kb => (fst kb, Book_dict (snd kb))) (books L)));
        ("members", JObj (map (fun km => (fst km, Member_dict (snd km))) (members L)))].

Definition save_data (w : World) : World :=
  {| lib := lib w;
     disk := Document (dump (lib w));
     trace := trace w ++ [Saved (dump (lib w))] |}.

(** A dictionary comprehension [{key(x): value(x) for x in l}], where
    [entry] computes the key and then the value. *)
Fixpoint comprehension {A V : Type} (entry : A -> loaded (string * V))
    (l : list A) (acc : pydict V) : loaded (pydict V) :=
  match l with
  | [] => Loaded acc
  | x :: l' =>
      kv <~ entry x ;; comprehension entry l' (dict_set (fst kv) (snd kv) acc)
  end.

(** [{book["book_id"]: Book( **book) for book in books_data}] when
    [books_data] is a list, and
    [{book_id: Book( **book_data) for book_id, book_data in books_data.items()}]
    otherwise. *)
Definition load_books (books_data : json) : loaded (pydict Book) :=
  match books_data with
  | JArr l =>
      comprehension
        (fun book =>
           k <~ subscript "book_id" book ;;
           b <~ Book_kwargs book ;;
           k <~ as_str k ;;
           Loaded (k, b))
        l []
  | JObj items =>
      comprehension
        (fun kv => b <~ Book_kwargs (snd kv) ;; Loaded (fst kv, b))
        items []
  | _ => Failed AttributeError
  end.

Definition load_members (members_data : json) : loaded (pydict Member) :=
  match members_data with
  | JArr l =>
      comprehension
        (fun member =>
           k <~ subscript "member_id" member ;;
           m <~ Member_kwargs member ;;
           k <~ as_str k ;;
           Loaded (k, m))
        l []
  | JObj items =>
      comprehension
        (fun kv => m <~ Member_kwargs (snd kv) ;; Loaded (fst kv, m))
        items []
  | _ => Failed AttributeError
  end.

Definition no_data_message : string :=
  "No existing data found. Starting with empty library.".

(** [load_data]: the object after the call and what was printed, or the
    exception that leaves the method. *)
Definition load_data (self : Library) (f : file) : loaded (Library * list event) :=
  match f with
  | Absent => Loaded (self, [Printed no_data_message])
  | Malformed => Failed JSONDecodeError
  | Document data =>
      books_data <~ get_or_empty "books" data ;;
      bs <~ load_books books_data ;;
      members_data <~ get_or_empty "members" data ;;
      ms <~ load_members members_data ;;
      Loaded ({| books := bs; members := ms; fine_rate := fine_rate self |}, [])
  end.

(** [Library()] run against the file [f]. *)
Definition Library_init (f : file) : loaded World :=
  r <~ load_data {| books := []; members := []; fine_rate := 1 |} f ;;
  Loaded {| lib := fst r; disk := f; trace := snd r |}.

Definition add_book (bid t a : string) (w : World) : outcome bool :=
  if negb (dict_mem bid (books (lib w))) then
    Return true (save_data (put_book bid (Book_init bid t a) w))
  else Return false w.

Definition add_member (mid n e : string) (w : World) : outcome bool :=
  if negb (dict_mem mid (members (lib w))) then
    Return true (save_data (put_member mid (Member_init mid n e) w))
  else Return false w.

(** [now] is the value of [datetime.now()] during the call. *)
Definition borrow_book (bid mid : string) (now : datetime) (w : World)
  : outcome bool :=
  match dict_get bid (books (lib w)), dict_get mid (members (lib w)) with
  | Some book, Some member =>
      if is_available book then
        let book := with_borrower (Some mid) (with_is_available false book) in
        let w := put_book bid book w in
        match add_days now 14 with
        | Ok due =>
            let book := with_due_date (Some (strftime due)) book in
            let w := put_book bid book w in
            let member :=
              with_borrowed_books (borrowed_books member ++ [bid]) member in
            let w := put_member mid member w in
            Return true (save_data w)
        | Raise e => Raised e w
        end
      else Return false w
  | _, _ => Return false w
  end.

Definition str_truthy (o : option string) : bool :=
  match o with
  | Some (String _ _) => true
  | _ => false
  end.

Definition calculate_fine (bid : string) (now : datetime) (L : Library)
  : result Q :=
  match dict_get bid (books L) with
  | Some book =>
      if (negb (is_available book) && str_truthy (due_date book))%bool then
        due <- strptime (match due_date book with Some s => s | None => "" end) ;;
        let days_overdue := sub_days now due in
        if 0 <? days_overdue
        then Ok (inject_Z days_overdue * fine_rate L)%Q
        else Ok 0%Q
      else Ok 0%Q
  | None => Ok 0%Q
  end.

Definition members_at (key : option string) (ms : pydict Member)
  : option (string * Member) :=
  match key with
  | Some k =>
      match dict_get k ms with
      | Some m => Some (k, m)
      | None => None
      end
  | None => None
  end.

Definition return_book (bid : string) (now : datetime) (w : World)
  : outcome (bool * Q) :=
  match dict_get bid (books (lib w)) with
  | Some book =>
      if negb (is_available book) then
        match calculate_fine bid now (lib w) with
        | Ok fine =>
            match members_at (borrower book) (members (lib w)) with
            | Some (k, member) =>
                match list_remove bid (borrowed_books member) with
                | Ok rest =>
                    let w := put_member k (with_borrowed_books rest member) w in
                    let book :=
                      with_due_date None
                        (with_borrower None (with_is_available true book)) in
                    let w := put_book bid book w in
                    Return (true, fine) (save_data w)
                | Raise e => Raised e w
                end
            | None => Raised (KeyError (borrower book)) w
            end
        | Raise e => Raised e w
        end
      else Return (false, 0%Q) w
  | None => Return (false, 0%Q) w
  end.

(** The test and the loop of [search_books].  They are written for the
    values of [self.books] as the method sees them: objects with a title
    and an author, read by [title_of] and [author_of]. *)
Definition matches {B : Type} (title_of author_of : B -> text) (query : text)
    (book : B) : bool :=
  (contains query (lower (title_of book))
   || contains query (lower (author_of book)))%bool.

Definition search {B : Type} (title_of author_of : B -> text) (query : text)
    (values : list B) : list B :=
  let query := lower query in
  fold_left
    (fun results book =>
       if matches title_of author_of query book then results ++ [book]
       else results)
    values [].

Definition search_books (query : string) (L : Library) : list Book :=
  search (fun book => text_of (title book)) (fun book => text_of (author book))
    (text_of query) (dict_values (books L)).

(** ** Vocabulary of the statements *)

(** The day fourteen days after [now] is a date of the calendar, which
    ends on 9999-12-31. *)
Definition due_in_calendar (now : datetime) : Prop :=
  1 <= ordinal now /\ ordinal now + 14 <= MAXORDINAL.

(** The preconditions of [borrow_book] and of [return_book] fail. *)
Definition cannot_borrow (bid mid : string) (L : Library) : Prop :=
  dict_get bid (books L) = None
  \/ dict_get mid (members L) = None
  \/ exists book, dict_get bid (books L) = Some book /\ is_available book = false.

Definition cannot_return (bid : string) (L : Library) : Prop :=
  dict_get bid (books L) = None
  \/ exists book, dict_get bid (books L) = Some book /\ is_available book = true.

(** What the file holds under the key [k] of one of its two sections:
    [json.load(f)[section][k]]. *)
Definition file_entry (section k : string) (f : file) : option json :=
  match f with
  | Document (JObj data) =>
      match dict_get section data with
      | Some (JObj entries) => dict_get k entries
      | _ => None
      end
  | _ => None
  end.

(** [x] is a part of the text [t]. *)
Definition occurs (x t : text) : Prop := exists pre post, t = pre ++ x ++ post.

(** [query] occurs in [t] when case is ignored: a part of [t] has,
    character by character, the letters of the query in whatever case. *)
Definition ci_substring (query t : text) : Prop :=
  exists pre u post, t = pre ++ u ++ post /\ map to_lower u = map to_lower query.

(** A text without the two characters that [str.lower()] does not treat
    one by one: the capital sigma and the capital I with a dot above. *)
Definition plain (s : text) : Prop := ~ In 0x3A3%N s /\ ~ In 0x130%N s.

(** The small letter of a capital letter among the first 256 characters:
    of A to Z, and of the accented capitals from 0xC0 to 0xDE, between
    which the multiplication sign 0xD7 is no letter. *)
Definition small_letter (c : N) : N :=
  if ((0x41 <=? c) && (c <=? 0x5A)
      || (0xC0 <=? c) && (c <=? 0xDE) && negb (c =? 0xD7))%N%bool
  then (c + 0x20)%N else c.

(** Books whose titles go beyond the characters of a [string], as pairs of
    title and author: a French title with an accented capital and a query
    for it in the opposite case; a Greek title of the three capitals
    omicron, sigma, alpha and the query omicron, sigma; a title that
    begins with the dotted capital I and its lower-case form. *)
Definition latin_book : text * text :=
  ([0xC9; 0x63; 0x6F; 0x6C; 0x65]%N ++ text_of " des femmes",
   [0x4D; 0x6F; 0x6C; 0x69; 0xE8; 0x72; 0x65]%N).

Definition latin_query : text := [0xE9; 0x43; 0x4F; 0x4C; 0x45]%N.

Definition sigma_book : text * text := ([0x39F; 0x3A3; 0x391]%N, [0x391]%N).

Definition sigma_query : text := [0x39F; 0x3A3]%N.

Definition dotted_book : text * text :=
  (0x130%N :: text_of "stanbul", text_of "Orhan Pamuk").

Definition dotted_query : text := [0x69; 0x307]%N ++ text_of "stanbul".

(** A small catalogue used to exercise the statements: two books, one of
    them lent to the only member. *)
Definition sample_library : Library :=
  {| books :=
       [("B1", {| book_id := "B1"; title := "Python Programming";
                  author := "John Smith"; is_available := false;
                  borrower := Some "M1"; due_date := Some "2024-03-15" |});
        ("B2", Book_init "B2" "Data Structures" "Jane Doe")];
     members :=
       [("M1", {| member_id := "M1"; name := "Alice Brown";
                  email := "alice@email.com"; borrowed_books := ["B1"] |})];
     fine_rate := 1 |}.

Definition sample_world : World :=
  {| lib := sample_library; disk := Document (dump sample_library); trace := [] |}.

(** A file in which a book names a borrower that is not a member. *)
Definition orphan_doc : json :=
  JObj [("books",
         JObj [("B1", JObj [("book_id", JStr "B1"); ("title", JStr "Dune");
                            ("author", JStr "Frank Herbert");
                            ("is_available", JBool false);
                            ("borrower", JStr "M9");
                            ("due_date", JStr "2024-01-01")])]);
        ("members", JObj [])].

(** The world left by a call, whether it returned or raised. *)
Definition after {A : Type} (o : outcome A) : World :=
  match o with
  | Return _ w => w
  | Raised _ w => w
  end.

(** A book of the store names a borrower that is not a member. *)
Definition orphan_loan (L : Library) : Prop :=
  exists k book m,
    dict_get k (books L) = Some book
    /\ borrower book = Some m
    /\ dict_get m (members L) = None.

(** The two sections of a document decode to [bs] and [ms]. *)
Definition decodes_to (data : json) (bs : pydict Book) (ms : pydict Member) : Prop :=
  (books_data <~ get_or_empty "books" data ;; load_books books_data) = Loaded bs
  /\ (members_data <~ get_or_empty "members" data ;; load_members members_data)
     = Loaded ms.

(** The store [Library()] builds from [orphan_doc]. *)
Definition orphan_world : World :=
  {| lib :=
       {| books :=
            [("B1", {| book_id := "B1"; title := "Dune"; author := "Frank Herbert";
                       is_available := false; borrower := Some "M9";
                       due_date := Some "2024-01-01" |})];
          members := [];
          fine_rate := 1 |};
     disk := Document orphan_doc;
     trace := [] |}.

(** A persisted document with the two sections [bs] and [ms]. *)
Definition two_sections (bs ms : json) : json :=
  JObj [("books", bs); ("members", ms)].

(** Every object of [objs] carries, under [field], the id listed for it in
    [ids]. *)
Definition embeds (field : string) (objs : list json) (ids : list string) : Prop :=
  Forall2
    (fun o i => exists kw, o = JObj kw /\ dict_get field kw = Some (JStr i))
    objs ids.

(** The fine as the specification words it: the rate for every whole day
    overdue, nothing when the book is not overdue. *)
Definition spec_fine (rate : Q) (days_overdue : Z) : Q :=
  if 0 <? days_overdue then (inject_Z days_overdue * rate)%Q else 0%Q.

(** The book is unknown, or it is not borrowed, or it has no due date. *)
Definition no_loan (bid : string) (L : Library) : Prop :=
  match dict_get bid (books L) with
  | None => True
  | Some book =>
      is_available book = true \/ due_date book = None \/ due_date book = Some ""
  end.

(** The state of a book on loan to [mid] until the day [due], and of a
    book back on the shelf. *)
Definition lent (mid : string) (due : datetime) (b : Book) : Book :=
  {| book_id := book_id b; title := title b; author := author b;
     is_available := false; borrower := Some mid;
     due_date := Some (strftime due) |}.

Definition shelved (b : Book) : Book :=
  {| book_id := book_id b; title := title b; author := author b;
     is_available := true; borrower := None; due_date := None |}.

(** ** The cross-entity invariant *)

(** What the invariant asks of one book of the store [L]. *)
Definition loan_consistent (L : Library) (b : Book) : Prop :=
  (is_available b = false ->
   exists mid m,
     borrower b = Some mid
     /\ dict_get mid (members L) = Some m
     /\ count (book_id b) (borrowed_books m) = 1%nat)
  /\ (is_available b = true ->
      forall mid m,
        dict_get mid (members L) = Some m -> ~ In (book_id b) (borrowed_books m))
  /\ (is_available b = true <-> borrower b = None)
  /\ (is_available b = true <-> due_date b = None).

(** The invariant as the specification states it. *)
Definition cross_entity_inv (L : Library) : Prop :=
  forall k b, dict_get k (books L) = Some b -> loan_consistent L b.

(** Every book is stored under its own id. *)
Definition keyed_by_id (L : Library) : Prop :=
  forall k b, dict_get k (books L) = Some b -> book_id b = k.

(** Every id in a member's list is the id of a book lent to that member. *)
Definition lists_name_loans (L : Library) : Prop :=
  forall mid m x,
    dict_get mid (members L) = Some m ->
    In x (borrowed_books m) ->
    exists b,
      dict_get x (books L) = Some b
      /\ is_available b = false
      /\ borrower b = Some mid.

(** The invariant the operations maintain. *)
Definition store_inv (L : Library) : Prop :=
  cross_entity_inv L /\ keyed_by_id L /\ lists_name_loans L.

(** The world [Library()] starts with when there is no file. *)
Definition empty_world : World :=
  {| lib := {| books := []; members := []; fine_rate := 1 |};
     disk := Absent;
     trace := [Printed no_data_message] |}.

(** A file with a member whose list names a book the catalogue does not
    have, and the store [Library()] builds from it. *)
Definition stale_doc : json :=
  JObj [("books", JObj []);
        ("members",
         JObj [("M1", JObj [("member_id", JStr "M1"); ("name", JStr "Alice Brown");
                            ("email", JStr "alice@email.com");
                            ("borrowed_books", JArr [JStr "B1"])])])].

Definition stale_world : World :=
  {| lib :=
       {| books := [];
          members :=
            [("M1", {| member_id := "M1"; name := "Alice Brown";
                       email := "alice@email.com"; borrowed_books := ["B1"] |})];
          fine_rate := 1 |};
     disk := Document stale_doc;
     trace := [] |}.

(** A call of one of the operations that change the store. *)
Inductive call : Type :=
| AddBook (bid t a : string)
| AddMember (mid n e : string)
| BorrowBook (bid mid : string) (now : datetime)
| ReturnBook (bid : string) (now : datetime).

Definition perform (c : call) (w : World) : World :=
  match c with
  | AddBook bid t a => after (add_book bid t a w)
  | AddMember mid n e => after (add_member mid n e w)
  | BorrowBook bid mid now => after (borrow_book bid mid now w)
  | ReturnBook bid now => after (return_book bid now w)
  end.

Definition run (calls : list call) (w : World) : World :=
  fold_left (fun w c => perform c w) calls w.

Definition call_in_calendar (c : call) : Prop :=
  match c with
  | BorrowBook _ _ now => due_in_calendar now
  | _ => True
  end.

(** ** Vocabulary of the further properties *)

(** The exception a call ends with, if any. *)
Definition raised {A : Type} (o : outcome A) : option exn :=
  match o with
  | Return _ _ => None
  | Raised e _ => Some e
  end.

Definition call_raises (c : call) (w : World) : option exn :=
  match c with
  | AddBook bid t a => raised (add_book bid t a w)
  | AddMember mid n e => raised (add_member mid n e w)
  | BorrowBook bid mid now => raised (borrow_book bid mid now w)
  | ReturnBook bid now => raised (return_book bid now w)
  end.

(** The ways in which a call changes the world: not at all, by a new
    book, by a new member, by a loan, by a return, or, when the due date
    would lie beyond the calendar, by a loan that stops half way.  The
    flag tells the last case from the others. *)
Inductive transition (w : World) : bool -> World -> Prop :=
| NoChange : transition w false w
| BookAdded (bid t a : string) :
    dict_get bid (books (lib w)) = None ->
    transition w false (save_data (put_book bid (Book_init bid t a) w))
| MemberAdded (mid n e : string) :
    dict_get mid (members (lib w)) = None ->
    transition w false (save_data (put_member mid (Member_init mid n e) w))
| BookLent (bid mid : string) (book : Book) (member : Member) (due : datetime) :
    dict_get bid (books (lib w)) = Some book ->
    dict_get mid (members (lib w)) = Some member ->
    is_available book = true ->
    1 <= ordinal due <= MAXORDINAL ->
    transition w false
      (save_data
         (put_member mid
            (with_borrowed_books (borrowed_books member ++ [bid]) member)
            (put_book bid (lent mid due book) w)))
| BookReturned (bid mk : string) (book : Book) (member : Member)
    (rest : list string) (now : datetime) (fine : Q) :
    dict_get bid (books (lib w)) = Some book ->
    is_available book = false ->
    calculate_fine bid now (lib w) = Ok fine ->
    borrower book = Some mk ->
    dict_get mk (members (lib w)) = Some member ->
    list_remove bid (borrowed_books member) = Ok rest ->
    transition w false
      (save_data
         (put_book bid (shelved book)
            (put_member mk (with_borrowed_books rest member) w)))
| LoanStalled (bid mid : string) (book : Book) :
    dict_get bid (books (lib w)) = Some book ->
    is_available book = true ->
    transition w true
      (put_book bid (with_borrower (Some mid) (with_is_available false book)) w).

(** The file holds the state of the store. *)
Definition synced (w : World) : Prop := disk w = Document (dump (lib w)).

(** The due date of every lent book is a date. *)
Definition due_dates_parse (L : Library) : Prop :=
  forall k b,
    dict_get k (books L) = Some b ->
    is_available b = false ->
    exists s due, due_date b = Some s /\ strptime s = Ok due.

(** [xs] begins with [ys]. *)
Definition extends {A : Type} (xs ys : list A) : Prop :=
  exists more, xs = ys ++ more.

(** The flag a call reports: [True] or [False] as returned, and [False]
    for a call that raises. *)
Definition call_succeeds (c : call) (w : World) : bool :=
  match c with
  | AddBook bid t a =>
      match add_book bid t a w with Return r _ => r | Raised _ _ => false end
  | AddMember mid n e =>
      match add_member mid n e w with Return r _ => r | Raised _ _ => false end
  | BorrowBook bid mid now =>
      match borrow_book bid mid now w with Return r _ => r | Raised _ _ => false end
  | ReturnBook bid now =>
      match return_book bid now w with Return r _ => fst r | Raised _ _ => false end
  end.

(** The store that a restart of the program finds is the store [w]
    holds. *)
Definition recoverable (w : World) : Prop :=
  exists w', Library_init (disk w) = Loaded w' /\ lib w' = lib w.

(** Two books, or two members, that differ at most in the state of the
    loan. *)
Definition same_book (b b' : Book) : Prop :=
  book_id b' = book_id b /\ title b' = title b /\ author b' = author b.

Definition same_member (m m' : Member) : Prop :=
  member_id m' = member_id m /\ name m' = name m /\ email m' = email m.

(** What every store of the program satisfies, whatever file it came
    from: ids are unique and the rate is the one the constructor sets. *)
Definition well_formed (L : Library) : Prop :=
  dict_wf (books L) /\ dict_wf (members L) /\ fine_rate L = 1%Q.

(** The sum of a measure over the values of a dictionary. *)
Definition total {V : Type} (f : V -> nat) (d : pydict V) : nat :=
  list_sum (map f (dict_values d)).

(** The number of books that are lent, and the number of entries in the
    lists of the members. *)
Definition on_loan (L : Library) : nat :=
  total (fun b => if is_available b then 0%nat else 1%nat) (books L).

Definition held (L : Library) : nat :=
  total (fun m => List.length (borrowed_books m)) (members L).

(** A store with a loan whose due date is not a date. *)
Definition undated_world : World :=
  {| lib :=
       {| books :=
            [("B1", {| book_id := "B1"; title := "Dune"; author := "Frank Herbert";
                       is_available := false; borrower := Some "M1";
                       due_date := Some "next week" |})];
          members :=
            [("M1", {| member_id := "M1"; name := "Paul"; email := "paul@dune.org";
                       borrowed_books := ["B1"] |})];
          fine_rate := 1 |};
     disk := Absent;
     trace := [] |}.

(** A file with a loan whose due date is not a date, and the store
    [Library()] builds from it. *)
Definition undated_doc : json :=
  JObj [("books",
         JObj [("B1", JObj [("book_id", JStr "B1"); ("title", JStr "Dune");
                            ("author", JStr "Frank Herbert");
                            ("is_available", JBool false);
                            ("borrower", JStr "M1");
                            ("due_date", JStr "next week")])]);
        ("members",
         JObj [("M1", JObj [("member_id", JStr "M1"); ("name", JStr "Paul");
                            ("email", JStr "paul@dune.org");
                            ("borrowed_books", JArr [JStr "B1"])])])].

Definition undated_loaded : World :=
  {| lib := lib undated_world; disk := Document undated_doc; trace := [] |}.

(** ** Display *)

(** [print(text)] *)
Definition print (text : string) (w : World) : World :=
  {| lib := lib w; disk := disk w; trace := trace w ++ [Printed text] |}.

Definition print_all (texts : list string) (w : World) : World :=
  fold_left (fun w text => print text w) texts w.

(** [c * n] for a one-character string [c]. *)
Fixpoint str_repeat (c : ascii) (n : nat) : string :=
  match n with
  | O => EmptyString
  | S n' => String c (str_repeat c n')
  end.

(** [s[:n]] *)
Fixpoint str_take (n : nat) (s : string) : string :=
  match n, s with
  | S n', String c s' => String c (str_take n' s')
  | _, _ => EmptyString
  end.

(** ["{:<width}".format(s)]: [s] with blanks after it up to [width]
    characters, and [s] itself when it is longer. *)
Definition ljust (width : nat) (s : string) : string :=
  (s ++ str_repeat " " (width - String.length s))%string.

(** ["{:<5} | {:<20} | {:<15} | {:<35}".format(a, b, c, d)] *)
Definition format_row (a b c d : string) : string :=
  (ljust 5 a ++ " | " ++ ljust 20 b ++ " | " ++ ljust 15 c ++ " | " ++ ljust 35 d)%string.

(** [s[:n] + "..." if len(s) > n else s] *)
Definition shorten (n : nat) (s : string) : string :=
  if Nat.ltb n (String.length s) then (str_take n s ++ "...")%string else s.

(** ["-" * 80] *)
Definition rule : string := str_repeat "-" 80.

Definition header : string := format_row "ID" "Title" "Author" "Status".

(** [str(x)] for a due date. *)
Definition str_of_due (o : option string) : string :=
  match o with
  | Some s => s
  | None => "None"
  end.

(** The status column of a book: the lookup of the borrower can fail. *)
Definition status_of (L : Library) (book : Book) : result string :=
  if is_available book then Ok "Available"
  else
    match members_at (borrower book) (members L) with
    | Some (_, member) =>
        Ok ("Borrowed by " ++ name member ++ " (Due: "
            ++ str_of_due (due_date book) ++ ")")%string
    | None => Raise (KeyError (borrower book))
    end.

Definition book_row (L : Library) (book : Book) : result string :=
  status <- status_of L book ;;
  Ok (format_row (book_id book) (shorten 18 (title book))
        (shorten 13 (author book)) (shorten 33 status)).

(** The loop that prints one row for each book. *)
Fixpoint print_rows (bs : list Book) (w : World) : outcome unit :=
  match bs with
  | [] => Return tt w
  | book :: bs' =>
      match book_row (lib w) book with
      | Ok row => print_rows bs' (print row w)
      | Raise e => Raised e w
      end
  end.

Definition newline : string := String "010" EmptyString.

Definition display_books (w : World) : outcome unit :=
  let w := print (newline ++ "Library Books:") w in
  let w := print rule w in
  let w := print header w in
  let w := print rule w in
  match print_rows (dict_values (books (lib w))) w with
  | Return _ w => Return tt (print rule w)
  | Raised e w => Raised e w
  end.

Definition display_search_results (query : string) (w : World) : outcome unit :=
  let results := search_books query (lib w) in
  match results with
  | [] =>
      Return tt (print (newline ++ "No books found matching '" ++ query ++ "'") w)
  | _ =>
      let w := print (newline ++ "Search results for '" ++ query ++ "':") w in
      let w := print rule w in
      let w := print header w in
      let w := print rule w in
      match print_rows results w with
      | Return _ w => Return tt (print rule w)
      | Raised e w => Raised e w
      end
  end.

(** The borrower of every lent book among [bs] is a member. *)
Definition borrowers_known (L : Library) (bs : list Book) : Prop :=
  Forall
    (fun book =>
       is_available book = false ->
       members_at (borrower book) (members L) <> None)
    bs.

(** ** The example script *)

(** One statement after the other: an exception ends the script. *)
Definition and_then {A B : Type} (o : outcome A) (k : A -> World -> outcome B)
  : outcome B :=
  match o with
  | Return a w => k a w
  | Raised e w => Raised e w
  end.

(** The decimal digits of a natural number [n], before [acc]. *)
Fixpoint decimal_digits (fuel : nat) (n : Z) (acc : string) : string :=
  match fuel with
  | O => acc
  | S fuel' =>
      let acc := String (digit_char (n mod 10)) acc in
      if n / 10 =? 0 then acc else decimal_digits fuel' (n / 10) acc
  end.

Definition decimal (n : Z) : string :=
  decimal_digits (S (Z.to_nat (Z.log2 n))) n "".

(** The amount [q >= 0] in hundredths, rounded to the nearest and to the
    even one in the middle. *)
Definition hundredths (q : Q) : Z :=
  let n := 100 * Qnum q in
  let d := Z.pos (Qden q) in
  let c := n / d in
  let r := n mod d in
  if 2 * r <? d then c
  else if d <? 2 * r then c + 1
  else if Z.even c then c else c + 1.

(** [f"{q:.2f}"] for an amount that is not negative. *)
Definition format_2f (q : Q) : string :=
  (decimal (hundredths q / 100) ++ "." ++ pad2 (hundredths q mod 100))%string.

(** The lines after [if __name__ == "__main__":]: the constructor in
    [main], the three additions in [script], the loan and what follows it
    in [script_loan].  [t_borrow] and [t_return] are the times of the two
    calls that read the clock. *)
Definition script_loan (t_borrow t_return : datetime) (w : World)
  : outcome unit :=
  and_then (borrow_book "B1" "M1" t_borrow w) (fun _ w =>
  let w := print (newline ++ "Searching for 'Python':") w in
  and_then (display_search_results "Python" w) (fun _ w =>
  and_then (return_book "B1" t_return w) (fun r w =>
  let w :=
    if fst r then
      if 0 <? Qnum (snd r)
      then print (newline ++ "Book returned successfully. Fine due: $"
                  ++ format_2f (snd r)) w
      else print (newline ++ "Book returned successfully. No fine due.") w
    else w in
  display_books w))).

Definition script (t_borrow t_return : datetime) (w : World) : outcome unit :=
  and_then (add_book "B1" "Python Programming" "John Smith" w) (fun _ w =>
  and_then (add_book "B2" "Data Structures" "Jane Doe" w) (fun _ w =>
  and_then (add_member "M1" "Alice Brown" "alice@email.com" w) (fun _ w =>
  script_loan t_borrow t_return w))).

Definition main (f : file) (t_borrow t_return : datetime) : loaded (outcome unit) :=
  w <~ Library_init f ;; Loaded (script t_borrow t_return w).

(** What the proofs about the script carry from call to call. *)
Definition sound (L : Library) : Prop :=
  store_inv L /\ due_dates_parse L /\ well_formed L.

(** The store the script leaves when it starts without a file. *)
Definition script_library : Library :=
  {| books :=
       [("B1", Book_init "B1" "Python Programming" "John Smith");
        ("B2", Book_init "B2" "Data Structures" "Jane Doe")];
     members := [("M1", Member_init "M1" "Alice Brown" "alice@email.com")];
     fine_rate := 1 |}.

(** [l] without the entries equal to [x]. *)
Definition without (x : string) (l : list string) : list string :=
  filter (fun y => negb (String.eqb y x)) l.

(* ================================================================= *)

(** * Properties of dictionaries *)

Section DictFacts.
Context {V : Type}.
Implicit Types (d : pydict V) (k : string) (v : V).

Lemma dict_get_set_eq k v d : dict_get k (dict_set k v d) = Some v.
Proof.
  induction d as [|[k' v'] d IH]; cbn.
  - now rewrite String.eqb_refl.
  - destruct (String.eqb_spec k k') as [->|Hne]; cbn.
    + now rewrite String.eqb_refl.
    + destruct (String.eqb_spec k k'); [contradiction|exact IH].
Qed.

Lemma dict_get_set_ne k k' v d :
  k <> k' -> dict_get k' (dict_set k v d) = dict_get k' d.
Proof.
  intros Hne. induction d as [|[k0 v0] d IH]; cbn.
  - destruct (String.eqb_spec k' k); [congruence|reflexivity].
  - destruct (String.eqb_spec k k0) as [->|Hk]; cbn.
    + destruct (String.eqb_spec k' k0); [congruence|reflexivity].
    + destruct (String.eqb_spec k' k0); [reflexivity|exact IH].
Qed.

Lemma dict_get_set k k' v d :
  dict_get k' (dict_set k v d) = if String.eqb k k' then Some v else dict_get k' d.
Proof.
  destruct (String.eqb_spec k k') as [->|Hne].
  - apply dict_get_set_eq.
  - now apply dict_get_set_ne.
Qed.

Lemma dict_set_set k v v' d : dict_set k v' (dict_set k v d) = dict_set k v' d.
Proof.
  induction d as [|[k0 v0] d IH]; cbn.
  - now rewrite String.eqb_refl.
  - destruct (String.eqb_spec k k0) as [->|Hk]; cbn.
    + now rewrite String.eqb_refl.
    + destruct (String.eqb_spec k k0); [contradiction|now rewrite IH].
Qed.

Lemma dict_mem_get k d :
  dict_mem k d = match dict_get k d with Some _ => true | None => false end.
Proof. reflexivity. Qed.

Lemma dict_get_none_keys k d : dict_get k d = None <-> ~ In k (dict_keys d).
Proof.
  induction d as [|[k0 v0] d IH]; cbn; [tauto|].
  destruct (String.eqb_spec k k0) as [->|Hk].
  - split; [discriminate|]. intros H. exfalso. apply H. now left.
  - rewrite IH. split.
    + intros H [E|HI]; [congruence|contradiction].
    + intros H HI. apply H. now right.
Qed.

Lemma dict_get_in k v d : dict_get k d = Some v -> In (k, v) d.
Proof.
  induction d as [|[k0 v0] d IH]; cbn; [discriminate|].
  destruct (String.eqb_spec k k0) as [->|Hk].
  - intros [= ->]. now left.
  - intros H. right. now apply IH.
Qed.

Lemma dict_in_get k v d : dict_wf d -> In (k, v) d -> dict_get k d = Some v.
Proof.
  unfold dict_wf. induction d as [|[k0 v0] d IH]; cbn; [tauto|].
  intros Hwf [E|HI].
  - injection E as -> ->. now rewrite String.eqb_refl.
  - inversion Hwf as [|? ? Hnot Hwf']; subst.
    destruct (String.eqb_spec k k0) as [->|Hk].
    + exfalso. apply Hnot. change k0 with (fst (k0, v)). now apply in_map.
    + now apply IH.
Qed.

(** A new key goes to the end. *)
Lemma dict_set_fresh k v d : dict_get k d = None -> dict_set k v d = d ++ [(k, v)].
Proof.
  induction d as [|[k0 v0] d IH]; cbn; [reflexivity|].
  destruct (String.eqb_spec k k0); [discriminate|].
  intros H. now rewrite IH.
Qed.

(** An assignment to an existing key moves nothing. *)
Lemma dict_keys_set_present k v d :
  dict_get k d <> None -> dict_keys (dict_set k v d) = dict_keys d.
Proof.
  induction d as [|[k0 v0] d IH]; cbn; [congruence|].
  destruct (String.eqb_spec k k0) as [->|Hk]; cbn; [reflexivity|].
  intros H. f_equal. now apply IH.
Qed.

Lemma dict_wf_set k v d : dict_wf d -> dict_wf (dict_set k v d).
Proof.
  intros Hwf. destruct (dict_get k d) eqn:E.
  - unfold dict_wf. rewrite dict_keys_set_present; [exact Hwf|congruence].
  - rewrite dict_set_fresh by exact E. unfold dict_wf, dict_keys in *.
    rewrite map_app. cbn. apply dict_get_none_keys in E.
    apply NoDup_app; [exact Hwf|repeat constructor; intros []|].
    intros x Hx [<-|[]]. contradiction.
Qed.

Lemma dict_wf_count k d :
  dict_wf d -> dict_get k d <> None -> count k (dict_keys d) = 1%nat.
Proof.
  intros Hwf Hk. unfold count.
  assert (In k (dict_keys d)) as HI.
  { destruct (in_dec string_dec k (dict_keys d)) as [HI|HI]; [exact HI|].
    apply dict_get_none_keys in HI. contradiction. }
  apply (proj1 (NoDup_count_occ' string_dec (dict_keys d)) Hwf). exact HI.
Qed.
End DictFacts.

(** * Properties of lists of identifiers *)

Lemma count_app x l l' : count x (l ++ l') = (count x l + count x l')%nat.
Proof. apply count_occ_app. Qed.

Lemma count_single x y : count x [y] = if String.eqb x y then 1%nat else 0%nat.
Proof.
  unfold count. cbn. destruct (string_dec y x) as [->|Hne].
  - now rewrite String.eqb_refl.
  - destruct (String.eqb_spec x y); [congruence|reflexivity].
Qed.

Lemma count_zero x l : count x l = 0%nat <-> ~ In x l.
Proof. unfold count. symmetry. apply count_occ_not_In. Qed.

Lemma count_pos x l : (0 < count x l)%nat <-> In x l.
Proof. unfold count. symmetry. apply count_occ_In. Qed.

Lemma list_remove_ok x l :
  In x l ->
  exists r, list_remove x l = Ok r
            /\ (forall y, count y l = (count y r + (if String.eqb y x then 1 else 0))%nat).
Proof.
  induction l as [|z l IH]; cbn; [tauto|].
  intros HI. destruct (String.eqb_spec x z) as [->|Hne].
  - exists l. split; [reflexivity|]. intros y. unfold count. cbn.
    destruct (string_dec z y) as [->|Hy].
    + rewrite String.eqb_refl. lia.
    + destruct (String.eqb_spec y z); [congruence|lia].
  - destruct HI as [E|HI]; [congruence|].
    destruct (IH HI) as (r & Hr & Hc). rewrite Hr. cbn.
    exists (z :: r). split; [reflexivity|]. intros y. specialize (Hc y).
    unfold count in *. cbn. destruct (string_dec z y); lia.
Qed.

Lemma list_remove_missing x l : ~ In x l -> list_remove x l = Raise ValueError.
Proof.
  induction l as [|z l IH]; cbn; [reflexivity|].
  intros H. destruct (String.eqb_spec x z) as [->|Hne]; [tauto|].
  rewrite IH by tauto. reflexivity.
Qed.

(** Removing what was just appended gives the list back when the element
    was not in it. *)
Lemma list_remove_appended x l : ~ In x l -> list_remove x (l ++ [x]) = Ok l.
Proof.
  induction l as [|z l IH]; cbn.
  - now rewrite String.eqb_refl.
  - intros H. destruct (String.eqb_spec x z) as [->|Hne]; [tauto|].
    rewrite IH by tauto. reflexivity.
Qed.

(** * Properties of texts *)

Lemma starts_with_spec p s : starts_with p s = true <-> exists t, s = p ++ t.
Proof.
  revert s. induction p as [|a p IH]; intros s; cbn.
  - split; [intros _; now exists s|reflexivity].
  - destruct s as [|b s].
    + split; [discriminate|intros [t H]; discriminate H].
    + rewrite andb_true_iff, N.eqb_eq, IH. split.
      * intros [-> [t ->]]. now exists t.
      * intros [t [= -> ->]]. split; [reflexivity|now exists t].
Qed.

Lemma contains_spec needle hay : contains needle hay = true <-> occurs needle hay.
Proof.
  unfold occurs. induction hay as [|c hay IH].
  - cbn [contains]. rewrite orb_false_r, starts_with_spec. split.
    + intros [t H]. exists [], t. exact H.
    + intros (pre & post & H). destruct pre as [|x pre]; [|discriminate H].
      now exists post.
  - cbn [contains]. rewrite orb_true_iff, starts_with_spec, IH. split.
    + intros [[t H]|(pre & post & H)].
      * exists [], t. exact H.
      * exists (c :: pre), post. cbn. now rewrite H.
    + intros (pre & post & H). destruct pre as [|x pre].
      * left. now exists post.
      * right. injection H as -> H. now exists pre, post.
Qed.

Lemma contains_empty hay : contains [] hay = true.
Proof. now destruct hay. Qed.

Lemma contains_refl s : contains s s = true.
Proof. apply contains_spec. exists [], []. cbn. now rewrite app_nil_r. Qed.

Lemma contains_trans a b c :
  contains a b = true -> contains b c = true -> contains a c = true.
Proof.
  rewrite !contains_spec. intros (p & s & ->) (p' & s' & ->).
  exists (p' ++ p), (s ++ s'). now rewrite <- !app_assoc.
Qed.

Lemma contains_length a b :
  contains a b = true -> (List.length a <= List.length b)%nat.
Proof.
  rewrite contains_spec. intros (p & s & ->). rewrite !length_app. lia.
Qed.

Lemma search_loop_filter {B : Type} (keep : B -> bool) (l acc : list B) :
  fold_left (fun results book => if keep book then results ++ [book] else results)
    l acc
  = acc ++ filter keep l.
Proof.
  revert acc. induction l as [|b l IH]; intros acc; cbn.
  - now rewrite app_nil_r.
  - rewrite IH. destruct (keep b); [|reflexivity].
    now rewrite <- app_assoc.
Qed.

Lemma search_filter {B : Type} (title author : B -> text) q values :
  search title author q values = filter (matches title author (lower q)) values.
Proof. unfold search. cbv zeta. now rewrite search_loop_filter. Qed.

(** On a text without capital sigma and dotted capital I, [lower] works
    character by character. *)
Lemma do_lower_plain before s : plain s -> do_lower before s = map to_lower s.
Proof.
  revert before. induction s as [|c s IH]; intros before [H1 H2]; [reflexivity|].
  cbn [do_lower map]. unfold lower_ucs4, to_lower_full.
  destruct (N.eqb_spec c 0x3A3) as [->|_]; [destruct H1; now left|].
  destruct (N.eqb_spec c 0x130) as [->|_]; [destruct H2; now left|].
  cbn [app]. f_equal. apply IH. split; intros H; [apply H1|apply H2]; now right.
Qed.

Lemma lower_plain s : plain s -> lower s = map to_lower s.
Proof. apply do_lower_plain. Qed.

Lemma plain_app a b : plain (a ++ b) <-> plain a /\ plain b.
Proof.
  unfold plain. rewrite !in_app_iff. tauto.
Qed.

(** A part of the lower-case form is the lower-case form of a part. *)
Lemma occurs_map (f : N -> N) q t :
  occurs (map f q) (map f t)
  <-> exists pre u post, t = pre ++ u ++ post /\ map f u = map f q.
Proof.
  split.
  - intros (pre' & post' & H).
    apply map_eq_app in H. destruct H as (pre & rest & -> & _ & H).
    apply map_eq_app in H. destruct H as (u & post & -> & Hu & _).
    now exists pre, u, post.
  - intros (pre & u & post & -> & Hu).
    exists (map f pre), (map f post). now rewrite !map_app, Hu.
Qed.

Lemma matches_plain {B : Type} (title author : B -> text) q book :
  plain q -> plain (title book) -> plain (author book) ->
  matches title author (lower q) book = true
  <-> ci_substring q (title book) \/ ci_substring q (author book).
Proof.
  intros Hq Ht Ha. unfold matches, ci_substring.
  rewrite orb_true_iff, !contains_spec, !lower_plain by assumption.
  now rewrite !occurs_map.
Qed.

(** The lower-case table on the first 256 characters. *)
Lemma to_lower_latin c : (c < 256)%N -> to_lower c = small_letter c.
Proof.
  intros H.
  assert (E : forallb (fun c => (to_lower c =? small_letter c)%N)
                (map N.of_nat (seq 0 256)) = true) by (vm_compute; reflexivity).
  rewrite forallb_forall in E. apply N.eqb_eq, E.
  apply in_map_iff. exists (N.to_nat c). split; [apply N2Nat.id|].
  apply in_seq. lia.
Qed.

(** The characters of a [string] have code points below 256, and neither
    of the two special characters is among them. *)
Lemma text_of_bounded s : Forall (fun c => (c < 256)%N) (text_of s).
Proof.
  unfold text_of. apply Forall_map. apply Forall_forall.
  intros a _. apply N_ascii_bounded.
Qed.

Lemma text_of_plain s : plain (text_of s).
Proof.
  pose proof (text_of_bounded s) as H. rewrite Forall_forall in H.
  split; intros HI; apply H in HI; lia.
Qed.

(** [lower] never shortens a text, and keeps the length of a text without
    a dotted capital I. *)
Lemma do_lower_length before s :
  (List.length s <= List.length (do_lower before s))%nat
  /\ (~ In 0x130%N s -> List.length (do_lower before s) = List.length s).
Proof.
  revert before. induction s as [|c s IH]; intros before; [split; reflexivity|].
  cbn [do_lower]. rewrite length_app. destruct (IH (c :: before)) as [IH1 IH2].
  unfold lower_ucs4, to_lower_full.
  destruct (N.eqb_spec c 0x3A3) as [->|_].
  - cbn [List.length]. split; [lia|]. intros H. rewrite IH2; [lia|].
    intros HI. apply H. now right.
  - destruct (N.eqb_spec c 0x130) as [->|_]; cbn [List.length].
    + split; [lia|]. intros H. destruct H. now left.
    + split; [lia|]. intros H. rewrite IH2; [lia|].
      intros HI. apply H. now right.
Qed.

(** * Properties of the calendar *)

Ltac divmod := Z.div_mod_to_equations; lia.

Ltac consts :=
  change (3 =? 3) with true; change (24 =? 24) with true;
  change (12 =? 2) with false; change (2 <? 12) with true;
  cbn [andb orb negb DAYS_IN_MONTH DAYS_BEFORE_MONTH].

Lemma days_before_year_split a b c e :
  0 <= b <= 3 -> 0 <= c <= 24 -> 0 <= e <= 3 ->
  days_before_year (400 * a + 100 * b + 4 * c + e + 1)
  = 146097 * a + 36524 * b + 1461 * c + 365 * e.
Proof.
  intros Hb Hc He. unfold days_before_year. cbv zeta.
  replace (400 * a + 100 * b + 4 * c + e + 1 - 1)
    with (400 * a + 100 * b + 4 * c + e) by lia.
  divmod.
Qed.

Lemma is_leap_split a b c e :
  0 <= b <= 3 -> 0 <= c <= 24 -> 0 <= e <= 3 ->
  is_leap (400 * a + 100 * b + 4 * c + e + 1)
  = ((e =? 3) && (negb (c =? 24) || (b =? 3)))%bool.
Proof.
  intros Hb Hc He. unfold is_leap.
  destruct (Z.eqb_spec e 3), (Z.eqb_spec c 24), (Z.eqb_spec b 3);
    repeat match goal with
      | |- context [?x mod ?k =? 0] => destruct (Z.eqb_spec (x mod k) 0)
      end;
    cbn [andb orb negb]; try reflexivity; exfalso; divmod.
Qed.

Lemma all_below_spec k p :
  all_below k p = true -> forall z, 0 <= z < Z.of_nat k -> p z = true.
Proof.
  induction k as [|k IH]; intros H z Hz; [lia|].
  cbn [all_below] in H. apply andb_true_iff in H as [H0 H1].
  destruct (Z.eq_dec z (Z.of_nat k)) as [->|Hne]; [exact H0|].
  apply IH; [exact H1|lia].
Qed.

Lemma month_day_spec n leap :
  0 <= n < 365 ->
  month_day_ok leap n = true.
Proof.
  intros Hn. destruct leap.
  - apply (all_below_spec 365 (month_day_ok true)); [vm_compute; reflexivity|lia].
  - apply (all_below_spec 365 (month_day_ok false)); [vm_compute; reflexivity|lia].
Qed.

Lemma ord2ymd_spec n :
  1 <= n <= MAXORDINAL ->
  exists y m d, ord2ymd n = (y, m, d) /\ valid_ymd y m d /\ ymd2ord y m d = n.
Proof.
  unfold MAXORDINAL. intros Hn. unfold ord2ymd, DI400Y, DI100Y, DI4Y. cbv zeta.
  set (a := (n - 1) / 146097).
  set (r400 := (n - 1) mod 146097).
  set (b := r400 / 36524).
  set (r100 := r400 mod 36524).
  set (c := r100 / 1461).
  set (r4 := r100 mod 1461).
  set (e := r4 / 365).
  set (r := r4 mod 365).
  assert (Ha : n - 1 = 146097 * a + r400 /\ 0 <= r400 < 146097)
    by (subst a r400; divmod).
  assert (Hb : r400 = 36524 * b + r100 /\ 0 <= r100 < 36524 /\ 0 <= b <= 4)
    by (subst b r100; divmod).
  assert (Hc : r100 = 1461 * c + r4 /\ 0 <= r4 < 1461 /\ 0 <= c <= 24)
    by (subst c r4; divmod).
  assert (He : r4 = 365 * e + r /\ 0 <= r < 365 /\ 0 <= e <= 4)
    by (subst e r; divmod).
  clearbody a r400 b r100 c r4 e r.
  destruct (Z.eqb_spec e 4) as [E4|E4]; [|destruct (Z.eqb_spec b 4) as [B4|B4]];
    cbn [orb].
  - (* the last day of a leap year that closes a four-year cycle *)
    exists (a * 400 + 1 + b * 100 + c * 4 + e - 1), 12, 31.
    assert (Hb3 : 0 <= b <= 3) by lia.
    assert (Hc3 : 0 <= c <= 23) by lia.
    replace (a * 400 + 1 + b * 100 + c * 4 + e - 1)
      with (400 * a + 100 * b + 4 * c + 3 + 1) by lia.
    split; [reflexivity|].
    unfold valid_ymd, ymd2ord, days_in_month, days_before_month.
    rewrite days_before_year_split, is_leap_split by lia.
    assert (Hc24 : (c =? 24) = false) by (apply Z.eqb_neq; lia).
    rewrite Hc24. consts. lia.
  - (* the last day of a 400-year cycle *)
    exists (a * 400 + 1 + b * 100 + c * 4 + e - 1), 12, 31.
    assert (c = 0 /\ e = 0 /\ r = 0) as (-> & -> & ->) by lia.
    replace (a * 400 + 1 + b * 100 + 0 * 4 + 0 - 1)
      with (400 * a + 100 * 3 + 4 * 24 + 3 + 1) by lia.
    split; [reflexivity|].
    unfold valid_ymd, ymd2ord, days_in_month, days_before_month.
    rewrite days_before_year_split, is_leap_split by lia.
    consts. lia.
  - assert (Hb3 : 0 <= b <= 3) by lia.
    assert (He3 : 0 <= e <= 3) by lia.
    set (leap := ((e =? 3) && (negb (c =? 24) || (b =? 3)))%bool).
    pose proof (month_day_spec r leap ltac:(lia)) as Hmd.
    unfold month_day_ok in Hmd.
    destruct (month_day r leap) as [m d].
    exists (a * 400 + 1 + b * 100 + c * 4 + e), m, d.
    split; [reflexivity|].
    replace (a * 400 + 1 + b * 100 + c * 4 + e)
      with (400 * a + 100 * b + 4 * c + e + 1) by lia.
    unfold valid_ymd, ymd2ord, days_in_month, days_before_month.
    rewrite days_before_year_split, is_leap_split by lia.
    fold leap.
    repeat (apply andb_true_iff in Hmd as [Hmd ?]).
    repeat match goal with
      | H : (_ <=? _) = true |- _ => apply Z.leb_le in H
      | H : (_ =? _) = true |- _ => apply Z.eqb_eq in H
      end.
    lia.
Qed.

Lemma digit_cases k :
  0 <= k <= 9 ->
  k = 0 \/ k = 1 \/ k = 2 \/ k = 3 \/ k = 4 \/ k = 5 \/ k = 6 \/ k = 7 \/ k = 8 \/ k = 9.
Proof. lia. Qed.

Lemma digit_val_digit_char k : 0 <= k <= 9 -> digit_val (digit_char k) = Some k.
Proof.
  intros H. apply digit_cases in H.
  repeat (destruct H as [-> | H]; [reflexivity|]). subst k. reflexivity.
Qed.

Lemma digit_char_not_dash k : 0 <= k <= 9 -> Ascii.eqb (digit_char k) "-" = false.
Proof.
  intros H. apply digit_cases in H.
  repeat (destruct H as [-> | H]; [reflexivity|]). subst k. reflexivity.
Qed.

Lemma split_dash_pad2 n rest :
  0 <= n <= 99 ->
  split_dash (pad2 n ++ String "-" rest) = Some (pad2 n, rest).
Proof.
  intros H. unfold pad2. cbn [append split_dash].
  rewrite !digit_char_not_dash by divmod.
  reflexivity.
Qed.

Lemma split_dash_pad4 n rest :
  0 <= n <= 9999 ->
  split_dash (pad4 n ++ String "-" rest) = Some (pad4 n, rest).
Proof.
  intros H. unfold pad4, pad2. cbn [append split_dash].
  rewrite !digit_char_not_dash by divmod.
  reflexivity.
Qed.

Lemma parse_year_pad4 n : 0 <= n <= 9999 -> parse_year (pad4 n) = Some n.
Proof.
  intros H. unfold pad4, pad2, parse_year.
  rewrite !digit_val_digit_char by divmod.
  f_equal. divmod.
Qed.

Lemma option_is_eq o z : option_is o z = true -> o = Some z.
Proof.
  destruct o as [x|]; cbn; [|discriminate].
  intros H. apply Z.eqb_eq in H. now subst.
Qed.

Lemma parse_month_pad2 m : 1 <= m <= 12 -> parse_month (pad2 m) = Some m.
Proof.
  intros H. apply option_is_eq.
  assert (H' : ((m =? 0) || option_is (parse_month (pad2 m)) m)%bool = true).
  { apply (all_below_spec 13
             (fun m => ((m =? 0) || option_is (parse_month (pad2 m)) m)%bool));
      [vm_compute; reflexivity|lia]. }
  destruct (Z.eqb_spec m 0); [lia|exact H'].
Qed.

Lemma parse_day_pad2 d : 1 <= d <= 31 -> parse_day (pad2 d) = Some d.
Proof.
  intros H. apply option_is_eq.
  assert (H' : ((d =? 0) || option_is (parse_day (pad2 d)) d)%bool = true).
  { apply (all_below_spec 32
             (fun d => ((d =? 0) || option_is (parse_day (pad2 d)) d)%bool));
      [vm_compute; reflexivity|lia]. }
  destruct (Z.eqb_spec d 0); [lia|exact H'].
Qed.

Lemma days_in_month_le_31 y m : 1 <= m <= 12 -> days_in_month y m <= 31.
Proof.
  intros H. unfold days_in_month.
  destruct ((m =? 2) && is_leap y)%bool; [lia|].
  assert (m = 1 \/ m = 2 \/ m = 3 \/ m = 4 \/ m = 5 \/ m = 6 \/ m = 7 \/ m = 8
          \/ m = 9 \/ m = 10 \/ m = 11 \/ m = 12) as Hm by lia.
  repeat (destruct Hm as [-> | Hm]; [cbn; lia|]). subst m. cbn; lia.
Qed.

(** Reading back a date written by [strftime] gives midnight of that
    date. *)
Lemma strptime_strftime t :
  1 <= ordinal t <= MAXORDINAL ->
  strptime (strftime t) = Ok {| ordinal := ordinal t; micros := 0 |}.
Proof.
  intros H. destruct (ord2ymd_spec _ H) as (y & m & d & E & (Hy & Hm & Hd) & Hord).
  pose proof (days_in_month_le_31 y m Hm) as H31.
  unfold strftime. rewrite E. unfold strptime.
  change (pad4 y ++ "-" ++ pad2 m ++ "-" ++ pad2 d)%string
    with (pad4 y ++ String "-" (pad2 m ++ String "-" (pad2 d)))%string.
  rewrite split_dash_pad4 by lia.
  rewrite split_dash_pad2 by lia.
  rewrite parse_year_pad4, parse_month_pad2, parse_day_pad2 by lia.
  assert (Hok : ((1 <=? y) && (d <=? days_in_month y m))%bool = true).
  { apply andb_true_iff. split; apply Z.leb_le; lia. }
  rewrite Hok, Hord. reflexivity.
Qed.

Lemma strftime_nonempty t : 1 <= ordinal t <= MAXORDINAL -> str_truthy (Some (strftime t)) = true.
Proof.
  intros H. destruct (ord2ymd_spec _ H) as (y & m & d & E & _).
  unfold strftime. rewrite E. reflexivity.
Qed.

(** ** The texts [strptime] reads as dates *)

Lemma strptime_raises s e : strptime s = Raise e -> e = ValueError.
Proof.
  unfold strptime.
  destruct (split_dash s) as [[ytxt rest]|]; [|now intros [= <-]].
  destruct (split_dash rest) as [[mtxt dtxt]|]; [|now intros [= <-]].
  destruct (parse_year ytxt), (parse_month mtxt), (parse_day dtxt);
    try (now intros [= <-]).
  destruct ((1 <=? _) && _)%bool; [discriminate|now intros [= <-]].
Qed.

Lemma split_dash_app s a b :
  split_dash s = Some (a, b) -> s = (a ++ String "-" b)%string.
Proof.
  revert a. induction s as [|c s IH]; intros a; cbn [split_dash]; [discriminate|].
  destruct (Ascii.eqb_spec c "-") as [->|Hc].
  - now intros [= <- <-].
  - destruct (split_dash s) as [[a' b']|]; [|discriminate].
    intros [= <- <-]. cbn. now rewrite (IH a' eq_refl).
Qed.

Lemma digit_val_inv c k : digit_val c = Some k -> c = digit_char k /\ 0 <= k <= 9.
Proof.
  unfold digit_val, digit_char.
  destruct (Nat.leb 48 (nat_of_ascii c) && Nat.leb (nat_of_ascii c) 57)%bool eqn:E;
    [|discriminate].
  apply andb_true_iff in E. destruct E as [E1 E2].
  apply Nat.leb_le in E1, E2. intros [= <-]. split; [|lia].
  replace (48 + Z.to_nat (Z.of_nat (nat_of_ascii c) - 48))%nat
    with (nat_of_ascii c) by lia.
  symmetry. apply ascii_nat_embedding.
Qed.

Lemma parse_year_inv a y : parse_year a = Some y -> a = pad4 y /\ 0 <= y <= 9999.
Proof.
  unfold parse_year.
  destruct a as [|c1 [|c2 [|c3 [|c4 [|c5 a]]]]]; try discriminate.
  destruct (digit_val c1) as [k1|] eqn:E1; [|discriminate].
  destruct (digit_val c2) as [k2|] eqn:E2; [|discriminate].
  destruct (digit_val c3) as [k3|] eqn:E3; [|discriminate].
  destruct (digit_val c4) as [k4|] eqn:E4; [|discriminate].
  apply digit_val_inv in E1, E2, E3, E4.
  destruct E1 as [-> B1], E2 as [-> B2], E3 as [-> B3], E4 as [-> B4].
  intros [= <-]. split; [|lia].
  unfold pad4, pad2.
  replace ((k1 * 1000 + k2 * 100 + k3 * 10 + k4) / 1000) with k1 by divmod.
  replace ((k1 * 1000 + k2 * 100 + k3 * 10 + k4) / 100 mod 10) with k2 by divmod.
  replace ((k1 * 1000 + k2 * 100 + k3 * 10 + k4) mod 100 / 10) with k3 by divmod.
  replace ((k1 * 1000 + k2 * 100 + k3 * 10 + k4) mod 100 mod 10) with k4 by divmod.
  reflexivity.
Qed.

Lemma pad2_digits a b : 0 <= a <= 9 -> 0 <= b <= 9 ->
  pad2 (a * 10 + b) = String (digit_char a) (String (digit_char b) "").
Proof.
  intros Ha Hb. unfold pad2.
  replace ((a * 10 + b) / 10) with a by divmod.
  replace ((a * 10 + b) mod 10) with b by divmod.
  reflexivity.
Qed.

Lemma in_range_spec lo hi x : in_range lo hi x = true <-> lo <= x <= hi.
Proof. unfold in_range. rewrite andb_true_iff, !Z.leb_le. reflexivity. Qed.

Lemma parse_month_inv s m :
  parse_month s = Some m -> 1 <= m <= 12 /\ writes_month m s.
Proof.
  unfold parse_month, writes_month.
  destruct s as [|a [|b [|c s]]]; try discriminate.
  - destruct (digit_val a) as [ka|] eqn:Ea; [|discriminate].
    apply digit_val_inv in Ea. destruct Ea as [-> Ba].
    destruct (in_range 1 9 ka) eqn:R; [|discriminate].
    apply in_range_spec in R. intros [= <-]. split; [lia|].
    right. split; [lia|reflexivity].
  - destruct (digit_val a) as [ka|] eqn:Ea; [|discriminate].
    apply digit_val_inv in Ea. destruct Ea as [-> Ba].
    destruct (digit_val b) as [kb|] eqn:Eb;
      [|destruct ka as [|[p|p|]|p]; discriminate].
    apply digit_val_inv in Eb. destruct Eb as [-> Bb].
    remember (10 + kb) as m1 eqn:E1.
    destruct ka as [|[p|p|]|p]; try discriminate.
    + destruct (in_range 1 9 kb) eqn:R; [|discriminate].
      apply in_range_spec in R. intros [= <-]. split; [lia|]. left.
      now rewrite <- (pad2_digits 0 kb) by lia.
    + destruct (in_range 0 2 kb) eqn:R; [|discriminate].
      apply in_range_spec in R. intros [= <-]. split; [lia|]. left.
      rewrite <- (pad2_digits 1 kb) by lia. f_equal. lia.
Qed.

Lemma parse_day_inv s d :
  parse_day s = Some d -> 1 <= d <= 31 /\ writes_day d s.
Proof.
  unfold parse_day, writes_day.
  destruct s as [|a [|b [|c s]]]; try discriminate.
  - destruct (digit_val a) as [ka|] eqn:Ea; [|discriminate].
    apply digit_val_inv in Ea. destruct Ea as [-> Ba].
    destruct (in_range 1 9 ka) eqn:R; [|discriminate].
    apply in_range_spec in R. intros [= <-]. split; [lia|].
    right. split; [lia|]. left. reflexivity.
  - destruct (digit_val b) as [kb|] eqn:Eb.
    2:{ destruct (digit_val a) as [[|[[p|p|]|[p|p|]|]|p]|]; discriminate. }
    apply digit_val_inv in Eb. destruct Eb as [-> Bb].
    destruct (digit_val a) as [ka|] eqn:Ea.
    + apply digit_val_inv in Ea. destruct Ea as [-> Ba].
      remember (10 + kb) as d1 eqn:E1.
      remember (20 + kb) as d2 eqn:E2.
      remember (30 + kb) as d3 eqn:E3.
      destruct ka as [|[[p|p|]|[p|p|]|]|p]; try discriminate.
      * destruct (in_range 1 9 kb) eqn:R; [|discriminate].
        apply in_range_spec in R. intros [= <-]. split; [lia|]. left.
        now rewrite <- (pad2_digits 0 kb) by lia.
      * destruct (in_range 0 1 kb) eqn:R; [|discriminate].
        apply in_range_spec in R. intros [= <-]. split; [lia|]. left.
        rewrite <- (pad2_digits 3 kb) by lia. f_equal. lia.
      * intros [= <-]. split; [lia|]. left.
        rewrite <- (pad2_digits 2 kb) by lia. f_equal. lia.
      * intros [= <-]. split; [lia|]. left.
        rewrite <- (pad2_digits 1 kb) by lia. f_equal. lia.
    + destruct (Ascii.eqb_spec a " ") as [->|Hne]; cbn [andb]; [|discriminate].
      destruct (in_range 1 9 kb) eqn:R; [|discriminate].
      apply in_range_spec in R. intros [= <-]. split; [lia|].
      right. split; [lia|]. right. reflexivity.
Qed.

Lemma split_dash_digit n rest :
  0 <= n <= 9 -> split_dash (digit n ++ String "-" rest) = Some (digit n, rest).
Proof.
  intros H. unfold digit. cbn [append split_dash].
  rewrite digit_char_not_dash by lia. reflexivity.
Qed.

Lemma split_dash_month m ms rest :
  1 <= m <= 12 ->
  writes_month m ms ->
  split_dash (ms ++ String "-" rest) = Some (ms, rest).
Proof.
  intros Hm [->|[H9 ->]].
  - apply split_dash_pad2. lia.
  - apply split_dash_digit. lia.
Qed.

Lemma parse_month_writes m ms :
  1 <= m <= 12 -> writes_month m ms -> parse_month ms = Some m.
Proof.
  intros Hm [->|[H9 ->]]; [now apply parse_month_pad2|].
  unfold digit, parse_month. rewrite digit_val_digit_char by lia.
  now rewrite (proj2 (in_range_spec 1 9 m)) by lia.
Qed.

Lemma parse_day_writes d ds :
  1 <= d <= 31 -> writes_day d ds -> parse_day ds = Some d.
Proof.
  intros Hd [->|[H9 [->| ->]]]; [now apply parse_day_pad2| |].
  - unfold digit, parse_day. rewrite digit_val_digit_char by lia.
    now rewrite (proj2 (in_range_spec 1 9 d)) by lia.
  - unfold digit, parse_day. rewrite digit_val_digit_char by lia.
    change (digit_val " ") with (@None Z). cbn [Ascii.eqb Bool.eqb andb].
    now rewrite (proj2 (in_range_spec 1 9 d)) by lia.
Qed.

(** [strptime] reads every way of writing a date of the calendar as
    midnight of that date ... *)
Lemma strptime_date_text s y m d :
  date_text s y m d -> strptime s = Ok (datetime_of y m d 0).
Proof.
  intros [(Hy & Hm & Hd) (ms & ds & Hms & Hds & ->)].
  pose proof (days_in_month_le_31 y m Hm) as H31.
  unfold strptime.
  change (pad4 y ++ "-" ++ ms ++ "-" ++ ds)%string
    with (pad4 y ++ String "-" (ms ++ String "-" ds))%string.
  rewrite split_dash_pad4 by lia.
  rewrite (split_dash_month m) by (lia || assumption).
  rewrite parse_year_pad4 by lia.
  rewrite (parse_month_writes m) by (lia || assumption).
  rewrite (parse_day_writes d) by (lia || assumption).
  assert (Hok : ((1 <=? y) && (d <=? days_in_month y m))%bool = true).
  { apply andb_true_iff. split; apply Z.leb_le; lia. }
  now rewrite Hok.
Qed.

(** ... and nothing else. *)
Lemma strptime_ok_date_text s due :
  strptime s = Ok due ->
  exists y m d, date_text s y m d /\ due = datetime_of y m d 0.
Proof.
  unfold strptime.
  destruct (split_dash s) as [[ytxt rest]|] eqn:E1; [|discriminate].
  destruct (split_dash rest) as [[mtxt dtxt]|] eqn:E2; [|discriminate].
  apply split_dash_app in E1, E2. subst s rest.
  destruct (parse_year ytxt) as [y|] eqn:Ey; [|discriminate].
  destruct (parse_month mtxt) as [m|] eqn:Em; [|discriminate].
  destruct (parse_day dtxt) as [d|] eqn:Ed; [|discriminate].
  apply parse_year_inv in Ey. destruct Ey as [-> Hy].
  apply parse_month_inv in Em. destruct Em as [Hm Hms].
  apply parse_day_inv in Ed. destruct Ed as [Hd Hds].
  destruct ((1 <=? y) && (d <=? days_in_month y m))%bool eqn:Hok; [|discriminate].
  apply andb_true_iff in Hok. destruct Hok as [H1 H2].
  apply Z.leb_le in H1, H2.
  intros [= <-]. exists y, m, d. split; [|reflexivity].
  split; [repeat split; lia|].
  exists mtxt, dtxt. repeat split; assumption.
Qed.

Lemma strptime_not_date s :
  (forall y m d, ~ date_text s y m d) -> strptime s = Raise ValueError.
Proof.
  intros H. destruct (strptime s) as [due|e] eqn:E.
  - destruct (strptime_ok_date_text s due E) as (y & m & d & Hd & _).
    now destruct (H y m d).
  - now rewrite (strptime_raises s e E).
Qed.


(** * The lending state machine *)

(** ** Failed preconditions *)

(** C4.  [borrow_book] with an unknown book id, an unknown member id or a
    book that is not available returns [False]; [return_book] with an
    unknown book id or a book that is available returns [(False, 0.0)].
    In both cases the world after the call is the world before it: the
    two dictionaries, the file and the record of saves are untouched. *)
Theorem failed_precondition_is_noop (w : World) (bid mid : string) (now : datetime) :
  (cannot_borrow bid mid (lib w) -> borrow_book bid mid now w = Return false w)
  /\ (cannot_return bid (lib w) -> return_book bid now w = Return (false, 0%Q) w).
Proof.
  split.
  - intros [H|[H|(book & H & Hav)]]; unfold borrow_book.
    + now rewrite H.
    + rewrite H. now destruct (dict_get bid (books (lib w))).
    + rewrite H. destruct (dict_get mid (members (lib w))); [|reflexivity].
      now rewrite Hav.
  - intros [H|(book & H & Hav)]; unfold return_book; rewrite H; [reflexivity|].
    now rewrite Hav.
Qed.

Lemma failed_precondition_is_noop_witness :
  cannot_borrow "B1" "M1" (lib sample_world)
  /\ cannot_return "B2" (lib sample_world)
  /\ borrow_book "B1" "M1" (datetime_of 2024 3 1 0) sample_world
     = Return false sample_world
  /\ return_book "B2" (datetime_of 2024 3 1 0) sample_world
     = Return (false, 0%Q) sample_world.
Proof.
  assert (Hb : cannot_borrow "B1" "M1" (lib sample_world)).
  { right. right. eexists. split; reflexivity. }
  assert (Hr : cannot_return "B2" (lib sample_world)).
  { right. eexists. split; reflexivity. }
  split; [exact Hb|]. split; [exact Hr|]. split.
  - exact (proj1 (failed_precondition_is_noop sample_world "B1" "M1"
                    (datetime_of 2024 3 1 0)) Hb).
  - exact (proj2 (failed_precondition_is_noop sample_world "B2" "M1"
                    (datetime_of 2024 3 1 0)) Hr).
Defined.

(** ** The clock and the sample store *)

Lemma add_days_in_calendar now :
  due_in_calendar now ->
  add_days now 14 = Ok {| ordinal := ordinal now + 14; micros := micros now |}.
Proof.
  intros [H1 H2]. unfold add_days.
  assert (E : ((1 <=? ordinal now + 14) && (ordinal now + 14 <=? MAXORDINAL))%bool = true).
  { apply andb_true_iff. split; apply Z.leb_le; lia. }
  cbv zeta. now rewrite E.
Qed.

Lemma sample_world_wf :
  dict_wf (books (lib sample_world)) /\ dict_wf (members (lib sample_world)).
Proof.
  split; repeat constructor; cbn; intuition discriminate.
Qed.

(** ** Searching *)

Lemma search_books_filter q L :
  search_books q L
  = filter
      (matches (fun book => text_of (title book)) (fun book => text_of (author book))
         (lower (text_of q)))
      (dict_values (books L)).
Proof. apply search_filter. Qed.

(** C9, as the program behaves.  [search_books] returns the books of the
    catalogue for which the lower-case form of the query is a part of the
    lower-case form of the title or of the author, each as often as it is
    in the catalogue and in the order of the catalogue; the empty query
    returns the whole catalogue.  When the query, the title and the author
    have no capital sigma and no dotted capital I, these are the books
    whose title or author contains the query when case is ignored; among
    the first 256 characters the case that is ignored is that of the
    letters A to Z and of the accented letters from 0xC0 to 0xDE.  Titles
    and authors held in a [string] are such texts, so on the store
    [search_books] returns the books whose title or author contains the
    query when case is ignored. *)
Theorem search_books_spec {B : Type} (title_of author_of : B -> text)
    (query : text) (values : list B) :
  (exists keep : B -> bool,
      (forall book,
          keep book = true
          <-> occurs (lower query) (lower (title_of book))
              \/ occurs (lower query) (lower (author_of book)))
      /\ search title_of author_of query values = filter keep values)
  /\ (plain query ->
      forall book,
        plain (title_of book) ->
        plain (author_of book) ->
        (In book (search title_of author_of query values)
         <-> In book values
             /\ (ci_substring query (title_of book)
                 \/ ci_substring query (author_of book))))
  /\ (forall c, (c < 256)%N -> to_lower c = small_letter c)
  /\ search title_of author_of [] values = values
  /\ (forall (q : string) (L : Library),
         (exists keep : Book -> bool,
             (forall book,
                 keep book = true
                 <-> ci_substring (text_of q) (text_of (title book))
                     \/ ci_substring (text_of q) (text_of (author book)))
             /\ search_books q L = filter keep (dict_values (books L)))
         /\ (forall book,
                In book (search_books q L)
                <-> In book (dict_values (books L))
                    /\ (ci_substring (text_of q) (text_of (title book))
                        \/ ci_substring (text_of q) (text_of (author book))))
         /\ search_books "" L = dict_values (books L)).
Proof.
  split; [|split; [|split; [|split]]].
  - exists (matches title_of author_of (lower query)). split.
    + intros book. unfold matches.
      now rewrite orb_true_iff, !contains_spec.
    + apply search_filter.
  - intros Hq book Ht Ha.
    now rewrite search_filter, filter_In, matches_plain.
  - exact to_lower_latin.
  - rewrite search_filter. apply forallb_filter_id. apply forallb_forall.
    intros book _. unfold matches. change (lower []) with (@nil N).
    now rewrite contains_empty.
  - intros q L.
    assert (Hkeep : forall book,
               matches (fun b => text_of (title b)) (fun b => text_of (author b))
                 (lower (text_of q)) book = true
               <-> ci_substring (text_of q) (text_of (title book))
                   \/ ci_substring (text_of q) (text_of (author book))).
    { intros book.
      apply (matches_plain (fun b => text_of (title b))
               (fun b => text_of (author b))); apply text_of_plain. }
    split; [|split].
    + eexists. split; [exact Hkeep|apply search_books_filter].
    + intros book. now rewrite search_books_filter, filter_In, Hkeep.
    + rewrite search_books_filter. apply forallb_filter_id. apply forallb_forall.
      intros book _. unfold matches. change (lower (text_of "")) with (@nil N).
      now rewrite contains_empty.
Qed.

Lemma search_books_spec_witness :
  plain latin_query
  /\ plain (fst latin_book)
  /\ plain (snd latin_book)
  /\ ci_substring latin_query (fst latin_book)
  /\ In latin_book (search fst snd latin_query [sigma_book; latin_book])
  /\ search fst snd latin_query [sigma_book; latin_book] = [latin_book]
  /\ In (Book_init "B2" "Data Structures" "Jane Doe")
       (search_books "STRUCT" sample_library)
  /\ search_books "STRUCT" sample_library
     = [Book_init "B2" "Data Structures" "Jane Doe"].
Proof.
  assert (Hplain : forall s, forallb (fun c => negb (c =? 0x3A3)%N && negb (c =? 0x130)%N) s = true
                             -> plain s).
  { intros s H. rewrite forallb_forall in H.
    split; intros HI; apply H in HI; discriminate HI. }
  assert (Hq : plain latin_query) by (apply Hplain; reflexivity).
  assert (Ht : plain (fst latin_book)) by (apply Hplain; reflexivity).
  assert (Ha : plain (snd latin_book)) by (apply Hplain; reflexivity).
  assert (Hci : ci_substring latin_query (fst latin_book)).
  { exists [], [0xC9; 0x63; 0x6F; 0x6C; 0x65]%N, (text_of " des femmes").
    split; reflexivity. }
  split; [exact Hq|]. split; [exact Ht|]. split; [exact Ha|].
  split; [exact Hci|].
  destruct (search_books_spec fst snd latin_query [sigma_book; latin_book])
    as (_ & Hplainly & _ & _ & Hstore).
  split; [|split; [|split]].
  - apply (Hplainly Hq latin_book Ht Ha). split; [right; now left|now left].
  - vm_compute. reflexivity.
  - apply (proj1 (proj2 (Hstore "STRUCT" sample_library))).
    split; [right; left; reflexivity|].
    left. exists (text_of "Data "), (text_of "Struct"), (text_of "ures").
    split; reflexivity.
  - vm_compute. reflexivity.
Defined.

(** C9 as the specification states it fails.  The query of the two
    capital letters omicron and sigma is, as it stands, the beginning of
    the title omicron, sigma, alpha, so the title contains it also when
    case is ignored; but the lower-case form of the query ends with the
    final small sigma, the lower-case form of the title has the small
    sigma in its place, and [search_books] does not return the book. *)
Lemma search_books_misses_capital_sigma :
  fst sigma_book = sigma_query ++ [0x391]%N
  /\ ci_substring sigma_query (fst sigma_book)
  /\ lower sigma_query = [0x3BF; 0x3C2]%N
  /\ lower (fst sigma_book) = [0x3BF; 0x3C3; 0x3B1]%N
  /\ search fst snd sigma_query [sigma_book] = []
  /\ ~ (forall book,
           In book (search fst snd sigma_query [sigma_book])
           <-> In book [sigma_book]
               /\ (ci_substring sigma_query (fst book)
                   \/ ci_substring sigma_query (snd book))).
Proof.
  assert (Hci : ci_substring sigma_query (fst sigma_book)).
  { exists [], sigma_query, [0x391]%N. split; reflexivity. }
  assert (Hnone : search fst snd sigma_query [sigma_book] = [])
    by (vm_compute; reflexivity).
  split; [reflexivity|]. split; [exact Hci|].
  split; [vm_compute; reflexivity|]. split; [vm_compute; reflexivity|].
  split; [exact Hnone|].
  intros H. rewrite Hnone in H.
  apply (proj2 (H sigma_book)). split; [now left|now left].
Qed.

(** ** Loading without validation *)

(** [return_book] fails at the lookup of the borrower once the fine has
    been computed. *)
Lemma return_book_unknown_borrower w bid now book fine :
  dict_get bid (books (lib w)) = Some book ->
  is_available book = false ->
  calculate_fine bid now (lib w) = Ok fine ->
  members_at (borrower book) (members (lib w)) = None ->
  return_book bid now w = Raised (KeyError (borrower book)) w.
Proof.
  intros Hb Hav Hfine Hm. unfold return_book.
  now rewrite Hb, Hav, Hfine, Hm.
Qed.

Lemma calculate_fine_dated L bid now book s due :
  dict_get bid (books L) = Some book ->
  is_available book = false ->
  due_date book = Some s ->
  strptime s = Ok due ->
  calculate_fine bid now L
  = Ok (if 0 <? sub_days now due
        then (inject_Z (sub_days now due) * fine_rate L)%Q else 0%Q).
Proof.
  intros Hb Hav Hs Hdue. unfold calculate_fine. rewrite Hb, Hav, Hs.
  cbn [negb andb].
  destruct s as [|c s]; [discriminate Hdue|].
  cbn [str_truthy]. rewrite Hdue. cbn [bind].
  now destruct (0 <? sub_days now due).
Qed.

(** C10.  There is a file that [Library()] loads although one of its
    books is lent to a borrower who is not a member; on the store it
    builds, [return_book] for that book raises [KeyError] at the lookup of
    the borrower, whatever the time, instead of returning
    [(False, 0.0)]. *)
Theorem return_book_raises_on_orphan_loan :
  exists (data : json) (w : World) (bid : string) (book : Book) (m : string),
    Library_init (Document data) = Loaded w
    /\ dict_get bid (books (lib w)) = Some book
    /\ is_available book = false
    /\ borrower book = Some m
    /\ dict_get m (members (lib w)) = None
    /\ forall now, return_book bid now w = Raised (KeyError (Some m)) w.
Proof.
  exists orphan_doc, orphan_world, "B1".
  eexists. exists "M9".
  split; [reflexivity|]. split; [reflexivity|]. repeat split.
  intros now.
  pose (book := {| book_id := "B1"; title := "Dune"; author := "Frank Herbert";
                   is_available := false; borrower := Some "M9";
                   due_date := Some "2024-01-01" |}).
  apply (return_book_unknown_borrower orphan_world "B1" now book
           (if 0 <? sub_days now {| ordinal := 738886; micros := 0 |}
            then (inject_Z (sub_days now {| ordinal := 738886; micros := 0 |}) * 1)%Q
            else 0%Q));
    try reflexivity.
  apply (calculate_fine_dated (lib orphan_world) "B1" now book "2024-01-01"
           {| ordinal := 738886; micros := 0 |}); reflexivity.
Qed.

(** * Persistence *)

(** [Library()] accepts whatever the two sections decode to. *)
Lemma Library_init_document data bs ms :
  decodes_to data bs ms ->
  Library_init (Document data)
  = Loaded {| lib := {| books := bs; members := ms; fine_rate := 1 |};
              disk := Document data;
              trace := [] |}.
Proof.
  intros [Hb Hm]. unfold Library_init, load_data.
  destruct (get_or_empty "books" data) as [books_data| |] eqn:Eb;
    try discriminate Hb.
  cbn [lbind] in Hb |- *. rewrite Hb. cbn [lbind].
  destruct (get_or_empty "members" data) as [members_data| |] eqn:Em;
    try discriminate Hm.
  cbn [lbind] in Hm |- *. rewrite Hm. reflexivity.
Qed.

(** C8, as the program behaves.  A file that is present but cannot be
    parsed makes [Library()] fail with [JSONDecodeError]: no store is
    built.  A file whose two sections decode is loaded exactly as decoded;
    no borrower id is compared with the members, so a book lent to a
    missing member enters the store. *)
Theorem load_failure_policy :
  Library_init Malformed = Failed JSONDecodeError
  /\ forall data bs ms,
       decodes_to data bs ms ->
       Library_init (Document data)
       = Loaded {| lib := {| books := bs; members := ms; fine_rate := 1 |};
                   disk := Document data;
                   trace := [] |}.
Proof.
  split; [reflexivity|].
  intros data bs ms H. now apply Library_init_document.
Qed.

Lemma load_failure_policy_witness :
  decodes_to orphan_doc (books (lib orphan_world)) (members (lib orphan_world))
  /\ Library_init (Document orphan_doc) = Loaded orphan_world.
Proof.
  assert (H : decodes_to orphan_doc (books (lib orphan_world))
                (members (lib orphan_world))) by (split; reflexivity).
  split; [exact H|].
  exact (proj2 load_failure_policy orphan_doc _ _ H).
Defined.

(** C8 as the specification states it fails: the file [orphan_doc] parses,
    its only book is lent to "M9", no member "M9" is loaded, and
    [Library()] builds the store all the same. *)
Lemma load_accepts_orphan_loan :
  decodes_to orphan_doc (books (lib orphan_world)) (members (lib orphan_world))
  /\ orphan_loan (lib orphan_world)
  /\ Library_init (Document orphan_doc) = Loaded orphan_world
  /\ ~ (exists e, Library_init (Document orphan_doc) = Failed e).
Proof.
  split; [split; reflexivity|]. split.
  - exists "B1". eexists. exists "M9". repeat split.
  - split; [reflexivity|]. intros [e He]. discriminate He.
Qed.

(** ** Save, then load *)

Lemma Book_kwargs_dict b : Book_kwargs (Book_dict b) = Loaded b.
Proof. now destruct b as [i t a av [bo|] [du|]]. Qed.

Lemma as_str_list_strings l : as_str_list (map JStr l) = Loaded l.
Proof.
  induction l as [|s l IH]; [reflexivity|].
  cbn. now rewrite IH.
Qed.

Lemma Member_kwargs_dict m : Member_kwargs (Member_dict m) = Loaded m.
Proof.
  destruct m as [i n e [|s l]]; [reflexivity|].
  unfold Member_dict, Member_kwargs. cbn.
  now rewrite as_str_list_strings.
Qed.

(** A comprehension whose entries all evaluate is the fold of the
    assignments. *)
Lemma comprehension_items {A B V : Type} (entry : A -> loaded (string * V))
    (enc : B -> A) (item : B -> string * V) (l : list B) (acc : pydict V) :
  (forall x, In x l -> entry (enc x) = Loaded (item x)) ->
  comprehension entry (map enc l) acc
  = Loaded (fold_left (fun d kv => dict_set (fst kv) (snd kv) d) (map item l) acc).
Proof.
  revert acc. induction l as [|x l IH]; intros acc H; [reflexivity|].
  cbn. rewrite (H x) by now left. cbn. apply IH.
  intros y Hy. apply H. now right.
Qed.

(** Assigning the items of a dictionary one after the other, in order,
    rebuilds it. *)
Lemma fold_dict_set_wf {V : Type} (d acc : pydict V) :
  dict_wf (acc ++ d) ->
  fold_left (fun d kv => dict_set (fst kv) (snd kv) d) d acc = acc ++ d.
Proof.
  revert acc. induction d as [|[k v] d IH]; intros acc Hwf; cbn.
  - now rewrite app_nil_r.
  - assert (Hfresh : dict_get k acc = None).
    { apply dict_get_none_keys. unfold dict_wf, dict_keys in Hwf.
      rewrite map_app in Hwf. cbn in Hwf.
      apply NoDup_remove_2 in Hwf. intros HI. apply Hwf.
      apply in_or_app. now left. }
    rewrite (dict_set_fresh k v acc Hfresh).
    rewrite IH; rewrite <- app_assoc; [reflexivity|exact Hwf].
Qed.

Lemma load_books_dump (bs : pydict Book) :
  dict_wf bs ->
  load_books (JObj (map (fun kb => (fst kb, Book_dict (snd kb))) bs)) = Loaded bs.
Proof.
  intros Hwf. unfold load_books.
  rewrite (comprehension_items _ _ (fun kb => kb)).
  - rewrite map_id. now rewrite (fold_dict_set_wf bs []).
  - intros [k b] _. cbn [fst snd]. now rewrite Book_kwargs_dict.
Qed.

Lemma load_members_dump (ms : pydict Member) :
  dict_wf ms ->
  load_members (JObj (map (fun km => (fst km, Member_dict (snd km))) ms))
  = Loaded ms.
Proof.
  intros Hwf. unfold load_members.
  rewrite (comprehension_items _ _ (fun km => km)).
  - rewrite map_id. now rewrite (fold_dict_set_wf ms []).
  - intros [k m] _. cbn [fst snd]. now rewrite Member_kwargs_dict.
Qed.

(** [Library()] started on the file [save_data] writes finds the two
    dictionaries that were saved. *)
Lemma Library_init_dump L :
  dict_wf (books L) ->
  dict_wf (members L) ->
  Library_init (Document (dump L))
  = Loaded {| lib := {| books := books L; members := members L; fine_rate := 1 |};
              disk := Document (dump L);
              trace := [] |}.
Proof.
  intros Hb Hm. apply Library_init_document. split; cbn.
  - now apply load_books_dump.
  - now apply load_members_dump.
Qed.

Lemma dict_get_map {V W : Type} (f : V -> W) k (d : pydict V) :
  dict_get k (map (fun kv => (fst kv, f (snd kv))) d) = option_map f (dict_get k d).
Proof.
  induction d as [|[k' v] d IH]; cbn; [reflexivity|].
  now destruct (String.eqb k k').
Qed.

(** The saved file holds, under every key, the attributes of the entity
    the store has under that key. *)
Lemma file_entry_dump L k :
  file_entry "books" k (Document (dump L)) = option_map Book_dict (dict_get k (books L))
  /\ file_entry "members" k (Document (dump L))
     = option_map Member_dict (dict_get k (members L)).
Proof.
  split; cbn; apply dict_get_map.
Qed.

(** Both shapes of a section go through the same assignments. *)
Lemma comprehension_shapes {V : Type} (field : string)
    (kwargs : json -> loaded V) (objs : list json) (ids : list string)
    (acc : pydict V) :
  embeds field objs ids ->
  comprehension
    (fun o => k <~ subscript field o ;; v <~ kwargs o ;; k <~ as_str k ;;
              Loaded (k, v))
    objs acc
  = comprehension (fun kv => v <~ kwargs (snd kv) ;; Loaded (fst kv, v))
      (combine ids objs) acc.
Proof.
  intros H. revert acc.
  induction H as [|o i objs ids (kw & -> & Hid) _ IH]; intros acc; [reflexivity|].
  cbn [comprehension combine]. cbn [subscript fst snd].
  rewrite Hid. cbn [lbind].
  destruct (kwargs (JObj kw)) as [v| |]; cbn [lbind as_str fst snd];
    [apply IH|reflexivity|reflexivity].
Qed.

(** The legacy list of the objects [save_data] writes decodes to the
    dictionary of its entities keyed by their ids. *)
Lemma load_books_legacy (l : list Book) :
  load_books (JArr (map Book_dict l))
  = Loaded (dict_of_items (map (fun b => (book_id b, b)) l)).
Proof.
  unfold load_books, dict_of_items.
  apply comprehension_items. intros b _.
  rewrite Book_kwargs_dict. reflexivity.
Qed.

Lemma load_members_legacy (l : list Member) :
  load_members (JArr (map Member_dict l))
  = Loaded (dict_of_items (map (fun m => (member_id m, m)) l)).
Proof.
  unfold load_members, dict_of_items.
  apply comprehension_items. intros m _.
  rewrite Member_kwargs_dict. reflexivity.
Qed.

(** C7.  Loading what [save_data] wrote rebuilds the two dictionaries of
    the store that was saved; and a document whose sections are lists of
    objects that embed their ids loads to the same result as the document
    whose sections map each id to the same object.  The legacy list of
    saved entities loads to the dictionary of those entities keyed by
    id. *)
Theorem save_load_round_trip :
  (forall w : World,
      dict_wf (books (lib w)) ->
      dict_wf (members (lib w)) ->
      exists w',
        Library_init (disk (save_data w)) = Loaded w'
        /\ books (lib w') = books (lib w)
        /\ members (lib w') = members (lib w))
  /\ (forall (self : Library) (bobjs mobjs : list json) (bids mids : list string),
         embeds "book_id" bobjs bids ->
         embeds "member_id" mobjs mids ->
         load_books (JArr bobjs) = load_books (JObj (combine bids bobjs))
         /\ load_members (JArr mobjs) = load_members (JObj (combine mids mobjs))
         /\ load_data self (Document (two_sections (JArr bobjs) (JArr mobjs)))
            = load_data self
                (Document (two_sections (JObj (combine bids bobjs))
                             (JObj (combine mids mobjs)))))
  /\ (forall (bl : list Book) (ml : list Member),
         Library_init (Document (two_sections (JArr (map Book_dict bl))
                                   (JArr (map Member_dict ml))))
         = Loaded
             {| lib :=
                  {| books := dict_of_items (map (fun b => (book_id b, b)) bl);
                     members := dict_of_items (map (fun m => (member_id m, m)) ml);
                     fine_rate := 1 |};
                disk := Document (two_sections (JArr (map Book_dict bl))
                                    (JArr (map Member_dict ml)));
                trace := [] |}).
Proof.
  split; [|split].
  - intros w Hb Hm. eexists. split.
    + apply Library_init_document. split.
      * cbn. apply load_books_dump, Hb.
      * cbn. apply load_members_dump, Hm.
    + split; reflexivity.
  - intros self bobjs mobjs bids mids Hb Hm.
    assert (Eb : load_books (JArr bobjs) = load_books (JObj (combine bids bobjs)))
      by (apply comprehension_shapes, Hb).
    assert (Em : load_members (JArr mobjs) = load_members (JObj (combine mids mobjs)))
      by (apply comprehension_shapes, Hm).
    split; [exact Eb|]. split; [exact Em|].
    unfold load_data, two_sections. cbn [get_or_empty dict_get].
    cbn [String.eqb Ascii.eqb Bool.eqb]. cbn [lbind].
    now rewrite Eb, Em.
  - intros bl ml. apply Library_init_document. split; cbn.
    + apply load_books_legacy.
    + apply load_members_legacy.
Qed.

Lemma save_load_round_trip_witness :
  dict_wf (books (lib sample_world))
  /\ dict_wf (members (lib sample_world))
  /\ embeds "book_id" [Book_dict (Book_init "B7" "Emma" "Jane Austen")] ["B7"]
  /\ embeds "member_id" [] []
  /\ (exists w',
         Library_init (disk (save_data sample_world)) = Loaded w'
         /\ books (lib w') = books sample_library
         /\ members (lib w') = members sample_library)
  /\ load_books (JArr [Book_dict (Book_init "B7" "Emma" "Jane Austen")])
     = load_books (JObj [("B7", Book_dict (Book_init "B7" "Emma" "Jane Austen"))]).
Proof.
  destruct sample_world_wf as [Hb Hm].
  assert (Hbe : embeds "book_id" [Book_dict (Book_init "B7" "Emma" "Jane Austen")]
                  ["B7"]).
  { constructor; [|constructor]. eexists. split; reflexivity. }
  assert (Hme : embeds "member_id" [] []) by constructor.
  split; [exact Hb|]. split; [exact Hm|]. split; [exact Hbe|]. split; [exact Hme|].
  destruct save_load_round_trip as (Hsave & Hshape & _).
  split.
  - exact (Hsave sample_world Hb Hm).
  - exact (proj1 (Hshape sample_library _ _ _ _ Hbe Hme)).
Defined.

(** * Calls that succeed *)

(** ** Borrowing *)

(** C5.  When the book and the member exist and the book is available,
    [borrow_book] returns [True] and leaves a world in which the book is
    not available, is held by the member and is due on the fourteenth day
    after today, the member's list has the book id appended and
    everything else is as before.  The new state is saved: the file then
    holds, under the id of the book, the book as lent with its new due
    date and, under the id of the member, the member with the longer
    list, and a fresh [Library()] reads the two dictionaries back from it.
    The day today + 14 has to be a date of the calendar. *)
Theorem borrow_book_success (w : World) (bid mid : string) (now : datetime)
    (book : Book) (member : Member) :
  dict_get bid (books (lib w)) = Some book ->
  dict_get mid (members (lib w)) = Some member ->
  is_available book = true ->
  due_in_calendar now ->
  exists (due : datetime) (w' : World),
    borrow_book bid mid now w = Return true w'
    /\ ordinal due = ordinal now + 14
    /\ strptime (strftime due) = Ok {| ordinal := ordinal now + 14; micros := 0 |}
    /\ books (lib w')
       = dict_set bid
           {| book_id := book_id book; title := title book; author := author book;
              is_available := false; borrower := Some mid;
              due_date := Some (strftime due) |}
           (books (lib w))
    /\ members (lib w')
       = dict_set mid
           {| member_id := member_id member; name := name member;
              email := email member;
              borrowed_books := borrowed_books member ++ [bid] |}
           (members (lib w))
    /\ fine_rate (lib w') = fine_rate (lib w)
    /\ disk w' = Document (dump (lib w'))
    /\ trace w' = trace w ++ [Saved (dump (lib w'))]
    /\ file_entry "books" bid (disk w')
       = Some (JObj [("book_id", JStr (book_id book)); ("title", JStr (title book));
                     ("author", JStr (author book)); ("is_available", JBool false);
                     ("borrower", JStr mid); ("due_date", JStr (strftime due))])
    /\ file_entry "members" mid (disk w')
       = Some (JObj [("member_id", JStr (member_id member));
                     ("name", JStr (name member)); ("email", JStr (email member));
                     ("borrowed_books",
                      JArr (map JStr (borrowed_books member ++ [bid])))])
    /\ (dict_wf (books (lib w)) ->
        dict_wf (members (lib w)) ->
        exists w2,
          Library_init (disk w') = Loaded w2
          /\ books (lib w2) = books (lib w')
          /\ members (lib w2) = members (lib w')).
Proof.
  intros Hb Hm Hav Hcal.
  exists {| ordinal := ordinal now + 14; micros := micros now |}.
  unfold borrow_book. rewrite Hb, Hm, Hav, (add_days_in_calendar now Hcal).
  eexists. split; [reflexivity|].
  split; [reflexivity|]. split.
  { rewrite strptime_strftime; [reflexivity|]. destruct Hcal. cbn. lia. }
  cbn [lib disk trace save_data put_book put_member with_books with_members
         books members fine_rate].
  rewrite dict_set_set.
  split; [reflexivity|]. split; [reflexivity|]. split; [reflexivity|].
  split; [reflexivity|]. split; [reflexivity|].
  split; [|split].
  - rewrite (proj1 (file_entry_dump _ bid)). cbn [books].
    now rewrite dict_get_set_eq.
  - rewrite (proj2 (file_entry_dump _ mid)). cbn [members].
    now rewrite dict_get_set_eq.
  - intros Hwb Hwm. eexists. split.
    + apply Library_init_dump; cbn [books members]; now apply dict_wf_set.
    + split; reflexivity.
Qed.

Lemma borrow_book_success_witness :
  due_in_calendar (datetime_of 2024 3 1 0)
  /\ exists w',
       borrow_book "B2" "M1" (datetime_of 2024 3 1 0) sample_world = Return true w'
       /\ dict_get "B2" (books (lib w'))
          = Some {| book_id := "B2"; title := "Data Structures";
                    author := "Jane Doe"; is_available := false;
                    borrower := Some "M1"; due_date := Some "2024-03-15" |}
       /\ option_map borrowed_books (dict_get "M1" (members (lib w')))
          = Some ["B1"; "B2"]
       /\ file_entry "books" "B2" (disk w')
          = Some (JObj [("book_id", JStr "B2"); ("title", JStr "Data Structures");
                        ("author", JStr "Jane Doe"); ("is_available", JBool false);
                        ("borrower", JStr "M1"); ("due_date", JStr "2024-03-15")])
       /\ file_entry "members" "M1" (disk w')
          = Some (JObj [("member_id", JStr "M1"); ("name", JStr "Alice Brown");
                        ("email", JStr "alice@email.com");
                        ("borrowed_books", JArr [JStr "B1"; JStr "B2"])])
       /\ exists w2,
            Library_init (disk w') = Loaded w2
            /\ books (lib w2) = books (lib w')
            /\ members (lib w2) = members (lib w').
Proof.
  assert (Hcal : due_in_calendar (datetime_of 2024 3 1 0))
    by (split; vm_compute; discriminate).
  split; [exact Hcal|].
  destruct (borrow_book_success sample_world "B2" "M1" (datetime_of 2024 3 1 0)
              (Book_init "B2" "Data Structures" "Jane Doe")
              {| member_id := "M1"; name := "Alice Brown";
                 email := "alice@email.com"; borrowed_books := ["B1"] |}
              eq_refl eq_refl eq_refl Hcal)
    as (due & w' & Hrun & Hdue & _ & Hbooks & Hmembers & _ & _ & _
        & Hfb & Hfm & Hload).
  exists w'. split; [exact Hrun|].
  rewrite Hbooks, Hmembers, Hfb, Hfm.
  destruct due as [o us]. cbn in Hdue. subst o.
  split; [reflexivity|]. split; [reflexivity|].
  split; [reflexivity|]. split; [reflexivity|].
  rewrite <- Hbooks, <- Hmembers.
  exact (Hload (proj1 sample_world_wf) (proj2 sample_world_wf)).
Defined.

(** ** Adding books and members *)

(** C6.  [add_book] with an id that is in the catalogue returns [False]
    and leaves the world as it was, so the catalogue still has exactly one
    entry for the id, with its original data, and nothing is saved; with a
    fresh id it returns [True], puts an available book without borrower
    and without due date at the end of the catalogue and saves: the file
    then holds the new book under its id, and a fresh [Library()] reads
    the two dictionaries back from it.  [add_member] does the same with a
    member whose list is empty. *)
Theorem add_collision_policy (w : World) (id x y : string) :
  dict_wf (books (lib w)) ->
  dict_wf (members (lib w)) ->
  match dict_get id (books (lib w)) with
  | Some book =>
      add_book id x y w = Return false w
      /\ count id (dict_keys (books (lib w))) = 1%nat
      /\ In (id, book) (books (lib w))
  | None =>
      exists w',
        add_book id x y w = Return true w'
        /\ books (lib w')
           = books (lib w)
               ++ [(id, {| book_id := id; title := x; author := y;
                           is_available := true; borrower := None;
                           due_date := None |})]
        /\ members (lib w') = members (lib w)
        /\ count id (dict_keys (books (lib w'))) = 1%nat
        /\ disk w' = Document (dump (lib w'))
        /\ trace w' = trace w ++ [Saved (dump (lib w'))]
        /\ file_entry "books" id (disk w')
           = Some (JObj [("book_id", JStr id); ("title", JStr x);
                         ("author", JStr y); ("is_available", JBool true);
                         ("borrower", JNull); ("due_date", JNull)])
        /\ exists w2,
             Library_init (disk w') = Loaded w2
             /\ books (lib w2) = books (lib w')
             /\ members (lib w2) = members (lib w')
  end
  /\
  match dict_get id (members (lib w)) with
  | Some member =>
      add_member id x y w = Return false w
      /\ count id (dict_keys (members (lib w))) = 1%nat
      /\ In (id, member) (members (lib w))
  | None =>
      exists w',
        add_member id x y w = Return true w'
        /\ members (lib w')
           = members (lib w)
               ++ [(id, {| member_id := id; name := x; email := y;
                           borrowed_books := [] |})]
        /\ books (lib w') = books (lib w)
        /\ count id (dict_keys (members (lib w'))) = 1%nat
        /\ disk w' = Document (dump (lib w'))
        /\ trace w' = trace w ++ [Saved (dump (lib w'))]
        /\ file_entry "members" id (disk w')
           = Some (JObj [("member_id", JStr id); ("name", JStr x);
                         ("email", JStr y); ("borrowed_books", JArr [])])
        /\ exists w2,
             Library_init (disk w') = Loaded w2
             /\ books (lib w2) = books (lib w')
             /\ members (lib w2) = members (lib w')
  end.
Proof.
  intros Hb Hm. split.
  - destruct (dict_get id (books (lib w))) as [book|] eqn:E.
    + split; [|split].
      * unfold add_book. rewrite dict_mem_get, E. reflexivity.
      * apply dict_wf_count; [exact Hb|congruence].
      * now apply dict_get_in.
    + unfold add_book. rewrite dict_mem_get, E. cbn [negb].
      eexists. split; [reflexivity|].
      cbn [lib disk trace save_data put_book with_books books members].
      split; [now rewrite <- (dict_set_fresh id _ _ E)|].
      split; [reflexivity|]. split.
      { apply dict_wf_count; [now apply dict_wf_set|].
        rewrite dict_get_set_eq. discriminate. }
      split; [reflexivity|]. split; [reflexivity|]. split.
      * rewrite (proj1 (file_entry_dump _ id)). cbn [books].
        now rewrite dict_get_set_eq.
      * eexists. split.
        -- apply Library_init_dump; cbn [books members];
             [now apply dict_wf_set|exact Hm].
        -- split; reflexivity.
  - destruct (dict_get id (members (lib w))) as [member|] eqn:E.
    + split; [|split].
      * unfold add_member. rewrite dict_mem_get, E. reflexivity.
      * apply dict_wf_count; [exact Hm|congruence].
      * now apply dict_get_in.
    + unfold add_member. rewrite dict_mem_get, E. cbn [negb].
      eexists. split; [reflexivity|].
      cbn [lib disk trace save_data put_member with_members books members].
      split; [now rewrite <- (dict_set_fresh id _ _ E)|].
      split; [reflexivity|]. split.
      { apply dict_wf_count; [now apply dict_wf_set|].
        rewrite dict_get_set_eq. discriminate. }
      split; [reflexivity|]. split; [reflexivity|]. split.
      * rewrite (proj2 (file_entry_dump _ id)). cbn [members].
        now rewrite dict_get_set_eq.
      * eexists. split.
        -- apply Library_init_dump; cbn [books members];
             [exact Hb|now apply dict_wf_set].
        -- split; reflexivity.
Qed.

Lemma add_collision_policy_witness :
  dict_wf (books (lib sample_world))
  /\ dict_wf (members (lib sample_world))
  /\ add_book "B1" "Dune" "Frank Herbert" sample_world = Return false sample_world
  /\ exists w',
       add_member "B1" "Dune" "Frank Herbert" sample_world = Return true w'
       /\ dict_keys (members (lib w')) = ["M1"; "B1"]
       /\ file_entry "members" "B1" (disk w')
          = Some (JObj [("member_id", JStr "B1"); ("name", JStr "Dune");
                        ("email", JStr "Frank Herbert");
                        ("borrowed_books", JArr [])])
       /\ file_entry "members" "M1" (disk w')
          = Some (JObj [("member_id", JStr "M1"); ("name", JStr "Alice Brown");
                        ("email", JStr "alice@email.com");
                        ("borrowed_books", JArr [JStr "B1"])])
       /\ exists w2,
            Library_init (disk w') = Loaded w2
            /\ books (lib w2) = books (lib w')
            /\ members (lib w2) = members (lib w').
Proof.
  destruct sample_world_wf as [Hb Hm].
  split; [exact Hb|]. split; [exact Hm|].
  destruct (add_collision_policy sample_world "B1" "Dune" "Frank Herbert" Hb Hm)
    as [Hbook Hmember].
  split.
  - exact (proj1 Hbook).
  - destruct Hmember as (w' & Hrun & Hms & _ & _ & Hdisk & _ & Hfile & Hload).
    exists w'. split; [exact Hrun|].
    split; [rewrite Hms; reflexivity|].
    split; [exact Hfile|].
    split; [|exact Hload].
    rewrite Hdisk, (proj2 (file_entry_dump _ "M1")), Hms. reflexivity.
Defined.

(** * Fines *)

Lemma sub_days_floor now due :
  sub_days now due * US_PER_DAY <= total_us now - total_us due
  < (sub_days now due + 1) * US_PER_DAY.
Proof. unfold sub_days, US_PER_DAY. Z.div_mod_to_equations. lia. Qed.

Lemma sub_days_calendar now due :
  micros due = 0 -> 0 <= micros now < US_PER_DAY ->
  sub_days now due = ordinal now - ordinal due.
Proof.
  intros Hdue Hnow. unfold sub_days, total_us, US_PER_DAY in *. rewrite Hdue.
  Z.div_mod_to_equations. lia.
Qed.

Lemma sub_days_mono now1 now2 due :
  total_us now1 <= total_us now2 -> sub_days now1 due <= sub_days now2 due.
Proof.
  intros H. unfold sub_days. apply Z.div_le_mono; [reflexivity|lia].
Qed.

Lemma spec_fine_nonneg rate days : (0 <= rate)%Q -> (0 <= spec_fine rate days)%Q.
Proof.
  intros Hr. unfold spec_fine. destruct (Z.ltb_spec 0 days) as [Hd|Hd].
  - apply Qmult_le_0_compat; [|exact Hr].
    change 0%Q with (inject_Z 0). rewrite <- Zle_Qle. lia.
  - apply Qle_refl.
Qed.

Lemma spec_fine_mono rate d1 d2 :
  (0 <= rate)%Q -> d1 <= d2 -> (spec_fine rate d1 <= spec_fine rate d2)%Q.
Proof.
  intros Hr Hd. unfold spec_fine at 1. destruct (Z.ltb_spec 0 d1) as [H1|H1].
  - unfold spec_fine. destruct (Z.ltb_spec 0 d2) as [H2|H2]; [|lia].
    apply Qmult_le_compat_r; [|exact Hr]. now rewrite <- Zle_Qle.
  - now apply spec_fine_nonneg.
Qed.

Lemma calculate_fine_no_loan L bid now :
  no_loan bid L -> calculate_fine bid now L = Ok 0%Q.
Proof.
  unfold no_loan, calculate_fine.
  destruct (dict_get bid (books L)) as [book|]; [|reflexivity].
  intros [H|[H|H]]; rewrite H; cbn; [reflexivity| |];
    now destruct (is_available book).
Qed.

Lemma calculate_fine_undated L bid now book s e :
  dict_get bid (books L) = Some book ->
  is_available book = false ->
  due_date book = Some s ->
  strptime s = Raise e ->
  s <> "" ->
  calculate_fine bid now L = Raise ValueError.
Proof.
  intros Hb Hav Hs Hraise Hne. unfold calculate_fine. rewrite Hb, Hav, Hs.
  destruct s as [|c s]; [congruence|]. cbn [negb andb str_truthy].
  rewrite Hraise. cbn [bind]. now rewrite (strptime_raises _ _ Hraise).
Qed.

Lemma calculate_fine_nonneg L bid now fine :
  (0 <= fine_rate L)%Q -> calculate_fine bid now L = Ok fine -> (0 <= fine)%Q.
Proof.
  intros Hr. unfold calculate_fine.
  destruct (dict_get bid (books L)) as [book|];
    [|intros [= <-]; apply Qle_refl].
  destruct (negb (is_available book) && str_truthy (due_date book))%bool;
    [|intros [= <-]; apply Qle_refl].
  destruct (strptime _) as [due|e]; cbn [bind]; [|discriminate].
  destruct (Z.ltb_spec 0 (sub_days now due)) as [Hd|Hd]; intros [= <-].
  - apply Qmult_le_0_compat; [|exact Hr].
    change 0%Q with (inject_Z 0). rewrite <- Zle_Qle. lia.
  - apply Qle_refl.
Qed.

(** C3, as the program behaves.  For a book that is unknown, not borrowed
    or without due date [calculate_fine] returns 0.  For a borrowed book
    whose due date is the text of a date of the calendar it returns, at
    every time [now], the rate times the number of whole days from
    midnight of that date to [now] when that number is positive and 0
    otherwise; that number is the floor of the difference, and the
    difference of the two calendar days.  The amount does not decrease as
    [now] advances.  For a borrowed book whose due date is a text that is
    no date, [calculate_fine] returns no amount at all: it raises
    [ValueError].  No amount it returns is negative. *)
Theorem calculate_fine_spec (L : Library) (bid : string) :
  (0 <= fine_rate L)%Q ->
  (forall now, no_loan bid L -> calculate_fine bid now L = Ok 0%Q)
  /\ (forall book s,
         dict_get bid (books L) = Some book ->
         is_available book = false ->
         due_date book = Some s ->
         s <> "" ->
         (forall y m d,
             date_text s y m d ->
             let due := datetime_of y m d 0 in
             (forall now,
                 let days_overdue := sub_days now due in
                 days_overdue * US_PER_DAY <= total_us now - total_us due
                   < (days_overdue + 1) * US_PER_DAY
                 /\ (0 <= micros now < US_PER_DAY ->
                     days_overdue = ordinal now - ymd2ord y m d)
                 /\ calculate_fine bid now L
                    = Ok (spec_fine (fine_rate L) days_overdue)
                 /\ (0 < days_overdue ->
                     calculate_fine bid now L
                     = Ok (inject_Z days_overdue * fine_rate L)%Q)
                 /\ (days_overdue <= 0 -> calculate_fine bid now L = Ok 0%Q))
             /\ (forall now1 now2,
                    total_us now1 <= total_us now2 ->
                    exists fine1 fine2,
                      calculate_fine bid now1 L = Ok fine1
                      /\ calculate_fine bid now2 L = Ok fine2
                      /\ (fine1 <= fine2)%Q))
         /\ ((forall y m d, ~ date_text s y m d) ->
             forall now, calculate_fine bid now L = Raise ValueError))
  /\ (forall now fine, calculate_fine bid now L = Ok fine -> (0 <= fine)%Q).
Proof.
  intros Hrate. split; [|split].
  - intros now. apply calculate_fine_no_loan.
  - intros book s Hb Hav Hs Hne. split.
    + intros y m d Hdate due.
      pose proof (strptime_date_text s y m d Hdate) as Hdue. fold due in Hdue.
      assert (E : forall now,
                 calculate_fine bid now L
                 = Ok (spec_fine (fine_rate L) (sub_days now due))).
      { intros now. apply (calculate_fine_dated L bid now book s due); assumption. }
      split.
      * intros now days_overdue. subst days_overdue.
        split; [apply sub_days_floor|].
        split; [intros Hus; now apply sub_days_calendar|].
        split; [apply E|]. rewrite E. unfold spec_fine. split; intros Hd.
        -- apply Z.ltb_lt in Hd. now rewrite Hd.
        -- destruct (Z.ltb_spec 0 (sub_days now due)); [lia|reflexivity].
      * intros now1 now2 Hle. eexists. eexists.
        split; [apply E|]. split; [apply E|].
        apply spec_fine_mono; [exact Hrate|now apply sub_days_mono].
    + intros Hno now.
      apply (calculate_fine_undated L bid now book s ValueError); try assumption.
      now apply strptime_not_date.
  - intros now fine. now apply calculate_fine_nonneg.
Qed.

Lemma calculate_fine_spec_witness :
  (0 <= fine_rate sample_library)%Q
  /\ date_text "2024-03-15" 2024 3 15
  /\ (forall y m d, ~ date_text "next week" y m d)
  /\ no_loan "B2" sample_library
  /\ calculate_fine "B1" (datetime_of 2024 3 17 3600000000) sample_library = Ok 2%Q
  /\ calculate_fine "B1" (datetime_of 2024 3 15 3600000000) sample_library = Ok 0%Q
  /\ calculate_fine "B2" (datetime_of 2024 3 17 3600000000) sample_library = Ok 0%Q
  /\ calculate_fine "B1" (datetime_of 2024 3 17 3600000000) (lib undated_world)
     = Raise ValueError.
Proof.
  assert (Hrate : (0 <= fine_rate sample_library)%Q) by (vm_compute; discriminate).
  assert (Hdate : date_text "2024-03-15" 2024 3 15).
  { split.
    - repeat split; vm_compute; discriminate.
    - exists "03", "15". repeat split; left; reflexivity. }
  assert (Hno : forall y m d, ~ date_text "next week" y m d).
  { intros y m d H. apply strptime_date_text in H.
    assert (E : strptime "next week" = Raise ValueError) by reflexivity.
    rewrite E in H. discriminate H. }
  assert (Hnone : no_loan "B2" sample_library) by (left; reflexivity).
  split; [exact Hrate|]. split; [exact Hdate|]. split; [exact Hno|].
  split; [exact Hnone|].
  destruct (calculate_fine_spec sample_library "B1" Hrate) as (_ & Hloan & _).
  destruct (Hloan _ "2024-03-15" eq_refl eq_refl eq_refl ltac:(discriminate))
    as (Hdue & _).
  destruct (Hdue 2024 3 15 Hdate) as (Hat & _).
  split; [|split; [|split]].
  - destruct (Hat (datetime_of 2024 3 17 3600000000)) as (_ & _ & _ & Hpos & _).
    rewrite Hpos by (vm_compute; reflexivity). reflexivity.
  - destruct (Hat (datetime_of 2024 3 15 3600000000)) as (_ & _ & _ & _ & Hnot).
    apply Hnot. vm_compute. discriminate.
  - exact (proj1 (calculate_fine_spec sample_library "B2" Hrate)
             (datetime_of 2024 3 17 3600000000) Hnone).
  - assert (Hrate' : (0 <= fine_rate (lib undated_world))%Q)
      by (vm_compute; discriminate).
    destruct (calculate_fine_spec (lib undated_world) "B1" Hrate')
      as (_ & Hloan' & _).
    destruct (Hloan' _ "next week" eq_refl eq_refl eq_refl ltac:(discriminate))
      as (_ & Hraise).
    exact (Hraise Hno _).
Defined.

(** C3 as the specification states it fails.  [Library()] loads the file
    [undated_doc]; the book it holds is borrowed and has a due date, the
    text "next week"; and at no time does [calculate_fine] return an
    amount for that book, neither the product of the days overdue and the
    rate nor 0: it raises [ValueError]. *)
Lemma calculate_fine_raises_on_undated_loan :
  Library_init (Document undated_doc) = Loaded undated_loaded
  /\ (exists book,
         dict_get "B1" (books (lib undated_loaded)) = Some book
         /\ is_available book = false
         /\ borrower book = Some "M1"
         /\ due_date book = Some "next week")
  /\ forall now,
       calculate_fine "B1" now (lib undated_loaded) = Raise ValueError
       /\ ~ (exists fine, calculate_fine "B1" now (lib undated_loaded) = Ok fine).
Proof.
  split; [reflexivity|]. split.
  - eexists. repeat split; reflexivity.
  - intros now.
    assert (E : calculate_fine "B1" now (lib undated_loaded) = Raise ValueError)
      by reflexivity.
    split; [exact E|]. intros [fine H]. rewrite E in H. discriminate H.
Qed.

(** * Borrow, then return *)

Lemma add_days_ok t n due :
  add_days t n = Ok due ->
  due = {| ordinal := ordinal t + n; micros := micros t |}
  /\ 1 <= ordinal t + n <= MAXORDINAL.
Proof.
  unfold add_days. cbv zeta.
  destruct ((1 <=? ordinal t + n) && (ordinal t + n <=? MAXORDINAL))%bool eqn:E;
    [|discriminate].
  apply andb_true_iff in E as [E1 E2]. apply Z.leb_le in E1, E2.
  intros [= <-]. split; [reflexivity|lia].
Qed.

(** What a successful [borrow_book] leaves behind. *)
Lemma borrow_book_returns_true w w1 bid mid now book member :
  dict_get bid (books (lib w)) = Some book ->
  dict_get mid (members (lib w)) = Some member ->
  borrow_book bid mid now w = Return true w1 ->
  exists due,
    add_days now 14 = Ok due
    /\ is_available book = true
    /\ w1 = save_data
              (put_member mid
                 (with_borrowed_books (borrowed_books member ++ [bid]) member)
                 (put_book bid (lent mid due book) w)).
Proof.
  intros Hb Hm. unfold borrow_book. rewrite Hb, Hm.
  destruct (is_available book); [|discriminate].
  destruct (add_days now 14) as [due|e]; [|discriminate].
  intros [= <-]. exists due. split; [reflexivity|]. split; [reflexivity|].
  unfold put_book at 1 2. cbn [lib books with_books]. rewrite dict_set_set.
  reflexivity.
Qed.

(** C2.  After a successful [borrow_book] of an available book,
    [return_book] succeeds at any later or earlier time: the book is
    available again, without borrower and without due date, under the
    same id, title and author; the entry that [borrow_book] appended to
    the member's list is removed, so the list holds every id as often as
    before the round trip, and is the list of before when the id was not
    in it. *)
Theorem borrow_then_return (w w1 : World) (bid mid : string)
    (now1 now2 : datetime) (book : Book) (member : Member) :
  dict_get bid (books (lib w)) = Some book ->
  dict_get mid (members (lib w)) = Some member ->
  is_available book = true ->
  borrow_book bid mid now1 w = Return true w1 ->
  exists (fine : Q) (w2 : World) (member2 : Member),
    return_book bid now2 w1 = Return (true, fine) w2
    /\ dict_get bid (books (lib w2))
       = Some {| book_id := book_id book; title := title book;
                 author := author book; is_available := true;
                 borrower := None; due_date := None |}
    /\ dict_get mid (members (lib w2)) = Some member2
    /\ list_remove bid (borrowed_books member ++ [bid]) = Ok (borrowed_books member2)
    /\ (forall x, count x (borrowed_books member2) = count x (borrowed_books member))
    /\ (~ In bid (borrowed_books member) ->
        member2 = member /\ ~ In bid (borrowed_books member2))
    /\ dict_keys (books (lib w2)) = dict_keys (books (lib w))
    /\ dict_keys (members (lib w2)) = dict_keys (members (lib w))
    /\ disk w2 = Document (dump (lib w2)).
Proof.
  intros Hb Hm Hav Hrun.
  destruct (borrow_book_returns_true _ _ _ _ _ _ _ Hb Hm Hrun)
    as (due & Hdue & _ & ->).
  apply add_days_ok in Hdue as [-> Hrange].
  set (due := {| ordinal := ordinal now1 + 14; micros := micros now1 |}).
  set (l := borrowed_books member).
  destruct (list_remove_ok bid (l ++ [bid])) as (rest & Hrest & Hcount).
  { apply in_or_app. right. now left. }
  assert (Hsame : forall x, count x rest = count x l).
  { intros x. specialize (Hcount x). rewrite count_app, count_single in Hcount.
    lia. }
  set (w1 := save_data _).
  assert (Hb1 : dict_get bid (books (lib w1)) = Some (lent mid due book)).
  { cbn. apply dict_get_set_eq. }
  assert (Hm1 : dict_get mid (members (lib w1))
                = Some (with_borrowed_books (l ++ [bid]) member)).
  { cbn. apply dict_get_set_eq. }
  assert (Hfine : exists fine, calculate_fine bid now2 (lib w1) = Ok fine).
  { eexists.
    apply (calculate_fine_dated (lib w1) bid now2 (lent mid due book)
             (strftime due) {| ordinal := ordinal due; micros := 0 |});
      [exact Hb1|reflexivity|reflexivity|].
    apply strptime_strftime. exact Hrange. }
  destruct Hfine as [fine Hfine].
  exists fine. eexists. exists (with_borrowed_books rest member).
  split.
  { unfold return_book. rewrite Hb1. cbn [is_available lent negb].
    rewrite Hfine. cbn [borrower lent members_at]. rewrite Hm1.
    cbn [borrowed_books with_borrowed_books]. rewrite Hrest. reflexivity. }
  clear Hb1 Hm1 Hfine. subst w1.
  cbn [lib save_data put_book put_member with_books with_members books members
         disk].
  rewrite !dict_set_set.
  split; [apply dict_get_set_eq|].
  split; [apply dict_get_set_eq|].
  split; [exact Hrest|].
  split; [exact Hsame|].
  split.
  { intros Hnot. subst l. rewrite (list_remove_appended bid _ Hnot) in Hrest.
    injection Hrest as <-. split; [now destruct member|exact Hnot]. }
  split; [apply dict_keys_set_present; congruence|].
  split; [apply dict_keys_set_present; congruence|].
  reflexivity.
Qed.

Lemma borrow_then_return_witness :
  exists w1 fine w2,
    borrow_book "B2" "M1" (datetime_of 2024 3 1 0) sample_world = Return true w1
    /\ return_book "B2" (datetime_of 2024 3 17 0) w1 = Return (true, fine) w2
    /\ dict_get "B2" (books (lib w2))
       = Some (Book_init "B2" "Data Structures" "Jane Doe").
Proof.
  assert (Hrun : borrow_book "B2" "M1" (datetime_of 2024 3 1 0) sample_world
                 = Return true
                     (after (borrow_book "B2" "M1" (datetime_of 2024 3 1 0)
                               sample_world)))
    by (vm_compute; reflexivity).
  destruct (borrow_then_return sample_world _ "B2" "M1"
              (datetime_of 2024 3 1 0) (datetime_of 2024 3 17 0)
              (Book_init "B2" "Data Structures" "Jane Doe")
              {| member_id := "M1"; name := "Alice Brown";
                 email := "alice@email.com"; borrowed_books := ["B1"] |}
              eq_refl eq_refl eq_refl Hrun)
    as (fine & w2 & member2 & Hret & Hbook & _).
  eexists. exists fine, w2.
  split; [exact Hrun|]. split; [exact Hret|exact Hbook].
Defined.

(** * The cross-entity invariant *)

(** Case analysis on a lookup in an updated dictionary: the key that was
    assigned, or another key. *)
Tactic Notation "dict_cases" hyp(H) "as" ident(E) :=
  cbn [books members lib] in H;
  rewrite dict_get_set in H;
  match type of H with
  | context [String.eqb ?a ?b] =>
      destruct (String.eqb_spec a b) as [E|E];
      [injection H as H; subst b; try subst|]
  end.

Lemma empty_world_inv : store_inv (lib empty_world).
Proof.
  split; [|split].
  - intros k b H. discriminate H.
  - intros k b H. discriminate H.
  - intros mid m x H. discriminate H.
Qed.

Lemma add_book_keeps_inv w bid t a :
  store_inv (lib w) -> store_inv (lib (after (add_book bid t a w))).
Proof.
  intros (HA & HB & HC). unfold add_book. rewrite dict_mem_get.
  destruct (dict_get bid (books (lib w))) as [old|] eqn:E; cbn [negb after];
    [exact (conj HA (conj HB HC))|].
  cbn [lib save_data put_book with_books books members].
  split; [|split].
  - intros k b H. dict_cases H as Ek.
    + split; [discriminate|]. split; [|now split].
      intros _ mid m Hm HI. cbn [book_id Book_init] in HI.
      destruct (HC mid m bid Hm HI) as (b & Hb & _). congruence.
    + exact (HA k b H).
  - intros k b H. dict_cases H as Ek; [reflexivity|now apply HB].
  - intros mid m x Hm HI. destruct (HC mid m x Hm HI) as (b & Hb & Hav & Hbo).
    exists b. cbn [books]. rewrite dict_get_set_ne by congruence. now repeat split.
Qed.

Lemma add_member_keeps_inv w mid n e :
  store_inv (lib w) -> store_inv (lib (after (add_member mid n e w))).
Proof.
  intros (HA & HB & HC). unfold add_member. rewrite dict_mem_get.
  destruct (dict_get mid (members (lib w))) as [old|] eqn:E; cbn [negb after];
    [exact (conj HA (conj HB HC))|].
  cbn [lib save_data put_member with_members books members].
  split; [|split].
  - intros k b H. destruct (HA k b H) as (H1 & H2 & H3 & H4).
    split; [|split; [|now split]].
    + intros Hav. destruct (H1 Hav) as (mid0 & m0 & Hbo & Hm0 & Hc).
      exists mid0, m0. cbn [members]. rewrite dict_get_set_ne by congruence.
      now repeat split.
    + intros Hav mid0 m0 Hm0. dict_cases Hm0 as Em.
      * intros [].
      * now apply (H2 Hav mid0).
  - exact HB.
  - intros mid0 m0 x Hm0 HI. dict_cases Hm0 as Em.
    + destruct HI.
    + exact (HC mid0 m0 x Hm0 HI).
Qed.

Lemma lend_keeps_inv L bid mid due book member :
  store_inv L ->
  dict_get bid (books L) = Some book ->
  dict_get mid (members L) = Some member ->
  is_available book = true ->
  store_inv
    {| books := dict_set bid (lent mid due book) (books L);
       members :=
         dict_set mid
           (with_borrowed_books (borrowed_books member ++ [bid]) member)
           (members L);
       fine_rate := fine_rate L |}.
Proof.
  intros (HA & HB & HC) Hb Hm Hav.
  pose proof (HB bid book Hb) as Hid.
  assert (Hnot : ~ In bid (borrowed_books member)).
  { destruct (HA bid book Hb) as (_ & H2 & _). rewrite <- Hid at 1.
    exact (H2 Hav mid member Hm). }
  split; [|split].
  - intros k b H. cbn [books] in H. rewrite dict_get_set in H.
    destruct (String.eqb_spec bid k) as [Ek|Ek].
    + injection H as <-.
      split; [|split; [discriminate|split; split; discriminate]].
      intros _. exists mid. eexists. split; [reflexivity|].
      cbn [members]. rewrite dict_get_set_eq. split; [reflexivity|].
      cbn [book_id lent borrowed_books with_borrowed_books].
      rewrite Hid, count_app, count_single, String.eqb_refl.
      apply count_zero in Hnot. rewrite Hnot. reflexivity.
    + destruct (HA k b H) as (H1 & H2 & H3 & H4).
      pose proof (HB k b H) as Hk.
      split; [|split; [|now split]].
      * intros Hb_av. destruct (H1 Hb_av) as (mid0 & m0 & Hbo & Hm0 & Hc).
        exists mid0. cbn [members]. rewrite dict_get_set.
        destruct (String.eqb_spec mid mid0) as [Em|Em].
        -- eexists. split; [exact Hbo|]. split; [reflexivity|].
           cbn [borrowed_books with_borrowed_books].
           rewrite count_app, count_single.
           assert (m0 = member) as -> by congruence.
           destruct (String.eqb_spec (book_id b) bid); [congruence|lia].
        -- exists m0. now repeat split.
      * intros Hb_av mid0 m0 Hm0. cbn [members] in Hm0.
        rewrite dict_get_set in Hm0.
        destruct (String.eqb_spec mid mid0) as [Em|Em].
        -- injection Hm0 as <-. cbn [borrowed_books with_borrowed_books].
           intros HI. apply in_app_or in HI as [HI|[HI|[]]]; [|congruence].
           exact (H2 Hb_av _ _ Hm HI).
        -- now apply (H2 Hb_av mid0).
  - intros k b H. cbn [books] in H. rewrite dict_get_set in H.
    destruct (String.eqb_spec bid k) as [Ek|Ek].
    + injection H as <-. cbn [book_id lent]. congruence.
    + now apply HB.
  - intros mid0 m0 x Hm0 HI. cbn [books members] in *.
    rewrite dict_get_set in Hm0. rewrite dict_get_set.
    destruct (String.eqb_spec bid x) as [Ex|Ex].
    + eexists. split; [reflexivity|]. split; [reflexivity|].
      cbn [borrower lent]. f_equal.
      destruct (String.eqb_spec mid mid0) as [Em|Em]; [exact Em|].
      subst x. destruct (HC mid0 m0 bid Hm0 HI) as (b & Hb' & Hb_av & _).
      congruence.
    + apply (HC mid0 (if String.eqb mid mid0 then member else m0)).
      * destruct (String.eqb_spec mid mid0); congruence.
      * destruct (String.eqb_spec mid mid0) as [Em|Em]; [|exact HI].
        injection Hm0 as <-. cbn [borrowed_books with_borrowed_books] in HI.
        apply in_app_or in HI as [HI|[HI|[]]]; [exact HI|congruence].
Qed.

Lemma take_back_keeps_inv L bid book mk member rest :
  store_inv L ->
  dict_get bid (books L) = Some book ->
  is_available book = false ->
  borrower book = Some mk ->
  dict_get mk (members L) = Some member ->
  list_remove bid (borrowed_books member) = Ok rest ->
  store_inv
    {| books := dict_set bid (shelved book) (books L);
       members := dict_set mk (with_borrowed_books rest member) (members L);
       fine_rate := fine_rate L |}.
Proof.
  intros (HA & HB & HC) Hb Hav Hbo Hm Hrest.
  pose proof (HB bid book Hb) as Hid.
  assert (Hone : count bid (borrowed_books member) = 1%nat).
  { destruct (HA bid book Hb) as (H1 & _).
    destruct (H1 Hav) as (mid0 & m0 & Hbo0 & Hm0 & Hc).
    assert (mid0 = mk) as -> by congruence.
    assert (m0 = member) as -> by congruence. now rewrite <- Hid at 1. }
  assert (Hcount : forall x,
             count x (borrowed_books member)
             = (count x rest + (if String.eqb x bid then 1 else 0))%nat).
  { destruct (list_remove_ok bid (borrowed_books member)) as (r & Hr & Hc).
    - apply count_pos. lia.
    - rewrite Hr in Hrest. injection Hrest as <-. exact Hc. }
  assert (Hgone : ~ In bid rest).
  { apply count_zero. specialize (Hcount bid). rewrite String.eqb_refl in Hcount.
    lia. }
  assert (Hsub : forall x, In x rest -> In x (borrowed_books member)).
  { intros x HI. apply count_pos. apply count_pos in HI. specialize (Hcount x).
    lia. }
  split; [|split].
  - intros k b H. cbn [books] in H. rewrite dict_get_set in H.
    destruct (String.eqb_spec bid k) as [Ek|Ek].
    + injection H as <-.
      split; [discriminate|]. split; [|now split].
      intros _ mid0 m0 Hm0. cbn [book_id shelved]. rewrite Hid.
      cbn [members] in Hm0. rewrite dict_get_set in Hm0.
      destruct (String.eqb_spec mk mid0) as [Em|Em].
      * injection Hm0 as <-. exact Hgone.
      * intros HI. destruct (HC mid0 m0 bid Hm0 HI) as (b & Hb' & _ & Hbo').
        congruence.
    + destruct (HA k b H) as (H1 & H2 & H3 & H4).
      pose proof (HB k b H) as Hk.
      split; [|split; [|now split]].
      * intros Hb_av. destruct (H1 Hb_av) as (mid0 & m0 & Hbo0 & Hm0 & Hc).
        exists mid0. cbn [members]. rewrite dict_get_set.
        destruct (String.eqb_spec mk mid0) as [Em|Em].
        -- eexists. split; [exact Hbo0|]. split; [reflexivity|].
           cbn [borrowed_books with_borrowed_books].
           assert (m0 = member) as -> by congruence.
           specialize (Hcount (book_id b)).
           destruct (String.eqb_spec (book_id b) bid); [congruence|lia].
        -- exists m0. now repeat split.
      * intros Hb_av mid0 m0 Hm0. cbn [members] in Hm0.
        rewrite dict_get_set in Hm0.
        destruct (String.eqb_spec mk mid0) as [Em|Em].
        -- injection Hm0 as <-. cbn [borrowed_books with_borrowed_books].
           intros HI. exact (H2 Hb_av _ _ Hm (Hsub _ HI)).
        -- now apply (H2 Hb_av mid0).
  - intros k b H. cbn [books] in H. rewrite dict_get_set in H.
    destruct (String.eqb_spec bid k) as [Ek|Ek].
    + injection H as <-. cbn [book_id shelved]. congruence.
    + now apply HB.
  - intros mid0 m0 x Hm0 HI. cbn [books members] in *.
    rewrite dict_get_set in Hm0.
    assert (Hold : In x (borrowed_books (if String.eqb mk mid0 then member else m0))
                   /\ x <> bid).
    { destruct (String.eqb_spec mk mid0) as [Em|Em].
      - injection Hm0 as <-. cbn [borrowed_books with_borrowed_books] in HI.
        split; [now apply Hsub|]. intros ->. contradiction.
      - split; [exact HI|]. intros ->.
        destruct (HC mid0 m0 bid Hm0 HI) as (b & Hb' & _ & Hbo'). congruence. }
    destruct Hold as [Hin Hx].
    rewrite dict_get_set_ne by congruence.
    apply (HC mid0 (if String.eqb mk mid0 then member else m0)); [|exact Hin].
    destruct (String.eqb_spec mk mid0); congruence.
Qed.

Lemma borrow_book_keeps_inv w bid mid now :
  due_in_calendar now ->
  store_inv (lib w) -> store_inv (lib (after (borrow_book bid mid now w))).
Proof.
  intros Hcal Hinv. unfold borrow_book.
  destruct (dict_get bid (books (lib w))) as [book|] eqn:Hb; [|exact Hinv].
  destruct (dict_get mid (members (lib w))) as [member|] eqn:Hm; [|exact Hinv].
  destruct (is_available book) eqn:Hav; [|exact Hinv].
  rewrite (add_days_in_calendar now Hcal).
  cbn [after lib save_data put_book put_member with_books with_members books
         members fine_rate].
  rewrite dict_set_set.
  exact (lend_keeps_inv (lib w) bid mid _ book member Hinv Hb Hm Hav).
Qed.

Lemma return_book_keeps_inv w bid now :
  store_inv (lib w) -> store_inv (lib (after (return_book bid now w))).
Proof.
  intros Hinv. unfold return_book.
  destruct (dict_get bid (books (lib w))) as [book|] eqn:Hb; [|exact Hinv].
  destruct (is_available book) eqn:Hav; [exact Hinv|]. cbn [negb].
  destruct (calculate_fine bid now (lib w)) as [fine|e]; [|exact Hinv].
  unfold members_at.
  destruct (borrower book) as [mk|] eqn:Hbo; [|exact Hinv].
  destruct (dict_get mk (members (lib w))) as [member|] eqn:Hm; [|exact Hinv].
  destruct (list_remove bid (borrowed_books member)) as [rest|e] eqn:Hrest;
    [|exact Hinv].
  cbn [after lib save_data put_book put_member with_books with_members books
         members fine_rate].
  exact (take_back_keeps_inv (lib w) bid book mk member rest
           Hinv Hb Hav Hbo Hm Hrest).
Qed.

Lemma calculate_fine_raises L bid now e :
  calculate_fine bid now L = Raise e -> e = ValueError.
Proof.
  unfold calculate_fine.
  destruct (dict_get bid (books L)) as [book|]; [|discriminate].
  destruct (_ && _)%bool; [|discriminate].
  destruct (strptime _) as [due|e'] eqn:E; cbn [bind].
  - destruct (0 <? _); discriminate.
  - intros [= <-]. exact (strptime_raises _ _ E).
Qed.

(** Under the invariant [return_book] never fails at the lookup of the
    borrower or at the removal from the list. *)
Lemma return_book_outcome_under_inv w bid now book :
  store_inv (lib w) ->
  dict_get bid (books (lib w)) = Some book ->
  is_available book = false ->
  (exists fine w', return_book bid now w = Return (true, fine) w')
  \/ return_book bid now w = Raised ValueError w
     /\ calculate_fine bid now (lib w) = Raise ValueError.
Proof.
  intros (HA & HB & HC) Hb Hav. unfold return_book. rewrite Hb, Hav. cbn [negb].
  destruct (calculate_fine bid now (lib w)) as [fine|e] eqn:Hfine.
  - left. destruct (HA bid book Hb) as (H1 & _).
    destruct (H1 Hav) as (mk & member & Hbo & Hm & Hc).
    rewrite Hbo. cbn [members_at]. rewrite Hm.
    destruct (list_remove_ok bid (borrowed_books member)) as (rest & Hr & _).
    { apply count_pos. rewrite <- (HB bid book Hb) at 1. lia. }
    rewrite Hr. now eexists; eexists.
  - right. pose proof (calculate_fine_raises _ _ _ _ Hfine) as ->.
    split; reflexivity.
Qed.

Lemma run_keeps_inv calls w :
  Forall call_in_calendar calls ->
  store_inv (lib w) -> store_inv (lib (run calls w)).
Proof.
  intros Hcal. revert w. induction Hcal as [|c calls Hc _ IH]; intros w Hinv;
    [exact Hinv|].
  apply IH. destruct c; cbn [perform].
  - now apply add_book_keeps_inv.
  - now apply add_member_keeps_inv.
  - now apply borrow_book_keeps_inv.
  - now apply return_book_keeps_inv.
Qed.

(** C1, as the program behaves.  The store [Library()] starts with when
    there is no file satisfies the cross-entity invariant together with
    two more conditions: every book is stored under its own id, and every
    id in a member's list is the id of a book lent to that member.  From
    any store that satisfies the three together, [add_book],
    [add_member], [borrow_book] (when today + 14 is a date of the
    calendar) and [return_book] lead to a store that satisfies them again,
    whatever their arguments and whether they return or raise;
    [search_books] only reads the store.  So the cross-entity invariant
    holds after every sequence of calls made on the initial store. *)
Theorem operations_keep_store_inv :
  store_inv (lib empty_world)
  /\ Library_init Absent = Loaded empty_world
  /\ (forall w : World,
         store_inv (lib w) ->
         cross_entity_inv (lib w)
         /\ (forall bid t a, store_inv (lib (after (add_book bid t a w))))
         /\ (forall mid n e, store_inv (lib (after (add_member mid n e w))))
         /\ (forall bid mid now,
                due_in_calendar now ->
                store_inv (lib (after (borrow_book bid mid now w))))
         /\ (forall bid now, store_inv (lib (after (return_book bid now w)))))
  /\ (forall calls,
         Forall call_in_calendar calls ->
         cross_entity_inv (lib (run calls empty_world))).
Proof.
  split; [exact empty_world_inv|]. split; [reflexivity|]. split.
  - intros w Hinv. split; [exact (proj1 Hinv)|].
    split; [intros; now apply add_book_keeps_inv|].
    split; [intros; now apply add_member_keeps_inv|].
    split; [intros; now apply borrow_book_keeps_inv|].
    intros; now apply return_book_keeps_inv.
  - intros calls Hcal. apply (run_keeps_inv calls empty_world Hcal empty_world_inv).
Qed.

Lemma operations_keep_store_inv_witness :
  store_inv (lib empty_world)
  /\ store_inv
       (lib (after (add_book "B1" "Python Programming" "John Smith" empty_world)))
  /\ cross_entity_inv
       (lib (after (add_book "B1" "Python Programming" "John Smith" empty_world))).
Proof.
  destruct operations_keep_store_inv as (H0 & _ & Hstep & _).
  split; [exact H0|].
  destruct (Hstep empty_world H0) as (_ & Hadd & _).
  split; [exact (Hadd "B1" "Python Programming" "John Smith")|].
  exact (proj1 (Hstep _ (Hadd "B1" "Python Programming" "John Smith"))).
Defined.

(** C1 as the specification states it fails.  The file [stale_doc] loads
    to a store without books in which a member's list names "B1"; the
    store satisfies the cross-entity invariant, and [add_book] of "B1"
    succeeds and leaves an available book whose id is in that list. *)
Lemma add_book_breaks_cross_entity_inv :
  Library_init (Document stale_doc) = Loaded stale_world
  /\ cross_entity_inv (lib stale_world)
  /\ exists w',
       add_book "B1" "Dune" "Frank Herbert" stale_world = Return true w'
       /\ ~ cross_entity_inv (lib w').
Proof.
  split; [reflexivity|]. split.
  - intros k b H. discriminate H.
  - eexists. split; [reflexivity|].
    intros H.
    destruct (H "B1" (Book_init "B1" "Dune" "Frank Herbert") eq_refl)
      as (_ & H2 & _).
    apply (H2 eq_refl "M1"
             {| member_id := "M1"; name := "Alice Brown";
                email := "alice@email.com"; borrowed_books := ["B1"] |} eq_refl).
    now left.
Qed.

(** * The scenarios of the specification *)

(** Two books, one member, a loan on 2024-03-01, a search and a return on
    the same day: no fine, and the store is as before the loan. *)
Example scenario_same_day_return :
  let t := datetime_of 2024 3 1 0 in
  let w :=
    run [AddBook "B1" "Python Programming" "John Smith";
         AddBook "B2" "Data Structures" "Jane Doe";
         AddMember "M1" "Alice Brown" "alice@email.com"] empty_world in
  exists w1 w2,
    borrow_book "B1" "M1" t w = Return true w1
    /\ option_map due_date (dict_get "B1" (books (lib w1)))
       = Some (Some "2024-03-15")
    /\ option_map borrowed_books (dict_get "M1" (members (lib w1)))
       = Some ["B1"]
    /\ map book_id (search_books "python" (lib w1)) = ["B1"]
    /\ return_book "B1" t w1 = Return (true, 0%Q) w2
    /\ lib w2 = lib w.
Proof.
  cbv zeta. eexists. eexists.
  split; [vm_compute; reflexivity|].
  repeat split; vm_compute; reflexivity.
Qed.

(** The same loan returned sixteen days later costs two days of fine. *)
Example scenario_late_return :
  let w :=
    run [AddBook "B1" "Python Programming" "John Smith";
         AddMember "M1" "Alice Brown" "alice@email.com";
         BorrowBook "B1" "M1" (datetime_of 2024 3 1 0)] empty_world in
  exists w', return_book "B1" (datetime_of 2024 3 17 0) w = Return (true, 2%Q) w'.
Proof.
  cbv zeta. eexists. vm_compute. reflexivity.
Qed.

(** Why [borrow_book] is considered with a due date inside the calendar:
    in the last fortnight of the year 9999 the addition of fourteen days
    raises after the book has been marked as lent, and the store it
    leaves has a lent book that is in nobody's list. *)
Example borrow_book_at_end_of_calendar :
  let w :=
    run [AddBook "B1" "Python Programming" "John Smith";
         AddMember "M1" "Alice Brown" "alice@email.com"] empty_world in
  exists w',
    borrow_book "B1" "M1" (datetime_of 9999 12 25 0) w = Raised OverflowError w'
    /\ option_map is_available (dict_get "B1" (books (lib w'))) = Some false
    /\ option_map borrowed_books (dict_get "M1" (members (lib w'))) = Some [].
Proof.
  cbv zeta. eexists. split; [vm_compute; reflexivity|].
  split; vm_compute; reflexivity.
Qed.

(** * Further properties of the operations *)

(** ** Every call is one of six transitions *)

Lemma perform_change c w :
  exists overrun,
    transition w overrun (perform c w)
    /\ (call_in_calendar c -> overrun = false).
Proof.
  destruct c as [bid t a|mid n e|bid mid now|bid now]; cbn [call_in_calendar perform].
  - exists false. split; [|reflexivity].
    unfold add_book. rewrite dict_mem_get.
    destruct (dict_get bid (books (lib w))) eqn:E; cbn [negb after].
    + constructor.
    + now constructor.
  - exists false. split; [|reflexivity].
    unfold add_member. rewrite dict_mem_get.
    destruct (dict_get mid (members (lib w))) eqn:E; cbn [negb after].
    + constructor.
    + now constructor.
  - unfold borrow_book.
    destruct (dict_get bid (books (lib w))) as [book|] eqn:Hb;
      [|exists false; split; [constructor|reflexivity]].
    destruct (dict_get mid (members (lib w))) as [member|] eqn:Hm;
      [|exists false; split; [constructor|reflexivity]].
    destruct (is_available book) eqn:Hav;
      [|exists false; split; [constructor|reflexivity]].
    destruct (add_days now 14) as [due|e] eqn:Hdue; cbn [after].
    + exists false. split; [|reflexivity].
      apply add_days_ok in Hdue as [-> Hrange].
      unfold put_book at 1 2. cbn [lib books with_books]. rewrite dict_set_set.
      now apply (BookLent w bid mid book member).
    + exists true. split; [now apply LoanStalled|].
      intros Hcal. rewrite (add_days_in_calendar now Hcal) in Hdue. discriminate.
  - exists false. split; [|reflexivity]. unfold return_book.
    destruct (dict_get bid (books (lib w))) as [book|] eqn:Hb; [|constructor].
    destruct (is_available book) eqn:Hav; [constructor|]. cbn [negb].
    destruct (calculate_fine bid now (lib w)) as [fine|e] eqn:Hfine; [|constructor].
    unfold members_at.
    destruct (borrower book) as [mk|] eqn:Hbo; [|constructor].
    destruct (dict_get mk (members (lib w))) as [member|] eqn:Hm; [|constructor].
    destruct (list_remove bid (borrowed_books member)) as [rest|e] eqn:Hrest;
      [|constructor].
    cbn [after]. now apply (BookReturned w bid mk book member rest now fine).
Qed.

(** A property kept by each transition is kept by every sequence of calls. *)
Lemma run_frame (P : World -> Prop) calls w :
  (forall w w' overrun, transition w overrun w' -> P w -> P w') ->
  P w -> P (run calls w).
Proof.
  intros Hstep. revert w. induction calls as [|c calls IH]; intros w HP; [exact HP|].
  apply IH. destruct (perform_change c w) as (o & Hc & _).
  exact (Hstep w _ o Hc HP).
Qed.

(** The same for the changes of calls inside the calendar. *)
Lemma run_invariant (P : World -> Prop) calls w :
  (forall w w', transition w false w' -> P w -> P w') ->
  Forall call_in_calendar calls ->
  P w -> P (run calls w).
Proof.
  intros Hstep Hcal. revert w.
  induction Hcal as [|c calls Hc _ IH]; intros w HP; [exact HP|].
  apply IH. destruct (perform_change c w) as (o & Hch & Ho).
  rewrite (Ho Hc) in Hch. exact (Hstep w _ Hch HP).
Qed.

(** ** Entries are never removed *)

Lemma extends_refl {A : Type} (xs : list A) : extends xs xs.
Proof. exists []. now rewrite app_nil_r. Qed.

Lemma extends_trans {A : Type} (xs ys zs : list A) :
  extends ys xs -> extends zs ys -> extends zs xs.
Proof.
  intros [m1 ->] [m2 ->]. exists (m1 ++ m2). now rewrite app_assoc.
Qed.

Lemma dict_keys_set_extends {V : Type} k (v : V) d :
  extends (dict_keys (dict_set k v d)) (dict_keys d).
Proof.
  destruct (dict_get k d) eqn:E.
  - rewrite dict_keys_set_present by congruence. apply extends_refl.
  - rewrite dict_set_fresh by exact E. exists [k]. unfold dict_keys.
    now rewrite map_app.
Qed.

Lemma change_keys w overrun w' :
  transition w overrun w' ->
  extends (dict_keys (books (lib w'))) (dict_keys (books (lib w)))
  /\ extends (dict_keys (members (lib w'))) (dict_keys (members (lib w))).
Proof.
  intros H. destruct H;
    cbn [lib save_data put_book put_member with_books with_members books members];
    split; try apply extends_refl; apply dict_keys_set_extends.
Qed.

(** X1.  No call removes or moves an entry: after any sequence of calls
    the ids of the catalogue, in order, begin with the ids it had before,
    and so do the ids of the members. *)
Theorem entries_are_never_removed (calls : list call) (w : World) :
  extends (dict_keys (books (lib (run calls w)))) (dict_keys (books (lib w)))
  /\ extends (dict_keys (members (lib (run calls w)))) (dict_keys (members (lib w))).
Proof.
  apply (run_frame
           (fun w' =>
              extends (dict_keys (books (lib w'))) (dict_keys (books (lib w)))
              /\ extends (dict_keys (members (lib w')))
                   (dict_keys (members (lib w))))).
  - intros w1 w2 o Hch [Hb Hm]. destruct (change_keys _ _ _ Hch) as [Hb' Hm'].
    split; eapply extends_trans; eassumption.
  - split; apply extends_refl.
Qed.

(** ** Identity fields never transition *)

Lemma same_book_refl b : same_book b b.
Proof. now repeat split. Qed.

Lemma same_member_refl m : same_member m m.
Proof. now repeat split. Qed.

Lemma change_identity w overrun w' :
  transition w overrun w' ->
  (forall k b,
      dict_get k (books (lib w)) = Some b ->
      exists b', dict_get k (books (lib w')) = Some b' /\ same_book b b')
  /\ (forall k m,
         dict_get k (members (lib w)) = Some m ->
         exists m', dict_get k (members (lib w')) = Some m' /\ same_member m m').
Proof.
  intros H. destruct H;
    cbn [lib save_data put_book put_member with_books with_members books members];
    split; intros k x Hx;
    try (exists x; split; [exact Hx|now repeat split]);
    rewrite dict_get_set;
    match goal with
    | |- context [String.eqb ?a k] =>
        destruct (String.eqb_spec a k) as [<-|Hne];
        [eexists; split; [reflexivity|]
        |exists x; split; [exact Hx|now repeat split]]
    end;
    try congruence;
    match goal with
    | H1 : dict_get ?a _ = Some ?y, H2 : dict_get ?a _ = Some x |- _ =>
        rewrite H1 in H2; injection H2 as <-
    end;
    now repeat split.
Qed.

(** X2.  Whatever calls are made, a book that is in the catalogue stays
    in it under the same key with the same id, title and author, and a
    member stays with the same id, name and email: the calls change
    nothing but the state of loans. *)
Theorem identity_fields_never_change (calls : list call) (w : World) :
  (forall k b,
      dict_get k (books (lib w)) = Some b ->
      exists b',
        dict_get k (books (lib (run calls w))) = Some b'
        /\ book_id b' = book_id b /\ title b' = title b /\ author b' = author b)
  /\ (forall k m,
         dict_get k (members (lib w)) = Some m ->
         exists m',
           dict_get k (members (lib (run calls w))) = Some m'
           /\ member_id m' = member_id m /\ name m' = name m /\ email m' = email m).
Proof.
  apply (run_frame
           (fun w' =>
              (forall k b,
                  dict_get k (books (lib w)) = Some b ->
                  exists b', dict_get k (books (lib w')) = Some b' /\ same_book b b')
              /\ (forall k m,
                     dict_get k (members (lib w)) = Some m ->
                     exists m',
                       dict_get k (members (lib w')) = Some m'
                       /\ same_member m m'))).
  - intros w1 w2 o Hch [Hb Hm]. destruct (change_identity _ _ _ Hch) as [Hb' Hm'].
    split.
    + intros k b H. destruct (Hb k b H) as (b1 & H1 & E1 & E2 & E3).
      destruct (Hb' k b1 H1) as (b2 & H2 & F1 & F2 & F3).
      exists b2. split; [exact H2|]. unfold same_book. repeat split; congruence.
    + intros k m H. destruct (Hm k m H) as (m1 & H1 & E1 & E2 & E3).
      destruct (Hm' k m1 H1) as (m2 & H2 & F1 & F2 & F3).
      exists m2. split; [exact H2|]. unfold same_member. repeat split; congruence.
  - split; intros k x H; exists x; split; try exact H.
    + apply same_book_refl.
    + apply same_member_refl.
Qed.

Lemma identity_fields_never_change_witness :
  dict_get "B1" (books (lib sample_world))
  = Some {| book_id := "B1"; title := "Python Programming"; author := "John Smith";
            is_available := false; borrower := Some "M1";
            due_date := Some "2024-03-15" |}
  /\ exists b',
       dict_get "B1"
         (books (lib (run [ReturnBook "B1" (datetime_of 2024 3 20 0);
                           AddBook "B1" "Other" "Nobody"] sample_world)))
       = Some b'
       /\ book_id b' = "B1" /\ title b' = "Python Programming"
       /\ author b' = "John Smith".
Proof.
  split; [reflexivity|].
  exact (proj1 (identity_fields_never_change
                  [ReturnBook "B1" (datetime_of 2024 3 20 0);
                   AddBook "B1" "Other" "Nobody"] sample_world)
           "B1" _ eq_refl).
Defined.

(** ** Stores are well formed *)

Lemma comprehension_wf {A V : Type} (entry : A -> loaded (string * V))
    (l : list A) (acc d : pydict V) :
  dict_wf acc -> comprehension entry l acc = Loaded d -> dict_wf d.
Proof.
  revert acc. induction l as [|x l IH]; intros acc Hwf; cbn.
  - now intros [= <-].
  - destruct (entry x) as [[k v]| |]; cbn; try discriminate.
    apply IH. now apply dict_wf_set.
Qed.

Lemma load_books_wf data bs : load_books data = Loaded bs -> dict_wf bs.
Proof.
  destruct data; cbn; try discriminate;
    apply comprehension_wf; constructor.
Qed.

Lemma load_members_wf data ms : load_members data = Loaded ms -> dict_wf ms.
Proof.
  destruct data; cbn; try discriminate;
    apply comprehension_wf; constructor.
Qed.

Lemma Library_init_loaded f w :
  Library_init f = Loaded w ->
  well_formed (lib w) /\ disk w = f
  /\ (f = Absent /\ w = empty_world
      \/ exists data, f = Document data /\ trace w = []
                      /\ decodes_to data (books (lib w)) (members (lib w))).
Proof.
  destruct f as [| |data]; cbn; try discriminate.
  - intros [= <-]. split; [|split; [reflexivity|left; split; reflexivity]].
    repeat split; constructor.
  - unfold Library_init, load_data, decodes_to.
    destruct (get_or_empty "books" data) as [bd| |] eqn:Gb; cbn [lbind];
      try discriminate.
    destruct (load_books bd) as [bs| |] eqn:Eb; cbn [lbind]; try discriminate.
    destruct (get_or_empty "members" data) as [md| |] eqn:Gm; cbn [lbind];
      try discriminate.
    destruct (load_members md) as [ms| |] eqn:Em; cbn [lbind]; try discriminate.
    intros [= <-]. cbn. split; [|split; [reflexivity|right]].
    + split; [now apply (load_books_wf bd)|].
      split; [now apply (load_members_wf md)|reflexivity].
    + exists data. split; [reflexivity|]. split; [reflexivity|].
      split; [rewrite Gb|rewrite Gm]; cbn [lbind]; assumption.
Qed.

Lemma change_well_formed w overrun w' :
  transition w overrun w' -> well_formed (lib w) -> well_formed (lib w').
Proof.
  intros H (Hb & Hm & Hr). destruct H;
    cbn [lib save_data put_book put_member with_books with_members books members
           fine_rate];
    repeat split; try assumption; now apply dict_wf_set.
Qed.

(** X3.  Whatever file [Library()] loads, and whatever calls follow, the
    catalogue and the membership hold every id once, the rate is 1, and no
    fine that [calculate_fine] returns is negative. *)
Theorem stores_stay_well_formed (f : file) (w : World) (calls : list call) :
  Library_init f = Loaded w ->
  dict_wf (books (lib (run calls w)))
  /\ dict_wf (members (lib (run calls w)))
  /\ fine_rate (lib (run calls w)) = 1%Q
  /\ forall bid now fine,
       calculate_fine bid now (lib (run calls w)) = Ok fine -> (0 <= fine)%Q.
Proof.
  intros Hload. apply Library_init_loaded in Hload as (Hwf & _).
  assert (H : well_formed (lib (run calls w))).
  { apply (run_frame (fun w' => well_formed (lib w'))); [|exact Hwf].
    intros w1 w2 o. apply change_well_formed. }
  destruct H as (Hb & Hm & Hr). repeat split; try assumption.
  intros bid now fine. apply calculate_fine_nonneg. rewrite Hr. discriminate.
Qed.

Lemma stores_stay_well_formed_witness :
  Library_init (Document orphan_doc) = Loaded orphan_world
  /\ fine_rate
       (lib (run [AddMember "M9" "Paul" "paul@dune.org";
                  ReturnBook "B1" (datetime_of 2024 3 1 0)] orphan_world))
     = 1%Q.
Proof.
  split; [reflexivity|].
  exact (proj1 (proj2 (proj2
           (stores_stay_well_formed (Document orphan_doc) orphan_world
              [AddMember "M9" "Paul" "paul@dune.org";
               ReturnBook "B1" (datetime_of 2024 3 1 0)] eq_refl)))).
Defined.

(** ** A call saves everything or changes nothing *)

Lemma perform_succeeds c w :
  call_in_calendar c ->
  if call_succeeds c w
  then synced (perform c w)
       /\ trace (perform c w) = trace w ++ [Saved (dump (lib (perform c w)))]
  else perform c w = w.
Proof.
  destruct c as [bid t a|mid n e|bid mid now|bid now];
    cbn [call_in_calendar perform call_succeeds]; intros Hcal.
  - unfold add_book. destruct (negb _); cbn; [split|]; reflexivity.
  - unfold add_member. destruct (negb _); cbn; [split|]; reflexivity.
  - unfold borrow_book.
    destruct (dict_get bid (books (lib w))) as [book|]; [|reflexivity].
    destruct (dict_get mid (members (lib w))) as [member|]; [|reflexivity].
    destruct (is_available book); [|reflexivity].
    rewrite (add_days_in_calendar now Hcal). cbn. split; reflexivity.
  - unfold return_book.
    destruct (dict_get bid (books (lib w))) as [book|]; [|reflexivity].
    destruct (is_available book); [reflexivity|]. cbn [negb].
    destruct (calculate_fine bid now (lib w)) as [fine|e]; [|reflexivity].
    destruct (members_at _ _) as [[k member]|]; [|reflexivity].
    destruct (list_remove _ _) as [rest|e]; [|reflexivity].
    cbn. split; reflexivity.
Qed.

Lemma synced_recoverable w :
  well_formed (lib w) -> synced w -> recoverable w.
Proof.
  intros (Hb & Hm & Hr) Hs. unfold recoverable. rewrite Hs.
  eexists. split.
  - apply Library_init_document. split; cbn.
    + now apply load_books_dump.
    + now apply load_members_dump.
  - cbn. destruct (lib w) as [bs ms r]. cbn in Hr. now subst r.
Qed.

(** The world a call leaves is well formed when the world before is. *)
Lemma perform_well_formed c w :
  well_formed (lib w) -> well_formed (lib (perform c w)).
Proof.
  intros H. destruct (perform_change c w) as [o [Ho _]].
  exact (change_well_formed _ _ _ Ho H).
Qed.

(** X4.  A call that reports success has written the file once, and what
    the file holds is the whole new state of the store: under every key
    of the two dictionaries it has the attributes of the entity the store
    now has there, it has no other key, and a fresh [Library()] builds the
    new store from it.  A call that reports failure, or raises, leaves the
    store, the file and the record of saves exactly as they were.
    ([borrow_book] with today + 14 inside the calendar.) *)
Theorem call_saves_all_or_changes_nothing (c : call) (w : World) :
  call_in_calendar c ->
  (call_succeeds c w = true ->
   disk (perform c w) = Document (dump (lib (perform c w)))
   /\ trace (perform c w) = trace w ++ [Saved (dump (lib (perform c w)))]
   /\ (forall k,
          file_entry "books" k (disk (perform c w))
          = option_map
              (fun b =>
                 JObj [("book_id", JStr (book_id b)); ("title", JStr (title b));
                       ("author", JStr (author b));
                       ("is_available", JBool (is_available b));
                       ("borrower", of_opt_str (borrower b));
                       ("due_date", of_opt_str (due_date b))])
              (dict_get k (books (lib (perform c w)))))
   /\ (forall k,
          file_entry "members" k (disk (perform c w))
          = option_map
              (fun m =>
                 JObj [("member_id", JStr (member_id m)); ("name", JStr (name m));
                       ("email", JStr (email m));
                       ("borrowed_books", JArr (map JStr (borrowed_books m)))])
              (dict_get k (members (lib (perform c w)))))
   /\ (well_formed (lib w) ->
       exists w2,
         Library_init (disk (perform c w)) = Loaded w2
         /\ lib w2 = lib (perform c w)))
  /\ (call_succeeds c w = false -> perform c w = w).
Proof.
  intros Hcal. pose proof (perform_succeeds c w Hcal) as H.
  destruct (call_succeeds c w); split; try discriminate; intros _; [|exact H].
  destruct H as [Hs Ht].
  split; [exact Hs|]. split; [exact Ht|].
  split; [|split].
  - intros k. rewrite Hs. apply (proj1 (file_entry_dump _ k)).
  - intros k. rewrite Hs. apply (proj2 (file_entry_dump _ k)).
  - intros Hwf. apply synced_recoverable; [|exact Hs].
    now apply perform_well_formed.
Qed.

Lemma call_saves_all_or_changes_nothing_witness :
  call_in_calendar (BorrowBook "B1" "M1" (datetime_of 2024 3 1 0))
  /\ call_in_calendar (BorrowBook "B2" "M1" (datetime_of 2024 3 1 0))
  /\ call_succeeds (BorrowBook "B2" "M1" (datetime_of 2024 3 1 0)) sample_world = true
  /\ well_formed (lib sample_world)
  /\ perform (BorrowBook "B1" "M1" (datetime_of 2024 3 1 0)) sample_world
     = sample_world
  /\ file_entry "books" "B2"
       (disk (perform (BorrowBook "B2" "M1" (datetime_of 2024 3 1 0)) sample_world))
     = Some (JObj [("book_id", JStr "B2"); ("title", JStr "Data Structures");
                   ("author", JStr "Jane Doe"); ("is_available", JBool false);
                   ("borrower", JStr "M1"); ("due_date", JStr "2024-03-15")])
  /\ file_entry "books" "B3"
       (disk (perform (BorrowBook "B2" "M1" (datetime_of 2024 3 1 0)) sample_world))
     = None
  /\ exists w2,
       Library_init
         (disk (perform (BorrowBook "B2" "M1" (datetime_of 2024 3 1 0)) sample_world))
       = Loaded w2
       /\ lib w2
          = lib (perform (BorrowBook "B2" "M1" (datetime_of 2024 3 1 0)) sample_world).
Proof.
  assert (Hcal1 : call_in_calendar (BorrowBook "B1" "M1" (datetime_of 2024 3 1 0)))
    by (split; vm_compute; discriminate).
  assert (Hcal2 : call_in_calendar (BorrowBook "B2" "M1" (datetime_of 2024 3 1 0)))
    by (split; vm_compute; discriminate).
  assert (Hok : call_succeeds (BorrowBook "B2" "M1" (datetime_of 2024 3 1 0))
                  sample_world = true) by (vm_compute; reflexivity).
  assert (Hwf : well_formed (lib sample_world)).
  { split; [exact (proj1 sample_world_wf)|].
    split; [exact (proj2 sample_world_wf)|reflexivity]. }
  split; [exact Hcal1|]. split; [exact Hcal2|]. split; [exact Hok|].
  split; [exact Hwf|]. split.
  { exact (proj2 (call_saves_all_or_changes_nothing
                    (BorrowBook "B1" "M1" (datetime_of 2024 3 1 0)) sample_world
                    Hcal1) eq_refl). }
  destruct (proj1 (call_saves_all_or_changes_nothing
                     (BorrowBook "B2" "M1" (datetime_of 2024 3 1 0)) sample_world
                     Hcal2) Hok) as (_ & _ & Hbooks & _ & Hload).
  split; [rewrite Hbooks; vm_compute; reflexivity|].
  split; [rewrite Hbooks; vm_compute; reflexivity|].
  exact (Hload Hwf).
Defined.

(** ** A restart finds the store *)

Lemma change_recoverable w w' :
  transition w false w' -> well_formed (lib w) -> recoverable w -> recoverable w'.
Proof.
  intros Hch Hwf Hrec.
  pose proof (change_well_formed _ _ _ Hch Hwf) as Hwf'.
  inversion Hch; subst; try exact Hrec;
    apply synced_recoverable; try exact Hwf'; reflexivity.
Qed.

(** X5.  Start the program on any file it can load, make any calls, and
    start it again on what is then on disk: the second start builds the
    store the first one ended with. *)
Theorem restart_finds_the_store (f : file) (w : World) (calls : list call) :
  Library_init f = Loaded w ->
  Forall call_in_calendar calls ->
  exists w',
    Library_init (disk (run calls w)) = Loaded w'
    /\ lib w' = lib (run calls w).
Proof.
  intros Hload Hcal.
  pose proof (Library_init_loaded f w Hload) as (Hwf & Hdisk & _).
  assert (H : well_formed (lib (run calls w)) /\ recoverable (run calls w)).
  { apply (run_invariant
             (fun w' => well_formed (lib w') /\ recoverable w')); [|exact Hcal|].
    - intros w1 w2 Hch [H1 H2]. split.
      + exact (change_well_formed _ _ _ Hch H1).
      + exact (change_recoverable _ _ Hch H1 H2).
    - split; [exact Hwf|]. exists w. rewrite Hdisk. now split. }
  exact (proj2 H).
Qed.

Lemma restart_finds_the_store_witness :
  Library_init Absent = Loaded empty_world
  /\ Forall call_in_calendar
       [AddBook "B1" "Dune" "Frank Herbert"; AddMember "M1" "Paul" "paul@dune.org";
        BorrowBook "B1" "M1" (datetime_of 2024 3 1 0)]
  /\ exists w',
       Library_init
         (disk (run [AddBook "B1" "Dune" "Frank Herbert";
                     AddMember "M1" "Paul" "paul@dune.org";
                     BorrowBook "B1" "M1" (datetime_of 2024 3 1 0)] empty_world))
       = Loaded w'
       /\ lib w'
          = lib (run [AddBook "B1" "Dune" "Frank Herbert";
                      AddMember "M1" "Paul" "paul@dune.org";
                      BorrowBook "B1" "M1" (datetime_of 2024 3 1 0)] empty_world).
Proof.
  assert (Hcal : Forall call_in_calendar
                   [AddBook "B1" "Dune" "Frank Herbert";
                    AddMember "M1" "Paul" "paul@dune.org";
                    BorrowBook "B1" "M1" (datetime_of 2024 3 1 0)]).
  { repeat constructor; vm_compute; discriminate. }
  split; [reflexivity|]. split; [exact Hcal|].
  exact (restart_finds_the_store Absent empty_world _ eq_refl Hcal).
Defined.

(** ** Calls on stores of the program's own making never raise *)

Lemma change_due_dates_parse w w' :
  transition w false w' -> due_dates_parse (lib w) -> due_dates_parse (lib w').
Proof.
  intros Hch Hp. inversion Hch; subst; try exact Hp;
    cbn [lib save_data put_book put_member with_books with_members books members];
    intros k b Hk Hav; cbn [books] in Hk; rewrite dict_get_set in Hk;
    match type of Hk with
    | context [String.eqb ?a k] => destruct (String.eqb_spec a k) as [Ek|Ek]
    end;
    try (now apply (Hp k b));
    injection Hk as <-; try discriminate Hav.
  eexists. eexists. split; [reflexivity|]. now apply strptime_strftime.
Qed.

Lemma change_store_inv w w' :
  transition w false w' -> store_inv (lib w) -> store_inv (lib w').
Proof.
  intros Hch Hinv.
  inversion Hch
    as [ | bid t a Hfresh | mid n e Hfresh
       | bid mid book member due Hb Hm Hav Hrange
       | bid mk book member rest now fine Hb Hav Hfine Hbo Hm Hrest | ];
    subst; try exact Hinv.
  - pose proof (add_book_keeps_inv w bid t a Hinv) as H.
    unfold add_book in H. rewrite dict_mem_get in H.
    now rewrite Hfresh in H.
  - pose proof (add_member_keeps_inv w mid n e Hinv) as H.
    unfold add_member in H. rewrite dict_mem_get in H.
    now rewrite Hfresh in H.
  - exact (lend_keeps_inv (lib w) bid mid due book member Hinv Hb Hm Hav).
  - exact (take_back_keeps_inv (lib w) bid book mk member rest
             Hinv Hb Hav Hbo Hm Hrest).
Qed.

Lemma call_returns w c :
  store_inv (lib w) -> due_dates_parse (lib w) -> call_in_calendar c ->
  call_raises c w = None.
Proof.
  intros Hinv Hp Hcal.
  destruct c as [bid t a|mid n e|bid mid now|bid now];
    cbn [call_raises call_in_calendar] in *.
  - unfold add_book. now destruct (negb _).
  - unfold add_member. now destruct (negb _).
  - unfold borrow_book.
    destruct (dict_get bid (books (lib w))) as [book|]; [|reflexivity].
    destruct (dict_get mid (members (lib w))) as [member|]; [|reflexivity].
    destruct (is_available book); [|reflexivity].
    now rewrite (add_days_in_calendar now Hcal).
  - destruct (dict_get bid (books (lib w))) as [book|] eqn:Hb;
      [|unfold return_book; now rewrite Hb].
    destruct (is_available book) eqn:Hav;
      [unfold return_book; now rewrite Hb, Hav|].
    destruct (return_book_outcome_under_inv w bid now book Hinv Hb Hav)
      as [(fine & w' & ->)|[_ Hfine]]; [reflexivity|].
    destruct (Hp bid book Hb Hav) as (s & due & Hs & Hdue).
    rewrite (calculate_fine_dated _ _ now _ _ _ Hb Hav Hs Hdue) in Hfine.
    discriminate.
Qed.

(** X6.  On a store that satisfies the invariant of the operations and in
    which the due date of every lent book is a date, no call raises, and
    that stays so after any sequence of calls (with today + 14 inside the
    calendar at each [borrow_book]).  The store the program starts with
    when there is no file is such a store. *)
Theorem calls_never_raise (w : World) (calls : list call) (c : call) :
  store_inv (lib w) ->
  due_dates_parse (lib w) ->
  Forall call_in_calendar calls ->
  call_in_calendar c ->
  call_raises c (run calls w) = None.
Proof.
  intros Hinv Hp Hcal Hc.
  assert (H : store_inv (lib (run calls w)) /\ due_dates_parse (lib (run calls w))).
  { apply (run_invariant
             (fun w' => store_inv (lib w') /\ due_dates_parse (lib w')));
      [|exact Hcal|now split].
    intros w1 w2 Hch [H1 H2]. split.
    - exact (change_store_inv _ _ Hch H1).
    - exact (change_due_dates_parse _ _ Hch H2). }
  destruct H. now apply call_returns.
Qed.

Lemma calls_never_raise_witness :
  store_inv (lib empty_world)
  /\ due_dates_parse (lib empty_world)
  /\ call_raises (ReturnBook "B1" (datetime_of 2024 4 1 0))
       (run [AddBook "B1" "Dune" "Frank Herbert";
             AddMember "M1" "Paul" "paul@dune.org";
             BorrowBook "B1" "M1" (datetime_of 2024 3 1 0)] empty_world)
     = None.
Proof.
  assert (Hp : due_dates_parse (lib empty_world))
    by (intros k b H; discriminate H).
  split; [exact empty_world_inv|]. split; [exact Hp|].
  apply (calls_never_raise empty_world _ _ empty_world_inv Hp).
  - repeat constructor; vm_compute; discriminate.
  - exact I.
Defined.

(** ** The fine of a loan *)

(** X7.  A book borrowed on one day and returned on another costs the
    rate for every day beyond the fourteenth, and nothing when it comes
    back within fourteen days: [return_book] reports
    rate * (day of return - day of loan - 14) when that is positive and 0
    otherwise. *)
Theorem fine_of_a_loan (w w1 : World) (bid mid : string) (now1 now2 : datetime)
    (book : Book) (member : Member) :
  dict_get bid (books (lib w)) = Some book ->
  dict_get mid (members (lib w)) = Some member ->
  borrow_book bid mid now1 w = Return true w1 ->
  0 <= micros now2 < US_PER_DAY ->
  exists w2,
    return_book bid now2 w1
    = Return (true, spec_fine (fine_rate (lib w))
                      (ordinal now2 - ordinal now1 - 14)) w2
    /\ (ordinal now2 <= ordinal now1 + 14 ->
        return_book bid now2 w1 = Return (true, 0%Q) w2).
Proof.
  intros Hb Hm Hrun Hus.
  destruct (borrow_book_returns_true _ _ _ _ _ _ _ Hb Hm Hrun)
    as (due & Hdue & Hav & ->).
  apply add_days_ok in Hdue as [-> Hrange].
  set (due := {| ordinal := ordinal now1 + 14; micros := micros now1 |}).
  set (w1 := save_data _) in *.
  assert (Hb1 : dict_get bid (books (lib w1)) = Some (lent mid due book))
    by (cbn; apply dict_get_set_eq).
  assert (Hm1 : dict_get mid (members (lib w1))
                = Some (with_borrowed_books (borrowed_books member ++ [bid]) member))
    by (cbn; apply dict_get_set_eq).
  assert (Hfine : calculate_fine bid now2 (lib w1)
                  = Ok (spec_fine (fine_rate (lib w))
                          (ordinal now2 - ordinal now1 - 14))).
  { rewrite (calculate_fine_dated (lib w1) bid now2 (lent mid due book)
               (strftime due) {| ordinal := ordinal due; micros := 0 |}
               Hb1 eq_refl eq_refl (strptime_strftime due Hrange)).
    rewrite (sub_days_calendar now2 {| ordinal := ordinal due; micros := 0 |}
               eq_refl Hus).
    cbn [ordinal due].
    replace (ordinal now2 - (ordinal now1 + 14))
      with (ordinal now2 - ordinal now1 - 14) by lia.
    reflexivity. }
  destruct (list_remove_ok bid (borrowed_books member ++ [bid]))
    as (rest & Hrest & _).
  { apply in_or_app. right. now left. }
  assert (Hret : exists w2,
             return_book bid now2 w1
             = Return (true, spec_fine (fine_rate (lib w))
                               (ordinal now2 - ordinal now1 - 14)) w2).
  { unfold return_book. rewrite Hb1. cbn [is_available lent negb].
    rewrite Hfine. cbn [borrower lent members_at]. rewrite Hm1.
    cbn [borrowed_books with_borrowed_books]. rewrite Hrest. now eexists. }
  destruct Hret as [w2 Hret]. exists w2. split; [exact Hret|].
  intros Hle. rewrite Hret. unfold spec_fine.
  destruct (Z.ltb_spec 0 (ordinal now2 - ordinal now1 - 14)); [lia|reflexivity].
Qed.

Lemma fine_of_a_loan_witness :
  exists w1 w2,
    borrow_book "B2" "M1" (datetime_of 2024 3 1 0) sample_world = Return true w1
    /\ return_book "B2" (datetime_of 2024 3 20 43200000000) w1
       = Return (true, 5%Q) w2.
Proof.
  assert (Hrun : borrow_book "B2" "M1" (datetime_of 2024 3 1 0) sample_world
                 = Return true
                     (after (borrow_book "B2" "M1" (datetime_of 2024 3 1 0)
                               sample_world)))
    by (vm_compute; reflexivity).
  destruct (fine_of_a_loan sample_world _ "B2" "M1"
              (datetime_of 2024 3 1 0) (datetime_of 2024 3 20 43200000000)
              (Book_init "B2" "Data Structures" "Jane Doe")
              {| member_id := "M1"; name := "Alice Brown";
                 email := "alice@email.com"; borrowed_books := ["B1"] |}
              eq_refl eq_refl Hrun)
    as (w2 & Hret & _).
  { split; vm_compute; [discriminate|reflexivity]. }
  eexists. exists w2. split; [exact Hrun|exact Hret].
Defined.

(** ** Loans alternate *)

Lemma borrow_book_true w w1 bid mid now :
  borrow_book bid mid now w = Return true w1 ->
  exists book,
    dict_get bid (books (lib w1)) = Some book /\ is_available book = false.
Proof.
  unfold borrow_book.
  destruct (dict_get bid (books (lib w))) as [book|]; [|discriminate].
  destruct (dict_get mid (members (lib w))) as [member|]; [|discriminate].
  destruct (is_available book); [|discriminate].
  destruct (add_days now 14) as [due|e]; [|discriminate].
  intros [= <-]. eexists. split; [cbn; apply dict_get_set_eq|reflexivity].
Qed.

Lemma return_book_true w w1 bid now fine :
  return_book bid now w = Return (true, fine) w1 ->
  calculate_fine bid now (lib w) = Ok fine
  /\ exists book mk member rest,
       dict_get bid (books (lib w)) = Some book
       /\ is_available book = false
       /\ borrower book = Some mk
       /\ dict_get mk (members (lib w)) = Some member
       /\ list_remove bid (borrowed_books member) = Ok rest
       /\ w1 = save_data
                 (put_book bid (shelved book)
                    (put_member mk (with_borrowed_books rest member) w)).
Proof.
  unfold return_book.
  destruct (dict_get bid (books (lib w))) as [book|] eqn:Hb; [|discriminate].
  destruct (is_available book) eqn:Hav; [discriminate|]. cbn [negb].
  destruct (calculate_fine bid now (lib w)) as [f|e]; [|discriminate].
  unfold members_at.
  destruct (borrower book) as [mk|] eqn:Hbo; [|discriminate].
  destruct (dict_get mk (members (lib w))) as [member|] eqn:Hm; [|discriminate].
  destruct (list_remove bid (borrowed_books member)) as [rest|e] eqn:Hrest;
    [|discriminate].
  intros [= <- <-]. split; [reflexivity|].
  exists book, mk, member, rest. now repeat split.
Qed.

Lemma borrow_book_unavailable w bid mid now book :
  dict_get bid (books (lib w)) = Some book ->
  is_available book = false ->
  borrow_book bid mid now w = Return false w.
Proof.
  intros Hb Hav. unfold borrow_book. rewrite Hb.
  destruct (dict_get mid (members (lib w))); [|reflexivity]. now rewrite Hav.
Qed.

Lemma return_book_available w bid now book :
  dict_get bid (books (lib w)) = Some book ->
  is_available book = true ->
  return_book bid now w = Return (false, 0%Q) w.
Proof. intros Hb Hav. unfold return_book. now rewrite Hb, Hav. Qed.

(** X8.  A book that has just been lent cannot be lent again, to anybody
    and at any time: the second [borrow_book] returns [False] and changes
    nothing.  A book that has just been returned cannot be returned
    again: the second [return_book] returns [(False, 0.0)] and changes
    nothing; and it can be lent anew to every member. *)
Theorem loans_alternate (w w1 : World) (bid : string) :
  (forall mid now,
      borrow_book bid mid now w = Return true w1 ->
      forall mid' now', borrow_book bid mid' now' w1 = Return false w1)
  /\ (forall now fine,
         return_book bid now w = Return (true, fine) w1 ->
         (forall now', return_book bid now' w1 = Return (false, 0%Q) w1)
         /\ (forall mid' now',
                dict_get mid' (members (lib w1)) <> None ->
                due_in_calendar now' ->
                exists w2, borrow_book bid mid' now' w1 = Return true w2)).
Proof.
  split.
  - intros mid now Hrun mid' now'.
    destruct (borrow_book_true _ _ _ _ _ Hrun) as (book & Hb & Hav).
    exact (borrow_book_unavailable w1 bid mid' now' book Hb Hav).
  - intros now fine Hret.
    destruct (return_book_true _ _ _ _ _ Hret)
      as (_ & book & mk & member & rest & Hb & Hav & Hbo & Hm & Hrest & ->).
    assert (Hb1 : dict_get bid
                    (books (lib (save_data
                                   (put_book bid (shelved book)
                                      (put_member mk
                                         (with_borrowed_books rest member) w)))))
                  = Some (shelved book))
      by (cbn; apply dict_get_set_eq).
    split.
    + intros now'. exact (return_book_available _ bid now' _ Hb1 eq_refl).
    + intros mid' now' Hm' Hcal. unfold borrow_book. rewrite Hb1.
      destruct (dict_get mid' _) as [member'|]; [|congruence].
      cbn [is_available shelved]. rewrite (add_days_in_calendar now' Hcal).
      now eexists.
Qed.

Lemma loans_alternate_witness :
  exists w1,
    return_book "B1" (datetime_of 2024 3 10 0) sample_world = Return (true, 0%Q) w1
    /\ return_book "B1" (datetime_of 2024 3 11 0) w1 = Return (false, 0%Q) w1.
Proof.
  assert (Hret : return_book "B1" (datetime_of 2024 3 10 0) sample_world
                 = Return (true, 0%Q)
                     (after (return_book "B1" (datetime_of 2024 3 10 0)
                               sample_world)))
    by (vm_compute; reflexivity).
  eexists. split; [exact Hret|].
  exact (proj1 (proj2 (loans_alternate sample_world _ "B1") _ _ Hret)
           (datetime_of 2024 3 11 0)).
Defined.

(** ** The fine that is reported *)

(** X9.  The amount a successful [return_book] reports is the amount
    [calculate_fine] gives for the book at that moment, before the due
    date is cleared; from then on [calculate_fine] gives 0 for the book at
    every time. *)
Theorem return_book_reports_the_fine (w w1 : World) (bid : string)
    (now : datetime) (fine : Q) :
  return_book bid now w = Return (true, fine) w1 ->
  calculate_fine bid now (lib w) = Ok fine
  /\ forall now', calculate_fine bid now' (lib w1) = Ok 0%Q.
Proof.
  intros Hret.
  destruct (return_book_true _ _ _ _ _ Hret)
    as (Hfine & book & mk & member & rest & Hb & Hav & Hbo & Hm & Hrest & ->).
  split; [exact Hfine|]. intros now'.
  apply calculate_fine_no_loan. unfold no_loan. cbn.
  rewrite dict_get_set_eq. now left.
Qed.

Lemma return_book_reports_the_fine_witness :
  exists w1,
    return_book "B1" (datetime_of 2024 3 20 0) sample_world = Return (true, 5%Q) w1
    /\ calculate_fine "B1" (datetime_of 2024 3 20 0) (lib sample_world) = Ok 5%Q
    /\ calculate_fine "B1" (datetime_of 2025 1 1 0) (lib w1) = Ok 0%Q.
Proof.
  assert (Hret : return_book "B1" (datetime_of 2024 3 20 0) sample_world
                 = Return (true, 5%Q)
                     (after (return_book "B1" (datetime_of 2024 3 20 0)
                               sample_world)))
    by (vm_compute; reflexivity).
  eexists. split; [exact Hret|].
  destruct (return_book_reports_the_fine _ _ _ _ _ Hret) as [H1 H2].
  split; [exact H1|exact (H2 (datetime_of 2025 1 1 0))].
Defined.

(** ** A due date that is not a date *)

(** X10.  A lent book whose due date is a text that is not a date, which
    [load_data] accepts, can never be returned: at every time
    [return_book] raises [ValueError] and leaves the world as it is, and
    after any sequence of calls the book is still lent, whatever the
    calls. *)
Theorem undated_loan_is_stuck (w : World) (bid : string) (book : Book)
    (s : string) (e : exn) :
  dict_get bid (books (lib w)) = Some book ->
  is_available book = false ->
  due_date book = Some s ->
  s <> "" ->
  strptime s = Raise e ->
  (forall now, return_book bid now w = Raised ValueError w)
  /\ (forall calls, dict_get bid (books (lib (run calls w))) = Some book).
Proof.
  intros Hb Hav Hs Hne Hraise. split.
  - intros now. unfold return_book. rewrite Hb, Hav. cbn [negb].
    now rewrite (calculate_fine_undated _ _ now _ _ _ Hb Hav Hs Hraise Hne).
  - intros calls.
    apply (run_frame (fun w' => dict_get bid (books (lib w')) = Some book));
      [|exact Hb].
    intros w1 w2 o Hch H1.
    destruct Hch
      as [ | bid' t a Hfresh | mid n e' Hfresh
         | bid' mid book' member due Hb' Hm Hav' Hrange
         | bid' mk book' member rest now fine Hb' Hav' Hfine Hbo Hm Hrest
         | bid' mid book' Hb' Hav' ];
      cbn [lib save_data put_book put_member with_books with_members books
             members];
      try exact H1;
      rewrite dict_get_set_ne; try exact H1; intros <-; try congruence.
    rewrite (calculate_fine_undated _ _ now _ _ _ H1 Hav Hs Hraise Hne) in Hfine.
    discriminate.
Qed.

Lemma undated_loan_is_stuck_witness :
  strptime "next week" = Raise ValueError
  /\ return_book "B1" (datetime_of 2024 3 1 0) undated_world
     = Raised ValueError undated_world
  /\ option_map is_available
       (dict_get "B1"
          (books (lib (run [ReturnBook "B1" (datetime_of 2024 3 1 0);
                            BorrowBook "B1" "M1" (datetime_of 2024 3 2 0)]
                         undated_world))))
     = Some false.
Proof.
  assert (Hraise : strptime "next week" = Raise ValueError) by reflexivity.
  assert (Hne : "next week" <> "") by discriminate.
  destruct (undated_loan_is_stuck undated_world "B1" _ "next week" ValueError
              eq_refl eq_refl eq_refl Hne Hraise) as [H1 H2].
  split; [exact Hraise|]. split; [exact (H1 _)|].
  now rewrite H2.
Defined.

(** ** The accounts of loans agree *)

Lemma total_set_present {V : Type} (f : V -> nat) k v old (d : pydict V) :
  dict_get k d = Some old ->
  (total f (dict_set k v d) + f old = total f d + f v)%nat.
Proof.
  unfold total, dict_values, list_sum.
  induction d as [|[k0 v0] d IH]; cbn; [discriminate|].
  destruct (String.eqb_spec k k0) as [->|Hne]; cbn.
  - intros [= ->]. lia.
  - intros H. specialize (IH H). lia.
Qed.

Lemma total_set_fresh {V : Type} (f : V -> nat) k v (d : pydict V) :
  dict_get k d = None -> total f (dict_set k v d) = (total f d + f v)%nat.
Proof.
  intros H. rewrite (dict_set_fresh k v d H). unfold total, dict_values.
  rewrite !map_app, list_sum_app. cbn. lia.
Qed.

Lemma list_remove_length x l rest :
  list_remove x l = Ok rest -> List.length l = S (List.length rest).
Proof.
  revert rest. induction l as [|y l IH]; intros rest; cbn; [discriminate|].
  destruct (String.eqb x y).
  - now intros [= <-].
  - destruct (list_remove x l) as [r|e]; cbn [bind]; [|discriminate].
    intros [= <-]. cbn. now rewrite (IH r).
Qed.

Lemma change_accounts w w' :
  transition w false w' ->
  on_loan (lib w) = held (lib w) -> on_loan (lib w') = held (lib w').
Proof.
  intros Hch Heq. unfold on_loan, held in *.
  inversion Hch
    as [ | bid t a Hfresh | mid n e Hfresh
       | bid mid book member due Hb Hm Hav Hrange
       | bid mk book member rest now fine Hb Hav Hfine Hbo Hm Hrest | ];
    subst; try exact Heq;
    cbn [lib save_data put_book put_member with_books with_members books members].
  - rewrite total_set_fresh by exact Hfresh. cbn. lia.
  - rewrite total_set_fresh by exact Hfresh. cbn. lia.
  - pose proof (total_set_present
                  (fun b => if is_available b then 0%nat else 1%nat)
                  bid (lent mid due book) book _ Hb) as H1.
    pose proof (total_set_present (fun m => List.length (borrowed_books m))
                  mid (with_borrowed_books (borrowed_books member ++ [bid]) member)
                  member _ Hm) as H2.
    cbn in H1, H2. rewrite Hav in H1. rewrite length_app in H2. cbn in H2. lia.
  - pose proof (total_set_present
                  (fun b => if is_available b then 0%nat else 1%nat)
                  bid (shelved book) book _ Hb) as H1.
    pose proof (total_set_present (fun m => List.length (borrowed_books m))
                  mk (with_borrowed_books rest member) member _ Hm) as H2.
    cbn in H1, H2. rewrite Hav in H1.
    rewrite (list_remove_length _ _ _ Hrest) in H2. lia.
Qed.

(** X11.  The number of books that are lent and the number of entries in
    the members' lists move together: if they agree before a sequence of
    calls they agree after it, as they do in the store the program starts
    with when there is no file. *)
Theorem accounts_of_loans_agree (w : World) (calls : list call) :
  on_loan (lib w) = held (lib w) ->
  Forall call_in_calendar calls ->
  on_loan (lib (run calls w)) = held (lib (run calls w)).
Proof.
  intros Heq Hcal.
  apply (run_invariant (fun w' => on_loan (lib w') = held (lib w')));
    [|exact Hcal|exact Heq].
  intros w1 w2. apply change_accounts.
Qed.

Lemma accounts_of_loans_agree_witness :
  on_loan (lib empty_world) = held (lib empty_world)
  /\ on_loan
       (lib (run [AddBook "B1" "Dune" "Frank Herbert";
                  AddMember "M1" "Paul" "paul@dune.org";
                  BorrowBook "B1" "M1" (datetime_of 2024 3 1 0)] empty_world))
     = held
         (lib (run [AddBook "B1" "Dune" "Frank Herbert";
                    AddMember "M1" "Paul" "paul@dune.org";
                    BorrowBook "B1" "M1" (datetime_of 2024 3 1 0)] empty_world)).
Proof.
  split; [reflexivity|].
  apply (accounts_of_loans_agree empty_world _ eq_refl).
  repeat constructor; vm_compute; discriminate.
Defined.

(** ** A call touches one book and one member *)

(** X12.  [add_book] and [add_member] leave every other entry and the
    other dictionary as they are; [borrow_book] leaves every book but the
    one borrowed and every member but the borrower as they are;
    [return_book] leaves every book but the one returned and every member
    but its borrower as they are. *)
Theorem calls_are_local (w : World) :
  (forall bid t a k,
      k <> bid ->
      dict_get k (books (lib (after (add_book bid t a w))))
      = dict_get k (books (lib w)))
  /\ (forall bid t a,
         members (lib (after (add_book bid t a w))) = members (lib w))
  /\ (forall mid n e k,
         k <> mid ->
         dict_get k (members (lib (after (add_member mid n e w))))
         = dict_get k (members (lib w)))
  /\ (forall mid n e,
         books (lib (after (add_member mid n e w))) = books (lib w))
  /\ (forall bid mid now k,
         (k <> bid ->
          dict_get k (books (lib (after (borrow_book bid mid now w))))
          = dict_get k (books (lib w)))
         /\ (k <> mid ->
             dict_get k (members (lib (after (borrow_book bid mid now w))))
             = dict_get k (members (lib w))))
  /\ (forall bid now k,
         (k <> bid ->
          dict_get k (books (lib (after (return_book bid now w))))
          = dict_get k (books (lib w)))
         /\ ((forall book,
                 dict_get bid (books (lib w)) = Some book ->
                 borrower book <> Some k) ->
             dict_get k (members (lib (after (return_book bid now w))))
             = dict_get k (members (lib w)))).
Proof.
  repeat split.
  - intros bid t a k Hk. unfold add_book. destruct (negb _); [|reflexivity].
    cbn. apply dict_get_set_ne. congruence.
  - intros bid t a. unfold add_book. now destruct (negb _).
  - intros mid n e k Hk. unfold add_member. destruct (negb _); [|reflexivity].
    cbn. apply dict_get_set_ne. congruence.
  - intros mid n e. unfold add_member. now destruct (negb _).
  - intros Hk. unfold borrow_book.
    destruct (dict_get bid (books (lib w))) as [book|]; [|reflexivity].
    destruct (dict_get mid (members (lib w))) as [member|]; [|reflexivity].
    destruct (is_available book); [|reflexivity].
    destruct (add_days now 14); cbn;
      rewrite ?dict_get_set_ne by congruence; reflexivity.
  - intros Hk. unfold borrow_book.
    destruct (dict_get bid (books (lib w))) as [book|]; [|reflexivity].
    destruct (dict_get mid (members (lib w))) as [member|]; [|reflexivity].
    destruct (is_available book); [|reflexivity].
    destruct (add_days now 14); cbn;
      rewrite ?dict_get_set_ne by congruence; reflexivity.
  - intros Hk. unfold return_book.
    destruct (dict_get bid (books (lib w))) as [book|]; [|reflexivity].
    destruct (negb _); [|reflexivity].
    destruct (calculate_fine _ _ _); [|reflexivity].
    destruct (members_at _ _) as [[mk member]|]; [|reflexivity].
    destruct (list_remove _ _); [|reflexivity].
    cbn. apply dict_get_set_ne. congruence.
  - intros Hk. unfold return_book.
    destruct (dict_get bid (books (lib w))) as [book|]; [|reflexivity].
    destruct (negb _); [|reflexivity].
    destruct (calculate_fine _ _ _); [|reflexivity].
    unfold members_at.
    destruct (borrower book) as [mk|] eqn:Hbo; [|reflexivity].
    destruct (dict_get mk (members (lib w))) as [member|]; [|reflexivity].
    destruct (list_remove _ _); [|reflexivity].
    cbn. apply dict_get_set_ne. intros ->. now apply (Hk book).
Qed.

Lemma calls_are_local_witness :
  "B2" <> "B1"
  /\ dict_get "B2"
       (books (lib (after (return_book "B1" (datetime_of 2024 3 20 0)
                             sample_world))))
     = dict_get "B2" (books (lib sample_world)).
Proof.
  assert (Hne : "B2" <> "B1") by discriminate.
  split; [exact Hne|].
  destruct (calls_are_local sample_world) as (_ & _ & _ & _ & _ & Hret).
  exact (proj1 (Hret "B1" (datetime_of 2024 3 20 0) "B2") Hne).
Defined.

(** ** Searching, further *)

Lemma string_app_assoc (a b c : string) :
  ((a ++ b) ++ c)%string = (a ++ b ++ c)%string.
Proof. induction a as [|x a IH]; cbn; [reflexivity|now rewrite IH]. Qed.

Lemma string_app_length (a b : string) :
  String.length (a ++ b) = (String.length a + String.length b)%nat.
Proof. induction a as [|x a IH]; cbn; [reflexivity|now rewrite IH]. Qed.

Lemma filter_filter_implied {A : Type} (p q : A -> bool) (l : list A) :
  (forall x, q x = true -> p x = true) ->
  filter q (filter p l) = filter q l.
Proof.
  intros H. induction l as [|x l IH]; cbn; [reflexivity|].
  destruct (p x) eqn:Ep; cbn.
  - now rewrite IH.
  - destruct (q x) eqn:Eq; [|exact IH].
    rewrite (H x Eq) in Ep. discriminate.
Qed.

Lemma filter_none {A : Type} (p : A -> bool) (l : list A) :
  (forall x, In x l -> p x = false) -> filter p l = [].
Proof.
  induction l as [|x l IH]; intros H; cbn; [reflexivity|].
  rewrite (H x) by now left. apply IH. intros y Hy. apply H. now right.
Qed.

(** X13.  [search_books] finds every book under its own title and under
    its own author, in whatever case the query is typed; a query whose
    lower-case form contains that of another one returns, in the same
    order, those results of the other that match it; the result is never
    longer than the catalogue; and a query longer than every title and
    author returns nothing, as long as no title and no author has a dotted
    capital I, the one character whose lower-case form is longer than
    itself. *)
Theorem search_books_laws {B : Type} (title_of author_of : B -> text)
    (values : list B) :
  (forall q book,
      In book values ->
      lower q = lower (title_of book) \/ lower q = lower (author_of book) ->
      In book (search title_of author_of q values))
  /\ (forall q1 q2,
         contains (lower q1) (lower q2) = true ->
         search title_of author_of q2 values
         = filter (matches title_of author_of (lower q2))
             (search title_of author_of q1 values)
         /\ incl (search title_of author_of q2 values)
              (search title_of author_of q1 values))
  /\ (forall q,
         (List.length (search title_of author_of q values) <= List.length values)%nat)
  /\ (forall q,
         (forall book,
             In book values ->
             ~ In 0x130%N (title_of book)
             /\ ~ In 0x130%N (author_of book)
             /\ (List.length (title_of book) < List.length q)%nat
             /\ (List.length (author_of book) < List.length q)%nat) ->
         search title_of author_of q values = []).
Proof.
  split; [|split; [|split]].
  - intros q book HI Hq. rewrite search_filter. apply filter_In.
    split; [exact HI|]. unfold matches. apply orb_true_iff.
    destruct Hq as [-> | ->]; [left|right]; apply contains_refl.
  - intros q1 q2 Hsub.
    assert (Himp : forall b, matches title_of author_of (lower q2) b = true
                             -> matches title_of author_of (lower q1) b = true).
    { intros b. unfold matches. rewrite !orb_true_iff.
      intros [H|H]; [left|right]; exact (contains_trans _ _ _ Hsub H). }
    assert (E : search title_of author_of q2 values
                = filter (matches title_of author_of (lower q2))
                    (search title_of author_of q1 values)).
    { rewrite !search_filter. symmetry. now apply filter_filter_implied. }
    split; [exact E|]. rewrite E. intros b Hb. now apply filter_In in Hb.
  - intros q. rewrite search_filter. apply filter_length_le.
  - intros q Hlong. rewrite search_filter. apply filter_none.
    intros book HI. destruct (Hlong book HI) as (Hti & Hai & Ht & Ha).
    pose proof (proj1 (do_lower_length [] q)) as Hq.
    pose proof (proj2 (do_lower_length [] (title_of book)) Hti) as Ht'.
    pose proof (proj2 (do_lower_length [] (author_of book)) Hai) as Ha'.
    unfold matches, lower. apply orb_false_iff.
    split; apply not_true_is_false; intros H; apply contains_length in H; lia.
Qed.

Lemma search_books_laws_witness :
  In (Book_init "B2" "Data Structures" "Jane Doe")
    (dict_values (books sample_library))
  /\ lower (text_of "JANE DOE") = lower (text_of "Jane Doe")
  /\ contains (lower (text_of "a")) (lower (text_of "Data")) = true
  /\ In (Book_init "B2" "Data Structures" "Jane Doe")
       (search_books "JANE DOE" sample_library)
  /\ incl (search_books "Data" sample_library) (search_books "a" sample_library)
  /\ search_books "The Art of Computer Programming" sample_library = [].
Proof.
  assert (HI : In (Book_init "B2" "Data Structures" "Jane Doe")
                 (dict_values (books sample_library))) by (right; left; reflexivity).
  assert (Hq : lower (text_of "JANE DOE") = lower (text_of "Jane Doe"))
    by (vm_compute; reflexivity).
  assert (Hc : contains (lower (text_of "a")) (lower (text_of "Data")) = true)
    by (vm_compute; reflexivity).
  split; [exact HI|]. split; [exact Hq|]. split; [exact Hc|].
  destruct (search_books_laws (fun book => text_of (title book))
              (fun book => text_of (author book))
              (dict_values (books sample_library))) as (H1 & H2 & _ & H4).
  split; [|split].
  - exact (H1 (text_of "JANE DOE") _ HI (or_intror Hq)).
  - exact (proj2 (H2 (text_of "a") (text_of "Data") Hc)).
  - apply (H4 (text_of "The Art of Computer Programming")).
    intros book Hb.
    assert (Hdot : forall s, ~ In 0x130%N (text_of s)).
    { intros s. apply text_of_plain. }
    split; [apply Hdot|]. split; [apply Hdot|].
    destruct Hb as [<-|[<-|[]]]; split; vm_compute; lia.
Defined.

(** Why the titles and authors of X13 have no dotted capital I: the title
    of eight characters that begins with it is found by a query of nine,
    its own lower-case form. *)
Example search_books_dotted_capital_i :
  List.length (fst dotted_book) = 8%nat
  /\ List.length dotted_query = 9%nat
  /\ lower (fst dotted_book) = dotted_query
  /\ search fst snd dotted_query [dotted_book] = [dotted_book].
Proof. repeat split; vm_compute; reflexivity. Qed.

(** ** The two shapes of a section, further *)

Lemma Book_kwargs_id o b k :
  subscript "book_id" o = Loaded k ->
  Book_kwargs o = Loaded b ->
  k = JStr (book_id b).
Proof.
  destruct o as [| | | | |kw]; cbn [subscript Book_kwargs]; try discriminate.
  destruct (dict_get "book_id" kw) as [v|]; [|discriminate].
  intros [= <-]. destruct (binds _ _ kw); [|discriminate].
  cbn [or_default].
  destruct v; cbn [as_str lbind]; try discriminate.
  repeat match goal with
    | |- context [lbind ?x _] => destruct x; cbn [lbind]; try discriminate
    end.
  now intros [= <-].
Qed.

Lemma Member_kwargs_id o m k :
  subscript "member_id" o = Loaded k ->
  Member_kwargs o = Loaded m ->
  k = JStr (member_id m).
Proof.
  destruct o as [| | | | |kw]; cbn [subscript Member_kwargs]; try discriminate.
  destruct (dict_get "member_id" kw) as [v|]; [|discriminate].
  intros [= <-]. destruct (binds _ _ kw); [|discriminate].
  cbn [or_default].
  destruct v; cbn [as_str lbind]; try discriminate.
  repeat match goal with
    | |- context [lbind ?x _] => destruct x; cbn [lbind]; try discriminate
    end.
  now intros [= <-].
Qed.

Lemma comprehension_keyed {A V : Type} (entry : A -> loaded (string * V))
    (id : V -> string) (l : list A) (acc d : pydict V) :
  (forall x k v, entry x = Loaded (k, v) -> id v = k) ->
  (forall k v, dict_get k acc = Some v -> id v = k) ->
  comprehension entry l acc = Loaded d ->
  forall k v, dict_get k d = Some v -> id v = k.
Proof.
  intros Hentry. revert acc. induction l as [|x l IH]; intros acc Hacc; cbn.
  - now intros [= <-].
  - destruct (entry x) as [[k0 v0]| |] eqn:E; cbn [lbind]; try discriminate.
    apply IH. intros k v. cbn [fst snd]. rewrite dict_get_set.
    destruct (String.eqb_spec k0 k) as [<-|Hne].
    + intros [= <-]. exact (Hentry x k0 v0 E).
    + apply Hacc.
Qed.

Lemma comprehension_file_keys {A V : Type} (entry : A -> loaded (string * V))
    (key : A -> string) (l : list A) (acc d : pydict V) :
  (forall x k v, entry x = Loaded (k, v) -> k = key x) ->
  NoDup (dict_keys acc ++ map key l) ->
  comprehension entry l acc = Loaded d ->
  dict_keys d = dict_keys acc ++ map key l.
Proof.
  intros Hentry. revert acc. induction l as [|x l IH]; intros acc Hnd; cbn.
  - intros [= <-]. now rewrite app_nil_r.
  - destruct (entry x) as [[k0 v0]| |] eqn:E; cbn [lbind]; try discriminate.
    cbn [fst snd]. rewrite (Hentry x k0 v0 E) in *.
    assert (Hfresh : dict_get (key x) acc = None).
    { apply dict_get_none_keys. intros HI.
      apply NoDup_remove_2 in Hnd. apply Hnd. apply in_or_app. now left. }
    rewrite (dict_set_fresh _ v0 acc Hfresh). intros H.
    apply IH in H.
    + rewrite H. unfold dict_keys. rewrite map_app, <- app_assoc. reflexivity.
    + unfold dict_keys. rewrite map_app, <- app_assoc. exact Hnd.
Qed.

(** X14.  A section in the legacy list shape is loaded with every entity
    under the id it carries; a section in the keyed shape is loaded with
    every entity under the key the file gives it, in the order of the
    file, and that key need not be the id the entity carries. *)
Theorem shapes_and_keys :
  (forall l bs,
      load_books (JArr l) = Loaded bs ->
      forall k b, dict_get k bs = Some b -> book_id b = k)
  /\ (forall l ms,
         load_members (JArr l) = Loaded ms ->
         forall k m, dict_get k ms = Some m -> member_id m = k)
  /\ (forall items bs,
         NoDup (map fst items) ->
         load_books (JObj items) = Loaded bs ->
         dict_keys bs = map fst items)
  /\ (forall items ms,
         NoDup (map fst items) ->
         load_members (JObj items) = Loaded ms ->
         dict_keys ms = map fst items)
  /\ load_books (JObj [("X", Book_dict (Book_init "Y" "Dune" "Frank Herbert"))])
     = Loaded [("X", Book_init "Y" "Dune" "Frank Herbert")].
Proof.
  split; [|split; [|split; [|split]]].
  - intros l bs. unfold load_books.
    apply (comprehension_keyed _ book_id); [|discriminate].
    intros o k b.
    destruct (subscript "book_id" o) as [kj| |] eqn:Es; cbn [lbind];
      try discriminate.
    destruct (Book_kwargs o) as [b0| |] eqn:Eb; cbn [lbind]; try discriminate.
    rewrite (Book_kwargs_id o b0 kj Es Eb). cbn. now intros [= <- <-].
  - intros l ms. unfold load_members.
    apply (comprehension_keyed _ member_id); [|discriminate].
    intros o k m.
    destruct (subscript "member_id" o) as [kj| |] eqn:Es; cbn [lbind];
      try discriminate.
    destruct (Member_kwargs o) as [m0| |] eqn:Em; cbn [lbind]; try discriminate.
    rewrite (Member_kwargs_id o m0 kj Es Em). cbn. now intros [= <- <-].
  - intros items bs Hnd. unfold load_books. intros H.
    apply (comprehension_file_keys _ fst items [] bs) in H; [exact H| |exact Hnd].
    intros kv k b. destruct (Book_kwargs (snd kv)); cbn [lbind]; try discriminate.
    now intros [= <- _].
  - intros items ms Hnd. unfold load_members. intros H.
    apply (comprehension_file_keys _ fst items [] ms) in H; [exact H| |exact Hnd].
    intros kv k m. destruct (Member_kwargs (snd kv)); cbn [lbind];
      try discriminate.
    now intros [= <- _].
  - reflexivity.
Qed.

Lemma shapes_and_keys_witness :
  load_books (JArr [Book_dict (Book_init "Y" "Dune" "Frank Herbert")])
  = Loaded [("Y", Book_init "Y" "Dune" "Frank Herbert")]
  /\ book_id (Book_init "Y" "Dune" "Frank Herbert") = "Y".
Proof.
  assert (Hl : load_books (JArr [Book_dict (Book_init "Y" "Dune" "Frank Herbert")])
               = Loaded [("Y", Book_init "Y" "Dune" "Frank Herbert")])
    by reflexivity.
  split; [exact Hl|].
  exact (proj1 shapes_and_keys _ _ Hl "Y" _ eq_refl).
Defined.

(** * Display *)

Lemma str_repeat_length c n : String.length (str_repeat c n) = n.
Proof. induction n as [|n IH]; cbn; [reflexivity|now rewrite IH]. Qed.

Lemma str_take_length n s :
  String.length (str_take n s) = Nat.min n (String.length s).
Proof.
  revert s. induction n as [|n IH]; intros [|c s]; cbn; try reflexivity.
  now rewrite IH.
Qed.

Lemma ljust_length width s :
  String.length (ljust width s) = Nat.max width (String.length s).
Proof. unfold ljust. rewrite string_app_length, str_repeat_length. lia. Qed.

Lemma shorten_length n s :
  String.length (shorten n s)
  = if Nat.ltb n (String.length s) then (n + 3)%nat else String.length s.
Proof.
  unfold shorten. destruct (Nat.ltb_spec n (String.length s)); [|reflexivity].
  rewrite string_app_length, str_take_length. cbn. lia.
Qed.

Lemma format_row_length a b c d :
  String.length (format_row a b c d)
  = (Nat.max 5 (String.length a) + Nat.max 20 (String.length b)
     + Nat.max 15 (String.length c) + Nat.max 35 (String.length d) + 9)%nat.
Proof.
  unfold format_row. rewrite !string_app_length, !ljust_length. cbn. lia.
Qed.

(** X15.  The rule that frames the table has 80 characters, the header
    has 84, and a row has 84 only when the id has at most 5 characters,
    the title at most 18, the author at most 13 and the status at most
    33: a longer id widens the row by its excess, and every field that is
    cut to make room for the three dots is one character wider than its
    column. *)
Theorem table_widths (L : Library) (book : Book) (status row : string) :
  status_of L book = Ok status ->
  book_row L book = Ok row ->
  String.length rule = 80%nat
  /\ String.length header = 84%nat
  /\ String.length row
     = (84 + (String.length (book_id book) - 5)
        + (if Nat.ltb 18 (String.length (title book)) then 1 else 0)
        + (if Nat.ltb 13 (String.length (author book)) then 1 else 0)
        + (if Nat.ltb 33 (String.length status) then 1 else 0))%nat.
Proof.
  intros Hs. unfold book_row. rewrite Hs. cbn [bind]. intros [= <-].
  split; [reflexivity|]. split; [reflexivity|].
  rewrite format_row_length, !shorten_length.
  destruct (Nat.ltb_spec 18 (String.length (title book)));
    destruct (Nat.ltb_spec 13 (String.length (author book)));
    destruct (Nat.ltb_spec 33 (String.length status)); lia.
Qed.

Lemma table_widths_witness :
  status_of sample_library (Book_init "B2" "Data Structures and Algorithms" "Jane Doe")
  = Ok "Available"
  /\ exists row,
       book_row sample_library
         (Book_init "B2" "Data Structures and Algorithms" "Jane Doe") = Ok row
       /\ String.length row = 85%nat.
Proof.
  split; [reflexivity|]. eexists. split; [reflexivity|].
  exact (proj2 (proj2 (table_widths sample_library
                         (Book_init "B2" "Data Structures and Algorithms" "Jane Doe")
                         "Available" _ eq_refl eq_refl))).
Defined.

Lemma print_all_app xs ys w : print_all (xs ++ ys) w = print_all ys (print_all xs w).
Proof. unfold print_all. apply fold_left_app. Qed.

Lemma print_all_world texts w :
  lib (print_all texts w) = lib w
  /\ disk (print_all texts w) = disk w
  /\ trace (print_all texts w) = trace w ++ map Printed texts.
Proof.
  revert w. induction texts as [|t texts IH]; intros w.
  - cbn. now rewrite app_nil_r.
  - change (print_all (t :: texts) w) with (print_all texts (print t w)).
    destruct (IH (print t w)) as (H1 & H2 & H3). rewrite H1, H2, H3. cbn.
    now rewrite <- app_assoc.
Qed.

Lemma status_of_known L book :
  (is_available book = false -> members_at (borrower book) (members L) <> None) ->
  exists status, status_of L book = Ok status.
Proof.
  intros H. unfold status_of. destruct (is_available book); [now eexists|].
  destruct (members_at _ _) as [[k m]|]; [now eexists|]. now destruct H.
Qed.

Lemma book_row_known L book :
  (is_available book = false -> members_at (borrower book) (members L) <> None) ->
  exists row, book_row L book = Ok row.
Proof.
  intros H. destruct (status_of_known L book H) as [status Hs].
  unfold book_row. rewrite Hs. now eexists.
Qed.

Lemma print_rows_returns bs w :
  borrowers_known (lib w) bs ->
  exists rows,
    Forall2 (fun book row => book_row (lib w) book = Ok row) bs rows
    /\ print_rows bs w = Return tt (print_all rows w).
Proof.
  intros H. revert w H. induction bs as [|book bs IH]; intros w H.
  - exists []. split; [constructor|reflexivity].
  - inversion H as [|? ? Hbook Hbs]; subst.
    destruct (book_row_known _ _ Hbook) as [row Hrow].
    destruct (IH (print row w) Hbs) as (rows & Hrows & Hrun).
    exists (row :: rows). split.
    + constructor; [exact Hrow|exact Hrows].
    + cbn [print_rows]. rewrite Hrow. exact Hrun.
Qed.

Lemma print_rows_raises pre book post w :
  borrowers_known (lib w) pre ->
  is_available book = false ->
  members_at (borrower book) (members (lib w)) = None ->
  exists rows,
    Forall2 (fun book row => book_row (lib w) book = Ok row) pre rows
    /\ print_rows (pre ++ book :: post) w
       = Raised (KeyError (borrower book)) (print_all rows w).
Proof.
  intros H Hav Hm. revert w H Hm. induction pre as [|b pre IH]; intros w H Hm.
  - exists []. split; [constructor|]. cbn. unfold book_row, status_of.
    now rewrite Hav, Hm.
  - inversion H as [|? ? Hb Hpre]; subst.
    destruct (book_row_known _ _ Hb) as [row Hrow].
    destruct (IH (print row w) Hpre Hm) as (rows & Hrows & Hrun).
    exists (row :: rows). split.
    + constructor; [exact Hrow|exact Hrows].
    + cbn [print_rows app]. rewrite Hrow. exact Hrun.
Qed.

Lemma store_inv_borrowers_known L :
  store_inv L -> dict_wf (books L) -> borrowers_known L (dict_values (books L)).
Proof.
  intros (HA & _) Hwf. apply Forall_forall. intros book HI Hav.
  apply in_map_iff in HI as ([k b] & <- & HI). cbn [snd] in *.
  pose proof (dict_in_get k b _ Hwf HI) as Hget.
  destruct (HA k b Hget) as (H1 & _).
  destruct (H1 Hav) as (mid & m & Hbo & Hm & _).
  rewrite Hbo. cbn. now rewrite Hm.
Qed.

(** X16.  When the borrower of every lent book is a member,
    [display_books] returns after printing a title, a rule, the header, a
    rule, one row for each book of the catalogue in its order and a last
    rule; the store and the file are untouched.  That is the case in
    every store that satisfies the invariant of the operations.  When a
    lent book names a borrower who is not a member, [display_books]
    raises [KeyError] at the first such book, having printed the rows of
    the books before it. *)
Theorem display_books_prints (w : World) :
  (borrowers_known (lib w) (dict_values (books (lib w))) ->
   exists rows w',
     display_books w = Return tt w'
     /\ Forall2 (fun book row => book_row (lib w) book = Ok row)
          (dict_values (books (lib w))) rows
     /\ lib w' = lib w /\ disk w' = disk w
     /\ trace w'
        = trace w
          ++ map Printed
               ([(newline ++ "Library Books:")%string; rule; header; rule]
                ++ rows ++ [rule]))
  /\ (store_inv (lib w) -> dict_wf (books (lib w)) ->
      borrowers_known (lib w) (dict_values (books (lib w))))
  /\ (forall pre book post,
         dict_values (books (lib w)) = pre ++ book :: post ->
         borrowers_known (lib w) pre ->
         is_available book = false ->
         members_at (borrower book) (members (lib w)) = None ->
         exists rows w',
           display_books w = Raised (KeyError (borrower book)) w'
           /\ List.length rows = List.length pre
           /\ lib w' = lib w /\ disk w' = disk w
           /\ trace w'
              = trace w
                ++ map Printed
                     ([(newline ++ "Library Books:")%string; rule; header; rule]
                      ++ rows)).
Proof.
  set (top := [(newline ++ "Library Books:")%string; rule; header; rule]).
  assert (Htop : forall w0, print rule (print header (print rule
                   (print (newline ++ "Library Books:")%string w0)))
                 = print_all top w0) by reflexivity.
  split; [|split].
  - intros Hk. unfold display_books. cbv zeta. rewrite Htop.
    destruct (print_all_world top w) as (L1 & D1 & T1).
    rewrite L1.
    assert (Hk1 : borrowers_known (lib (print_all top w))
                    (dict_values (books (lib w)))) by now rewrite L1.
    destruct (print_rows_returns _ _ Hk1) as (rows & Hrows & Hrun).
    rewrite L1 in Hrows. rewrite Hrun.
    exists rows. eexists. split; [reflexivity|]. split; [exact Hrows|].
    destruct (print_all_world rows (print_all top w)) as (L2 & D2 & T2).
    cbn [print lib disk trace]. rewrite L2, D2, T2, L1, D1, T1.
    repeat split. rewrite !map_app, <- !app_assoc. reflexivity.
  - apply store_inv_borrowers_known.
  - intros pre book post Hvals Hpre Hav Hm. unfold display_books. cbv zeta.
    rewrite Htop. destruct (print_all_world top w) as (L1 & D1 & T1).
    rewrite L1, Hvals.
    assert (Hk1 : borrowers_known (lib (print_all top w)) pre) by now rewrite L1.
    assert (Hm1 : members_at (borrower book) (members (lib (print_all top w)))
                  = None) by now rewrite L1.
    destruct (print_rows_raises pre book post _ Hk1 Hav Hm1)
      as (rows & Hrows & Hrun).
    rewrite Hrun. exists rows. eexists. split; [reflexivity|].
    split; [symmetry; exact (Forall2_length Hrows)|].
    destruct (print_all_world rows (print_all top w)) as (L2 & D2 & T2).
    rewrite L2, D2, T2, L1, D1, T1.
    repeat split. rewrite !map_app, <- !app_assoc. reflexivity.
Qed.

Lemma display_books_prints_witness :
  borrowers_known (lib sample_world) (dict_values (books (lib sample_world)))
  /\ (exists (rows : list string) w',
         display_books sample_world = Return tt w'
         /\ List.length rows = 2%nat
         /\ lib w' = lib sample_world)
  /\ exists w', display_books orphan_world = Raised (KeyError (Some "M9")) w'.
Proof.
  assert (Hk : borrowers_known (lib sample_world)
                 (dict_values (books (lib sample_world)))).
  { repeat constructor; cbn; discriminate. }
  split; [exact Hk|].
  destruct (display_books_prints sample_world) as (Hret & _).
  destruct (display_books_prints orphan_world) as (_ & _ & Hraise).
  split.
  - destruct (Hret Hk) as (rows & w' & Hrun & Hrows & Hlib & _).
    exists rows, w'. split; [exact Hrun|].
    split; [symmetry; exact (Forall2_length Hrows)|exact Hlib].
  - destruct (Hraise [] _ [] eq_refl (Forall_nil _) eq_refl eq_refl)
      as (rows & w' & Hrun & _).
    exists w'. exact Hrun.
Defined.

(** X17.  [display_search_results] prints one line, that no book was
    found, when the search finds nothing; when it finds books whose
    borrowers are members it prints a title, a rule, the header, a rule,
    one row for each book found in the order of the search and a last
    rule.  In both cases it returns with the store and the file
    untouched. *)
Theorem display_search_results_prints (query : string) (w : World) :
  (search_books query (lib w) = [] ->
   display_search_results query w
   = Return tt
       (print (newline ++ "No books found matching '" ++ query ++ "'")%string w))
  /\ (search_books query (lib w) <> [] ->
      borrowers_known (lib w) (search_books query (lib w)) ->
      exists rows w',
        display_search_results query w = Return tt w'
        /\ Forall2 (fun book row => book_row (lib w) book = Ok row)
             (search_books query (lib w)) rows
        /\ lib w' = lib w /\ disk w' = disk w
        /\ trace w'
           = trace w
             ++ map Printed
                  ([(newline ++ "Search results for '" ++ query ++ "':")%string;
                    rule; header; rule]
                   ++ rows ++ [rule])).
Proof.
  split.
  - intros H. unfold display_search_results. cbv zeta. now rewrite H.
  - intros Hne Hk. unfold display_search_results. cbv zeta.
    destruct (search_books query (lib w)) as [|b bs] eqn:E; [congruence|].
    set (top := [(newline ++ "Search results for '" ++ query ++ "':")%string;
                 rule; header; rule]).
    change (print rule (print header (print rule (print _ w))))
      with (print_all top w).
    destruct (print_all_world top w) as (L1 & D1 & T1).
    assert (Hk1 : borrowers_known (lib (print_all top w)) (b :: bs))
      by now rewrite L1.
    destruct (print_rows_returns _ _ Hk1) as (rows & Hrows & Hrun).
    rewrite L1 in Hrows. rewrite Hrun.
    exists rows. eexists. split; [reflexivity|]. split; [exact Hrows|].
    destruct (print_all_world rows (print_all top w)) as (L2 & D2 & T2).
    cbn [print lib disk trace]. rewrite L2, D2, T2, L1, D1, T1.
    repeat split. rewrite !map_app, <- !app_assoc. reflexivity.
Qed.

Lemma display_search_results_prints_witness :
  search_books "tolkien" (lib sample_world) = []
  /\ trace (after (display_search_results "tolkien" sample_world))
     = [Printed (newline ++ "No books found matching 'tolkien'")%string].
Proof.
  assert (H : search_books "tolkien" (lib sample_world) = []) by reflexivity.
  split; [exact H|].
  rewrite (proj1 (display_search_results_prints "tolkien" sample_world) H).
  reflexivity.
Defined.

(** * The example script *)

Example format_2f_examples :
  format_2f 2 = "2.00" /\ format_2f (5 # 2) = "2.50" /\ format_2f (1 # 8) = "0.12"
  /\ format_2f (3 # 8) = "0.38" /\ format_2f 120 = "120.00".
Proof. repeat split; reflexivity. Qed.

Lemma perform_sound c w :
  call_in_calendar c -> sound (lib w) -> sound (lib (perform c w)).
Proof.
  intros Hcal (H1 & H2 & H3). destruct (perform_change c w) as (o & Hch & Ho).
  pose proof Hch as Hch'. rewrite (Ho Hcal) in Hch'.
  split; [|split].
  - exact (change_store_inv _ _ Hch' H1).
  - exact (change_due_dates_parse _ _ Hch' H2).
  - exact (change_well_formed _ _ _ Hch H3).
Qed.

Lemma perform_keeps_entries c w :
  (forall k, dict_get k (books (lib w)) <> None ->
             dict_get k (books (lib (perform c w))) <> None)
  /\ (forall k, dict_get k (members (lib w)) <> None ->
                dict_get k (members (lib (perform c w))) <> None).
Proof.
  destruct (perform_change c w) as (o & Hch & _).
  destruct (change_identity _ _ _ Hch) as [Hb Hm]. split; intros k Hk.
  - destruct (dict_get k (books (lib w))) as [b|] eqn:E; [|congruence].
    destruct (Hb k b E) as (b' & -> & _). discriminate.
  - destruct (dict_get k (members (lib w))) as [m|] eqn:E; [|congruence].
    destruct (Hm k m E) as (m' & -> & _). discriminate.
Qed.

Lemma add_book_returns bid t a w :
  exists r, add_book bid t a w = Return r (perform (AddBook bid t a) w).
Proof. cbn [perform]. unfold add_book. destruct (negb _); now eexists. Qed.

Lemma add_member_returns mid n e w :
  exists r, add_member mid n e w = Return r (perform (AddMember mid n e) w).
Proof. cbn [perform]. unfold add_member. destruct (negb _); now eexists. Qed.

Lemma borrow_book_returns bid mid now w :
  due_in_calendar now ->
  exists r, borrow_book bid mid now w = Return r (perform (BorrowBook bid mid now) w).
Proof.
  intros Hcal. cbn [perform]. unfold borrow_book.
  destruct (dict_get bid (books (lib w))) as [book|]; [|now eexists].
  destruct (dict_get mid (members (lib w))) as [member|]; [|now eexists].
  destruct (is_available book); [|now eexists].
  rewrite (add_days_in_calendar now Hcal). now eexists.
Qed.

Lemma add_book_present bid t a w :
  dict_get bid (books (lib (perform (AddBook bid t a) w))) <> None.
Proof.
  cbn [perform]. unfold add_book. rewrite dict_mem_get.
  destruct (dict_get bid (books (lib w))) eqn:E; cbn [negb after].
  - congruence.
  - cbn. rewrite dict_get_set_eq. discriminate.
Qed.

Lemma add_member_present mid n e w :
  dict_get mid (members (lib (perform (AddMember mid n e) w))) <> None.
Proof.
  cbn [perform]. unfold add_member. rewrite dict_mem_get.
  destruct (dict_get mid (members (lib w))) eqn:E; cbn [negb after].
  - congruence.
  - cbn. rewrite dict_get_set_eq. discriminate.
Qed.

Lemma borrow_book_lends bid mid now w :
  dict_get bid (books (lib w)) <> None ->
  dict_get mid (members (lib w)) <> None ->
  due_in_calendar now ->
  exists b,
    dict_get bid (books (lib (perform (BorrowBook bid mid now) w))) = Some b
    /\ is_available b = false.
Proof.
  intros Hb Hm Hcal. cbn [perform]. unfold borrow_book.
  destruct (dict_get bid (books (lib w))) as [book|] eqn:Eb; [|congruence].
  destruct (dict_get mid (members (lib w))) as [member|] eqn:Em; [|congruence].
  destruct (is_available book) eqn:Hav.
  - rewrite (add_days_in_calendar now Hcal). cbn. rewrite dict_set_set.
    rewrite dict_get_set_eq. now eexists.
  - exists book. now split.
Qed.

Lemma sound_borrowers_known L q :
  sound L ->
  borrowers_known L (dict_values (books L))
  /\ borrowers_known L (search_books q L).
Proof.
  intros (Hinv & _ & Hwf & _).
  pose proof (store_inv_borrowers_known L Hinv Hwf) as H.
  split; [exact H|].
  unfold borrowers_known in *. rewrite Forall_forall in *.
  intros book HI. apply H. rewrite search_books_filter in HI.
  now apply filter_In in HI.
Qed.

Lemma display_books_returns w :
  borrowers_known (lib w) (dict_values (books (lib w))) ->
  exists w', display_books w = Return tt w' /\ lib w' = lib w /\ disk w' = disk w.
Proof.
  intros Hk. unfold display_books. cbv zeta.
  set (w1 := print rule (print header (print rule (print _ w)))).
  assert (Hk1 : borrowers_known (lib w1) (dict_values (books (lib w)))) by exact Hk.
  destruct (print_rows_returns _ _ Hk1) as (rows & _ & Hrun).
  change (lib w1) with (lib w). rewrite Hrun.
  destruct (print_all_world rows w1) as (L2 & D2 & _).
  eexists. split; [reflexivity|]. cbn [print lib disk]. now rewrite L2, D2.
Qed.

Lemma display_search_results_returns q w :
  borrowers_known (lib w) (search_books q (lib w)) ->
  exists w',
    display_search_results q w = Return tt w' /\ lib w' = lib w /\ disk w' = disk w.
Proof.
  intros Hk. unfold display_search_results. cbv zeta.
  destruct (search_books q (lib w)) as [|b bs] eqn:E.
  - eexists. split; [reflexivity|]. now split.
  - set (w1 := print rule (print header (print rule (print _ w)))).
    assert (Hk1 : borrowers_known (lib w1) (b :: bs)) by exact Hk.
    destruct (print_rows_returns _ _ Hk1) as (rows & _ & Hrun).
    rewrite Hrun. destruct (print_all_world rows w1) as (L2 & D2 & _).
    eexists. split; [reflexivity|]. cbn [print lib disk]. now rewrite L2, D2.
Qed.

(** [return_book] on a sound store returns the book. *)
Lemma return_book_sound w bid now book :
  sound (lib w) ->
  dict_get bid (books (lib w)) = Some book ->
  is_available book = false ->
  exists fine w',
    return_book bid now w = Return (true, fine) w'
    /\ sound (lib w')
    /\ dict_get bid (books (lib w')) = Some (shelved book)
    /\ synced w'.
Proof.
  intros Hs Hb Hav. pose proof Hs as (Hinv & Hp & Hwf).
  destruct (return_book_outcome_under_inv w bid now book Hinv Hb Hav)
    as [(fine & w' & Hret)|[_ Hfine]].
  - exists fine, w'. split; [exact Hret|].
    pose proof (perform_sound (ReturnBook bid now) w I Hs) as Hs'.
    cbn [perform] in Hs'. rewrite Hret in Hs'. cbn [after] in Hs'.
    split; [exact Hs'|].
    destruct (return_book_true _ _ _ _ _ Hret)
      as (_ & book' & mk & member & rest & Hb' & _ & _ & _ & _ & ->).
    assert (book' = book) as -> by congruence.
    split; [cbn; apply dict_get_set_eq|reflexivity].
  - destruct (Hp bid book Hb Hav) as (s & due & Hs' & Hdue).
    rewrite (calculate_fine_dated _ _ now _ _ _ Hb Hav Hs' Hdue) in Hfine.
    discriminate.
Qed.

(** The script on a sound store: it returns, "B1" is on the shelf at the
    end, and the file holds the store. *)
Lemma script_ends (t_borrow t_return : datetime) (w : World) :
  sound (lib w) ->
  due_in_calendar t_borrow ->
  exists w' b1,
    script t_borrow t_return w = Return tt w'
    /\ sound (lib w')
    /\ dict_get "B1" (books (lib w')) = Some b1
    /\ is_available b1 = true
    /\ dict_get "B2" (books (lib w')) <> None
    /\ dict_get "M1" (members (lib w')) <> None
    /\ disk w' = Document (dump (lib w')).
Proof.
  intros Hs Hcal. unfold script, script_loan.
  set (c1 := AddBook "B1" "Python Programming" "John Smith").
  set (c2 := AddBook "B2" "Data Structures" "Jane Doe").
  set (c3 := AddMember "M1" "Alice Brown" "alice@email.com").
  set (c4 := BorrowBook "B1" "M1" t_borrow).
  destruct (add_book_returns "B1" "Python Programming" "John Smith" w) as [r1 ->].
  cbn [and_then]. fold c1. set (w1 := perform c1 w).
  destruct (add_book_returns "B2" "Data Structures" "Jane Doe" w1) as [r2 ->].
  cbn [and_then]. fold c2. set (w2 := perform c2 w1).
  destruct (add_member_returns "M1" "Alice Brown" "alice@email.com" w2) as [r3 ->].
  cbn [and_then]. fold c3. set (w3 := perform c3 w2).
  destruct (borrow_book_returns "B1" "M1" t_borrow w3 Hcal) as [r4 ->].
  cbn [and_then]. fold c4. set (w4 := perform c4 w3).
  assert (Hs4 : sound (lib w4)).
  { apply perform_sound; [exact Hcal|]. apply perform_sound; [exact I|].
    apply perform_sound; [exact I|]. apply perform_sound; [exact I|exact Hs]. }
  assert (HB1 : dict_get "B1" (books (lib w3)) <> None).
  { apply perform_keeps_entries, perform_keeps_entries. apply add_book_present. }
  assert (HB2 : dict_get "B2" (books (lib w4)) <> None).
  { apply perform_keeps_entries, perform_keeps_entries. apply add_book_present. }
  assert (HM1 : dict_get "M1" (members (lib w3)) <> None)
    by apply add_member_present.
  assert (HM4 : dict_get "M1" (members (lib w4)) <> None)
    by now apply perform_keeps_entries.
  destruct (borrow_book_lends "B1" "M1" t_borrow w3 HB1 HM1 Hcal)
    as (b & Hb & Hav).
  fold c4 in Hb. fold w4 in Hb.
  set (w4' := print _ w4).
  destruct (display_search_results_returns "Python" w4') as (w5 & -> & L5 & D5).
  { exact (proj2 (sound_borrowers_known (lib w4) "Python" Hs4)). }
  cbn [and_then].
  change (lib w4') with (lib w4) in L5.
  assert (Hs5 : sound (lib w5)) by now rewrite L5.
  assert (Hb5 : dict_get "B1" (books (lib w5)) = Some b) by now rewrite L5.
  destruct (return_book_sound w5 "B1" t_return b Hs5 Hb5 Hav)
    as (fine & w6 & Hret & Hs6 & Hb6 & Hsync).
  rewrite Hret. cbn [and_then fst snd].
  set (w7 := if 0 <? Qnum fine then _ else _).
  assert (L7 : lib w7 = lib w6 /\ disk w7 = disk w6).
  { subst w7. destruct (0 <? Qnum fine); split; reflexivity. }
  destruct L7 as [L7 D7].
  destruct (display_books_returns w7) as (w8 & -> & L8 & D8).
  { rewrite L7. exact (proj1 (sound_borrowers_known (lib w6) "" Hs6)). }
  exists w8, (shelved b). split; [reflexivity|].
  rewrite L8, D8, L7, D7.
  split; [exact Hs6|]. split; [exact Hb6|]. split; [reflexivity|].
  pose proof (perform_keeps_entries (ReturnBook "B1" t_return) w5) as [Kb Km].
  cbn [perform] in Kb, Km. rewrite Hret in Kb, Km. cbn [after] in Kb, Km.
  rewrite L5 in Kb, Km.
  split; [now apply Kb|]. split; [now apply Km|exact Hsync].
Qed.

Lemma dict_set_same {V : Type} k (v : V) d :
  dict_get k d = Some v -> dict_set k v d = d.
Proof.
  induction d as [|[k0 v0] d IH]; cbn; [discriminate|].
  destruct (String.eqb_spec k k0) as [->|Hne].
  - now intros [= ->].
  - intros H. now rewrite IH.
Qed.

(** On a sound store in which "B1" is on the shelf and "M1" is a member,
    the loan and the return of the script cancel. *)
Lemma script_loan_restores t_borrow t_return w b1 :
  sound (lib w) ->
  dict_get "B1" (books (lib w)) = Some b1 ->
  is_available b1 = true ->
  dict_get "M1" (members (lib w)) <> None ->
  due_in_calendar t_borrow ->
  exists w',
    script_loan t_borrow t_return w = Return tt w'
    /\ lib w' = lib w
    /\ disk w' = Document (dump (lib w)).
Proof.
  intros Hs Hb Hav Hm Hcal.
  destruct (dict_get "M1" (members (lib w))) as [m1|] eqn:Em; [|congruence].
  clear Hm. pose proof Hs as ((HA & HB & HC) & _ & _).
  destruct (HA "B1" b1 Hb) as (_ & H2 & H3 & H4).
  pose proof (HB "B1" b1 Hb) as Hid.
  assert (Hnot : ~ In "B1" (borrowed_books m1)).
  { rewrite <- Hid. exact (H2 Hav "M1" m1 Em). }
  assert (Hshelf : shelved b1 = b1).
  { destruct b1 as [i t a av bo du]; cbn in *. unfold shelved. cbn.
    rewrite Hav, (proj1 H3 Hav), (proj1 H4 Hav). reflexivity. }
  assert (Hs4 : sound (lib (perform (BorrowBook "B1" "M1" t_borrow) w)))
    by now apply perform_sound.
  unfold script_loan. cbn [perform] in Hs4. revert Hs4.
  unfold borrow_book. rewrite Hb, Em, Hav, (add_days_in_calendar _ Hcal).
  cbn [after and_then].
  set (due := {| ordinal := ordinal t_borrow + 14; micros := micros t_borrow |}).
  set (w4 := save_data _). intros Hs4.
  assert (L4 : lib w4
               = {| books := dict_set "B1" (lent "M1" due b1) (books (lib w));
                    members :=
                      dict_set "M1"
                        (with_borrowed_books (borrowed_books m1 ++ ["B1"]) m1)
                        (members (lib w));
                    fine_rate := fine_rate (lib w) |}).
  { subst w4. cbn. now rewrite dict_set_set. }
  set (w4' := print _ w4).
  destruct (display_search_results_returns "Python" w4') as (w5 & -> & L5 & D5).
  { exact (proj2 (sound_borrowers_known (lib w4) "Python" Hs4)). }
  cbn [and_then]. change (lib w4') with (lib w4) in L5.
  assert (Hs5 : sound (lib w5)) by now rewrite L5.
  assert (Hb5 : dict_get "B1" (books (lib w5)) = Some (lent "M1" due b1)).
  { rewrite L5, L4. cbn. apply dict_get_set_eq. }
  destruct (return_book_sound w5 "B1" t_return _ Hs5 Hb5 eq_refl)
    as (fine & w6 & Hret & _ & _ & Hsync).
  rewrite Hret. cbn [and_then fst snd].
  destruct (return_book_true _ _ _ _ _ Hret)
    as (_ & book & mk & member & rest & Hb' & _ & Hbo & Hm' & Hrest & E6).
  rewrite Hb5 in Hb'. injection Hb' as <-. cbn in Hbo. injection Hbo as <-.
  rewrite L5, L4 in Hm'. cbn [members] in Hm'. rewrite dict_get_set_eq in Hm'.
  injection Hm' as <-. cbn [borrowed_books with_borrowed_books] in Hrest.
  rewrite (list_remove_appended "B1" _ Hnot) in Hrest. injection Hrest as <-.
  assert (L6 : lib w6 = lib w).
  { rewrite E6. cbn. rewrite L5, L4. cbn. rewrite !dict_set_set.
    replace (shelved (lent "M1" due b1)) with b1
      by (rewrite <- Hshelf at 1; reflexivity).
    rewrite (dict_set_same "B1" b1 _ Hb).
    replace (with_borrowed_books (borrowed_books m1)
               (with_borrowed_books (borrowed_books m1 ++ ["B1"]) m1))
      with m1 by now destruct m1.
    rewrite (dict_set_same "M1" m1 _ Em). now destruct (lib w). }
  set (w7 := if 0 <? Qnum fine then _ else _).
  assert (L7 : lib w7 = lib w6 /\ disk w7 = disk w6).
  { subst w7. destruct (0 <? Qnum fine); split; reflexivity. }
  destruct L7 as [L7 D7].
  destruct (display_books_returns w7) as (w8 & -> & L8 & D8).
  { rewrite L7, L6. exact (proj1 (sound_borrowers_known (lib w) "" Hs)). }
  exists w8. split; [reflexivity|]. rewrite L8, D8, L7, D7, <- L6.
  split; [reflexivity|exact Hsync].
Qed.

Lemma add_book_existing bid t a w :
  dict_get bid (books (lib w)) <> None -> add_book bid t a w = Return false w.
Proof.
  intros H. unfold add_book. rewrite dict_mem_get.
  now destruct (dict_get bid (books (lib w))).
Qed.

Lemma add_member_existing mid n e w :
  dict_get mid (members (lib w)) <> None -> add_member mid n e w = Return false w.
Proof.
  intros H. unfold add_member. rewrite dict_mem_get.
  now destruct (dict_get mid (members (lib w))).
Qed.

Lemma script_on_stocked t_borrow t_return w b1 :
  sound (lib w) ->
  dict_get "B1" (books (lib w)) = Some b1 ->
  is_available b1 = true ->
  dict_get "B2" (books (lib w)) <> None ->
  dict_get "M1" (members (lib w)) <> None ->
  due_in_calendar t_borrow ->
  exists w',
    script t_borrow t_return w = Return tt w'
    /\ lib w' = lib w
    /\ disk w' = Document (dump (lib w)).
Proof.
  intros Hs Hb Hav HB2 HM1 Hcal. unfold script.
  rewrite add_book_existing by congruence. cbn [and_then].
  rewrite add_book_existing by exact HB2. cbn [and_then].
  rewrite add_member_existing by exact HM1. cbn [and_then].
  now apply (script_loan_restores t_borrow t_return w b1).
Qed.

Lemma sound_empty : sound (lib empty_world).
Proof.
  split; [exact empty_world_inv|]. split.
  - intros k b H. discriminate H.
  - repeat split; constructor.
Qed.

Lemma script_from_scratch t_borrow t_return :
  due_in_calendar t_borrow ->
  exists w',
    script t_borrow t_return empty_world = Return tt w'
    /\ lib w' = script_library.
Proof.
  intros Hcal. unfold script.
  set (calls := [AddBook "B1" "Python Programming" "John Smith";
                 AddBook "B2" "Data Structures" "Jane Doe";
                 AddMember "M1" "Alice Brown" "alice@email.com"]).
  assert (Hs3 : sound (lib (run calls empty_world))).
  { cbn [run calls fold_left]. repeat (apply perform_sound; [exact I|]).
    exact sound_empty. }
  assert (E1 : add_book "B1" "Python Programming" "John Smith" empty_world
               = Return true
                   (perform (AddBook "B1" "Python Programming" "John Smith")
                      empty_world)) by reflexivity.
  rewrite E1. cbn [and_then].
  set (w1 := perform _ empty_world) in *.
  assert (E2 : add_book "B2" "Data Structures" "Jane Doe" w1
               = Return true (perform (AddBook "B2" "Data Structures" "Jane Doe") w1))
    by reflexivity.
  rewrite E2. cbn [and_then]. set (w2 := perform _ w1) in *.
  assert (E3 : add_member "M1" "Alice Brown" "alice@email.com" w2
               = Return true
                   (perform (AddMember "M1" "Alice Brown" "alice@email.com") w2))
    by reflexivity.
  rewrite E3. cbn [and_then]. set (w3 := perform _ w2) in *.
  change (run calls empty_world) with w3 in Hs3.
  assert (L3 : lib w3 = script_library) by reflexivity.
  destruct (script_loan_restores t_borrow t_return w3
              (Book_init "B1" "Python Programming" "John Smith") Hs3)
    as (w' & Hrun & Hlib & _); try reflexivity; try exact Hcal.
  { rewrite L3. cbn. discriminate. }
  exists w'. split; [exact Hrun|]. now rewrite Hlib.
Qed.

(** X18.  Started on any file that loads to a store satisfying the
    invariant of the operations with dates as due dates, the program runs
    to its end without an exception: "B1", "B2" and "M1" exist
    afterwards, "B1" is available, the invariant holds again and the file
    holds the store.  [return_book] always succeeds in the script, also
    when "B1" was lent to some other member before the program began. *)
Theorem main_runs (f : file) (w : World) (t_borrow t_return : datetime) :
  Library_init f = Loaded w ->
  store_inv (lib w) ->
  due_dates_parse (lib w) ->
  due_in_calendar t_borrow ->
  exists w' b1,
    main f t_borrow t_return = Loaded (Return tt w')
    /\ store_inv (lib w')
    /\ dict_get "B1" (books (lib w')) = Some b1
    /\ is_available b1 = true
    /\ dict_get "B2" (books (lib w')) <> None
    /\ dict_get "M1" (members (lib w')) <> None
    /\ disk w' = Document (dump (lib w')).
Proof.
  intros Hload Hinv Hp Hcal.
  pose proof (Library_init_loaded f w Hload) as (Hwf & _).
  destruct (script_ends t_borrow t_return w (conj Hinv (conj Hp Hwf)) Hcal)
    as (w' & b1 & Hrun & (Hinv' & _) & Hrest).
  exists w', b1. unfold main. rewrite Hload. cbn [lbind]. rewrite Hrun.
  split; [reflexivity|]. split; [exact Hinv'|exact Hrest].
Qed.

Lemma main_runs_witness :
  Library_init (Document (dump sample_library))
  = Loaded {| lib := sample_library; disk := Document (dump sample_library);
              trace := [] |}
  /\ exists w' b1,
       main (Document (dump sample_library)) (datetime_of 2024 3 1 0)
         (datetime_of 2024 3 30 0) = Loaded (Return tt w')
       /\ dict_get "B1" (books (lib w')) = Some b1
       /\ is_available b1 = true.
Proof.
  assert (Hload : Library_init (Document (dump sample_library))
                  = Loaded {| lib := sample_library;
                              disk := Document (dump sample_library);
                              trace := [] |}) by reflexivity.
  split; [exact Hload|].
  assert (Hinv : store_inv sample_library).
  { pose proof (run_keeps_inv
                  [AddBook "B1" "Python Programming" "John Smith";
                   AddBook "B2" "Data Structures" "Jane Doe";
                   AddMember "M1" "Alice Brown" "alice@email.com";
                   BorrowBook "B1" "M1" (datetime_of 2024 3 1 0)] empty_world) as H.
    assert (Hcalls : Forall call_in_calendar
                       [AddBook "B1" "Python Programming" "John Smith";
                        AddBook "B2" "Data Structures" "Jane Doe";
                        AddMember "M1" "Alice Brown" "alice@email.com";
                        BorrowBook "B1" "M1" (datetime_of 2024 3 1 0)])
      by (repeat constructor; vm_compute; discriminate).
    exact (H Hcalls empty_world_inv). }
  assert (Hp : due_dates_parse sample_library).
  { intros k b Hk Hav. cbn in Hk.
    destruct (String.eqb k "B1"); [|destruct (String.eqb k "B2")];
      try discriminate; injection Hk as <-; try discriminate Hav.
    exists "2024-03-15". eexists. split; reflexivity. }
  assert (Hcal : due_in_calendar (datetime_of 2024 3 1 0))
    by (split; vm_compute; discriminate).
  destruct (main_runs _ _ (datetime_of 2024 3 1 0) (datetime_of 2024 3 30 0)
              Hload Hinv Hp Hcal)
    as (w' & b1 & Hrun & _ & Hb & Hav & _).
  exists w', b1. now repeat split.
Defined.

(** X19.  Run the program on any file that loads to a store satisfying
    the invariant of the operations with dates as due dates, and run it
    again on the file the first run leaves: both runs end without an
    exception, and the second ends with the store and the file of the
    first.  Started without a file, the program ends with the two books
    on the shelf and the member without loans. *)
Theorem main_twice (f : file) (w : World) (t1 t2 t3 t4 : datetime) :
  Library_init f = Loaded w ->
  store_inv (lib w) ->
  due_dates_parse (lib w) ->
  due_in_calendar t1 ->
  due_in_calendar t3 ->
  exists w1 w2,
    main f t1 t2 = Loaded (Return tt w1)
    /\ main (disk w1) t3 t4 = Loaded (Return tt w2)
    /\ lib w2 = lib w1
    /\ disk w2 = disk w1
    /\ (f = Absent -> lib w1 = script_library).
Proof.
  intros Hload Hinv Hp Hc1 Hc3.
  pose proof (Library_init_loaded f w Hload) as (Hwf & _ & Hcases).
  assert (Hs : sound (lib w)) by exact (conj Hinv (conj Hp Hwf)).
  destruct (script_ends t1 t2 w Hs Hc1)
    as (w1 & b1 & Hrun & Hs1 & Hb1 & Hav1 & HB2 & HM1 & Hsync).
  pose proof Hs1 as (_ & _ & Hwf1).
  destruct (synced_recoverable w1 Hwf1 Hsync) as (w1r & Hreload & Lr).
  assert (Hs1r : sound (lib w1r)) by now rewrite Lr.
  assert (Hb1r : dict_get "B1" (books (lib w1r)) = Some b1) by now rewrite Lr.
  assert (HB2r : dict_get "B2" (books (lib w1r)) <> None) by now rewrite Lr.
  assert (HM1r : dict_get "M1" (members (lib w1r)) <> None) by now rewrite Lr.
  destruct (script_on_stocked t3 t4 w1r b1 Hs1r Hb1r Hav1 HB2r HM1r Hc3)
    as (w2 & Hrun2 & L2 & D2).
  exists w1, w2. unfold main. rewrite Hload, Hreload. cbn [lbind].
  rewrite Hrun, Hrun2. split; [reflexivity|]. split; [reflexivity|].
  split; [now rewrite L2|]. split; [now rewrite D2, Lr|].
  intros ->. destruct Hcases as [[_ ->]|(data & Hd & _)]; [|discriminate].
  destruct (script_from_scratch t1 t2 Hc1) as (w' & Hrun' & Hlib').
  rewrite Hrun' in Hrun. now injection Hrun as <-.
Qed.

Lemma main_twice_witness :
  exists w1 w2,
    main Absent (datetime_of 2024 3 1 0) (datetime_of 2024 3 1 60000000)
    = Loaded (Return tt w1)
    /\ main (disk w1) (datetime_of 2024 4 1 0) (datetime_of 2024 4 20 0)
       = Loaded (Return tt w2)
    /\ lib w2 = script_library.
Proof.
  assert (Hp : due_dates_parse (lib empty_world))
    by (intros k b H; discriminate H).
  assert (Hc1 : due_in_calendar (datetime_of 2024 3 1 0))
    by (split; vm_compute; discriminate).
  assert (Hc3 : due_in_calendar (datetime_of 2024 4 1 0))
    by (split; vm_compute; discriminate).
  destruct (main_twice Absent empty_world
              (datetime_of 2024 3 1 0) (datetime_of 2024 3 1 60000000)
              (datetime_of 2024 4 1 0) (datetime_of 2024 4 20 0)
              eq_refl empty_world_inv Hp Hc1 Hc3)
    as (w1 & w2 & H1 & H2 & L2 & _ & Lscratch).
  exists w1, w2. split; [exact H1|]. split; [exact H2|].
  rewrite L2. exact (Lscratch eq_refl).
Defined.

(** ** The order of a member's list *)

Lemma without_absent x l : ~ In x l -> without x l = l.
Proof.
  unfold without. induction l as [|y l IH]; intros H; cbn; [reflexivity|].
  destruct (String.eqb_spec y x) as [->|Hne]; cbn.
  - exfalso. apply H. now left.
  - rewrite IH; [reflexivity|]. intros HI. apply H. now right.
Qed.

Lemma list_remove_once x l :
  count x l = 1%nat -> list_remove x l = Ok (without x l).
Proof.
  unfold without, count. induction l as [|y l IH]; cbn; [discriminate|].
  destruct (string_dec y x) as [->|Hne].
  - rewrite String.eqb_refl. cbn. intros [= H]. f_equal. symmetry.
    apply (without_absent x l). now apply (count_occ_not_In string_dec).
  - intros H. destruct (String.eqb_spec x y) as [->|_]; [congruence|].
    destruct (String.eqb_spec y x) as [->|_]; [congruence|]. cbn.
    now rewrite (IH H).
Qed.

(** X20.  On a store that satisfies the invariant of the operations, a
    successful [return_book] takes the id of the book out of the list of
    its borrower and leaves the other ids of that list in their order;
    the id is then in no member's list. *)
Theorem return_book_keeps_order (w w' : World) (bid : string) (now : datetime)
    (fine : Q) :
  store_inv (lib w) ->
  return_book bid now w = Return (true, fine) w' ->
  (exists book mk member member',
      dict_get bid (books (lib w)) = Some book
      /\ borrower book = Some mk
      /\ dict_get mk (members (lib w)) = Some member
      /\ dict_get mk (members (lib w')) = Some member'
      /\ borrowed_books member' = without bid (borrowed_books member))
  /\ (forall k m, dict_get k (members (lib w')) = Some m ->
                  ~ In bid (borrowed_books m)).
Proof.
  intros Hinv Hret.
  pose proof (return_book_keeps_inv w bid now Hinv) as Hinv'.
  rewrite Hret in Hinv'. cbn [after] in Hinv'.
  destruct (return_book_true _ _ _ _ _ Hret)
    as (_ & book & mk & member & rest & Hb & Hav & Hbo & Hm & Hrest & ->).
  pose proof Hinv as (HA & HB & _).
  destruct (HA bid book Hb) as (H1 & _).
  destruct (H1 Hav) as (mk0 & m0 & Hbo0 & Hm0 & Hc).
  assert (mk0 = mk) as -> by congruence.
  assert (m0 = member) as -> by congruence.
  rewrite (HB bid book Hb) in Hc.
  rewrite (list_remove_once bid _ Hc) in Hrest. injection Hrest as <-.
  split.
  - exists book, mk, member,
      (with_borrowed_books (without bid (borrowed_books member)) member).
    split; [exact Hb|]. split; [exact Hbo|]. split; [exact Hm|].
    split; [cbn; apply dict_get_set_eq|reflexivity].
  - intros k m Hk.
    destruct Hinv' as (HA' & HB' & _).
    assert (Hb' : dict_get bid
                    (books (lib (save_data
                                   (put_book bid (shelved book)
                                      (put_member mk
                                         (with_borrowed_books
                                            (without bid (borrowed_books member))
                                            member) w)))))
                  = Some (shelved book)) by (cbn; apply dict_get_set_eq).
    destruct (HA' bid _ Hb') as (_ & H2 & _).
    pose proof (H2 eq_refl k m Hk) as Hnot.
    cbn [book_id shelved] in Hnot. now rewrite (HB bid book Hb) in Hnot.
Qed.

Lemma return_book_keeps_order_witness :
  store_inv (lib empty_world)
  /\ exists w1 w2 m,
       run [AddBook "B1" "Dune" "Frank Herbert"; AddBook "B2" "Emma" "Jane Austen";
            AddBook "B3" "Ulysses" "James Joyce";
            AddMember "M1" "Paul" "paul@dune.org";
            BorrowBook "B1" "M1" (datetime_of 2024 3 1 0);
            BorrowBook "B2" "M1" (datetime_of 2024 3 2 0);
            BorrowBook "B3" "M1" (datetime_of 2024 3 3 0)] empty_world = w1
       /\ return_book "B2" (datetime_of 2024 3 4 0) w1 = Return (true, 0%Q) w2
       /\ dict_get "M1" (members (lib w2)) = Some m
       /\ borrowed_books m = ["B1"; "B3"].
Proof.
  split; [exact empty_world_inv|].
  set (calls := [AddBook "B1" "Dune" "Frank Herbert";
                 AddBook "B2" "Emma" "Jane Austen";
                 AddBook "B3" "Ulysses" "James Joyce";
                 AddMember "M1" "Paul" "paul@dune.org";
                 BorrowBook "B1" "M1" (datetime_of 2024 3 1 0);
                 BorrowBook "B2" "M1" (datetime_of 2024 3 2 0);
                 BorrowBook "B3" "M1" (datetime_of 2024 3 3 0)]).
  assert (Hcal : Forall call_in_calendar calls)
    by (repeat constructor; vm_compute; discriminate).
  pose proof (run_keeps_inv calls empty_world Hcal empty_world_inv) as Hinv.
  assert (Hret : return_book "B2" (datetime_of 2024 3 4 0) (run calls empty_world)
                 = Return (true, 0%Q)
                     (after (return_book "B2" (datetime_of 2024 3 4 0)
                               (run calls empty_world))))
    by (vm_compute; reflexivity).
  destruct (return_book_keeps_order _ _ _ _ _ Hinv Hret)
    as ((book & mk & member & member' & Hb & Hbo & Hm & Hm' & Hlist) & _).
  assert (Hb0 : dict_get "B2" (books (lib (run calls empty_world)))
                = Some {| book_id := "B2"; title := "Emma"; author := "Jane Austen";
                          is_available := false; borrower := Some "M1";
                          due_date := Some "2024-03-16" |})
    by (vm_compute; reflexivity).
  rewrite Hb0 in Hb. injection Hb as <-. cbn in Hbo. injection Hbo as <-.
  assert (Hm0 : dict_get "M1" (members (lib (run calls empty_world)))
                = Some {| member_id := "M1"; name := "Paul";
                          email := "paul@dune.org";
                          borrowed_books := ["B1"; "B2"; "B3"] |})
    by (vm_compute; reflexivity).
  rewrite Hm0 in Hm. injection Hm as <-.
  eexists. eexists. exists member'.
  split; [reflexivity|]. split; [exact Hret|]. split; [exact Hm'|].
  rewrite Hlist. reflexivity.
Defined.
